(** * Decode driver of the video-decode-accelerator test client

    Shallow embedding of
    [content/common/gpu/media/video_decode_accelerator_unittest.cc]:
    the bitstream fragmenter, the picture-buffer pool, the throttling
    wrapper client and the decode-driver state machine
    ([GLRenderingVDAClient]), followed by the properties established
    about them.

    Conventions.
    - [int], [int32] and [uint32] values are [Z]; the only arithmetic the
      code protects against overflow is the bitstream-buffer id, whose
      30-bit mask is written out with [Z.land].  Plain counters are never
      close to their range and are unbounded here.
    - [size_t] cursor positions are [nat] (a 64-bit [size_t] cannot wrap
      on positions derived from an in-memory string).
    - [std::string encoded_data_] is a [list Z], one entry per [char].
    - A failed [CHECK], an access the C++ standard leaves undefined and a
      call through a null [decoder_] all abort the process: the methods
      that can reach one return [option], with [None] for the abort.
    - A failed [DCHECK] aborts in the builds where it is fatal and is
      without effect in the others; the build is a parameter
      ([dcheck_is_fatal]) and the properties hold for both.
    - Calls into collaborators (decoder, rendering helper, notification
      barrier, message loop) are appended to logs kept in the state. *)

From stdpp Require Import gmap list sorting.
From Stdlib Require Import ZArith Lia.

Local Open Scope Z_scope.

(** ** Start-code scanning (H.264 Annex B) *)

(** [encoded[pos]]: [std::string::operator[]] yields ['\0'] at
    [pos == size()]; every use below is shown to stay in range. *)
Definition byte_at (encoded : list Z) (pos : nat) : Z :=
  default 0 (encoded !! pos).

Definition LookingAtNAL (encoded : list Z) (pos : nat) : bool :=
  (byte_at encoded pos =? 0) && (byte_at encoded (pos + 1) =? 0) &&
  (byte_at encoded (pos + 2) =? 0) && (byte_at encoded (pos + 3) =? 1).

(** The [while] loop of [GetBytesForNextNALU]; [fuel] bounds the number of
    iterations and [nalu_scan_exit] shows [length encoded] is enough. *)
Fixpoint nalu_scan (encoded : list Z) (fuel end_pos : nat) : nat :=
  match fuel with
  | O => end_pos
  | S fuel' =>
      if (end_pos + 4 <=? length encoded)%nat && negb (LookingAtNAL encoded end_pos)
      then nalu_scan encoded fuel' (S end_pos)
      else end_pos
  end.

(** [GetBytesForNextNALU(start_pos, &end_pos)]: the value left in
    [*end_pos], or [None] when [CHECK(LookingAtNAL(...))] fails. *)
Definition GetBytesForNextNALU (encoded : list Z) (start_pos : nat) : option nat :=
  if (length encoded <? start_pos + 4)%nat then Some start_pos
  else if negb (LookingAtNAL encoded start_pos) then None
  else
    let end_pos := nalu_scan encoded (length encoded) (start_pos + 4) in
    Some (if (length encoded <=? end_pos + 3)%nat then length encoded else end_pos).

(** [std::string::substr(pos, n)] for [pos <= size()]. *)
Definition substr (encoded : list Z) (pos n : nat) : list Z :=
  take n (drop pos encoded).

(** ** Data model *)

(** [enum ClientState]; [CS_MAX] is the bound of the cascade loop only. *)
Inductive ClientState : Set :=
| CS_CREATED | CS_DECODER_SET | CS_INITIALIZED | CS_FLUSHING | CS_FLUSHED
| CS_RESETTING | CS_RESET | CS_ERROR | CS_DESTROYED.

Definition cs_value (s : ClientState) : Z :=
  match s with
  | CS_CREATED => 0 | CS_DECODER_SET => 1 | CS_INITIALIZED => 2
  | CS_FLUSHING => 3 | CS_FLUSHED => 4 | CS_RESETTING => 5
  | CS_RESET => 6 | CS_ERROR => 7 | CS_DESTROYED => 8
  end.

Definition CS_MAX : Z := 9.

Definition all_states : list ClientState :=
  [CS_CREATED; CS_DECODER_SET; CS_INITIALIZED; CS_FLUSHING; CS_FLUSHED;
   CS_RESETTING; CS_RESET; CS_ERROR; CS_DESTROYED].

#[global] Instance ClientState_eq_dec : EqDecision ClientState.
Proof. solve_decision. Defined.

(** [enum ResetPoint]. *)
Definition START_OF_STREAM_RESET : Z := -3.
Definition MID_STREAM_RESET : Z := -2.
Definition END_OF_STREAM_RESET : Z := -1.

(** [media::Picture] and [media::PictureBuffer], reduced to the members
    the client reads. *)
Record Picture := mkPicture {
  picture_buffer_id : Z;
  bitstream_buffer_id : Z
}.

Record PictureBuffer := mkPictureBuffer {
  pb_id : Z;
  pb_size : Z * Z;
  pb_texture_id : Z
}.

(** Calls made on the [VideoDecodeAccelerator]. *)
Inductive VDACall :=
| VDA_Initialize (profile : Z)
| VDA_Decode (id : Z) (bytes : list Z)
| VDA_AssignPictureBuffers (buffers : list PictureBuffer)
| VDA_ReusePictureBuffer (id : Z)
| VDA_Flush
| VDA_Reset
| VDA_Destroy.

(** Calls made on the [RenderingHelper]. *)
Inductive HelperCall :=
| CreateTexture (window target texture_id : Z)
| DeleteTexture (texture_id : Z)
| RenderTexture (texture_id : Z).

(** ** Throttling wrapper client *)

Module Throttle.

(** What the wrapper does to the outside: calls on the wrapped [client_],
    runs of [reuse_picture_cb_], and tasks posted to the message loop
    (each with its delay in microseconds). *)
Inductive Effect :=
| ClientProvidePictureBuffers (n : Z) (dims : Z * Z) (target : Z)
| ClientDismissPictureBuffer (id : Z)
| ClientPictureReady (p : Picture)
| ClientNotifyInitializeDone
| ClientNotifyEndOfBitstreamBuffer (id : Z)
| ClientNotifyFlushDone
| ClientNotifyResetDone
| ClientNotifyError (error : Z)
| ReusePicture (id : Z)
| PostCallClientPictureReady (version : Z) (delay : Z)
| PostNotifyFlushDone (delay : Z).

(** [base::TimeTicks] and [base::TimeDelta] are microsecond counts; the
    null [TimeTicks()] is 0.  [effects_] is the log of effects, oldest
    first.  [pending_epochs_] and [deliveries_] are ghost instrumentation
    read by no method: the first runs parallel to [pending_pictures_] and
    remembers the [stream_version_] at which each queued picture arrived,
    the second records, for each picture handed to [client_], that arrival
    version and the version current at the hand-over. *)
Record t := mk {
  next_frame_delivered_time_ : Z;
  frame_duration_ : Z;
  num_decoded_frames_ : Z;
  stream_version_ : Z;
  pending_pictures_ : list Picture;
  effects_ : list Effect;
  pending_epochs_ : list Z;
  deliveries_ : list (Picture * Z * Z)
}.

(** The constructor; [frame_duration] is [1s / fps] as computed by
    [base::TimeDelta]. *)
Definition create (frame_duration : Z) : t :=
  mk 0 frame_duration 0 0 [] [] [] [].

Definition emit (e : Effect) (th : t) : t :=
  mk (next_frame_delivered_time_ th) (frame_duration_ th) (num_decoded_frames_ th)
     (stream_version_ th) (pending_pictures_ th) (effects_ th ++ [e])
     (pending_epochs_ th) (deliveries_ th).

Definition is_null (ticks : Z) : bool := ticks =? 0.

(** [PictureReady(picture)]; [now] is the value [TimeTicks::Now()] returns. *)
Definition PictureReady (now : Z) (picture : Picture) (th : t) : t :=
  let th1 :=
    mk (next_frame_delivered_time_ th) (frame_duration_ th)
       (num_decoded_frames_ th + 1) (stream_version_ th)
       (pending_pictures_ th) (effects_ th) (pending_epochs_ th) (deliveries_ th) in
  let th2 :=
    match pending_pictures_ th1 with
    | [] =>
        let delay :=
          if is_null (next_frame_delivered_time_ th1) then 0
          else next_frame_delivered_time_ th1 - now in
        emit (PostCallClientPictureReady (stream_version_ th1) delay) th1
    | _ :: _ => th1
    end in
  mk (next_frame_delivered_time_ th2) (frame_duration_ th2) (num_decoded_frames_ th2)
     (stream_version_ th2) (pending_pictures_ th2 ++ [picture]) (effects_ th2)
     (pending_epochs_ th2 ++ [stream_version_ th2]) (deliveries_ th2).

(** [CallClientPictureReady(version)]; [now] and [now'] are the two
    successive readings of the clock.  [front()] of an empty deque is
    undefined: [None]. *)
Definition CallClientPictureReady (version now now' : Z) (th : t) : option t :=
  if negb (version =? stream_version_ th) then Some th
  else
    let next :=
      if is_null (next_frame_delivered_time_ th) then now
      else next_frame_delivered_time_ th in
    match pending_pictures_ th with
    | [] => None
    | front :: rest =>
        let late := next + frame_duration_ th <? now in
        let effs1 :=
          effects_ th ++
          [if late then ReusePicture (picture_buffer_id front)
           else ClientPictureReady front] in
        let deliveries1 :=
          if late then deliveries_ th
          else deliveries_ th ++
               [(front, default (stream_version_ th) (head (pending_epochs_ th)),
                 stream_version_ th)] in
        let next' := next + frame_duration_ th in
        let effs2 :=
          match rest with
          | [] => effs1
          | _ :: _ => effs1 ++ [PostCallClientPictureReady (stream_version_ th) (next' - now')]
          end in
        Some (mk next' (frame_duration_ th) (num_decoded_frames_ th)
                 (stream_version_ th) rest effs2 (tail (pending_epochs_ th)) deliveries1)
    end.

(** [NotifyFlushDone()]. *)
Definition NotifyFlushDone (now : Z) (th : t) : t :=
  match pending_pictures_ th with
  | _ :: _ => emit (PostNotifyFlushDone (next_frame_delivered_time_ th - now)) th
  | [] => emit ClientNotifyFlushDone th
  end.

(** [NotifyResetDone()]: the [while] loop recycles the queue front to
    back. *)
Definition NotifyResetDone (th : t) : t :=
  emit ClientNotifyResetDone
    (mk 0 (frame_duration_ th) (num_decoded_frames_ th) (stream_version_ th + 1) []
        (effects_ th ++ map (fun p => ReusePicture (picture_buffer_id p)) (pending_pictures_ th))
        [] (deliveries_ th)).

(** The pure forwarders. *)
Definition ProvidePictureBuffers (n : Z) (dims : Z * Z) (target : Z) (th : t) : t :=
  emit (ClientProvidePictureBuffers n dims target) th.
Definition DismissPictureBuffer (id : Z) (th : t) : t :=
  emit (ClientDismissPictureBuffer id) th.
Definition NotifyInitializeDone (th : t) : t := emit ClientNotifyInitializeDone th.
Definition NotifyEndOfBitstreamBuffer (id : Z) (th : t) : t :=
  emit (ClientNotifyEndOfBitstreamBuffer id) th.
Definition NotifyError (error : Z) (th : t) : t := emit (ClientNotifyError error) th.

(** *** Runs of the wrapper *)

(** What reaches the wrapper: callbacks of the decoder and the delayed
    tasks the wrapper posted to itself, each with the clock readings it
    makes. *)
Inductive Event :=
| EvPictureReady (now : Z) (picture : Picture)
| EvCallClientPictureReady (version now now' : Z)
| EvNotifyFlushDone (now : Z)
| EvNotifyResetDone
| EvProvidePictureBuffers (n : Z) (dims : Z * Z) (target : Z)
| EvDismissPictureBuffer (id : Z)
| EvNotifyInitializeDone
| EvNotifyEndOfBitstreamBuffer (id : Z)
| EvNotifyError (error : Z).

Definition handle (ev : Event) (th : t) : option t :=
  match ev with
  | EvPictureReady now picture => Some (PictureReady now picture th)
  | EvCallClientPictureReady version now now' =>
      CallClientPictureReady version now now' th
  | EvNotifyFlushDone now => Some (NotifyFlushDone now th)
  | EvNotifyResetDone => Some (NotifyResetDone th)
  | EvProvidePictureBuffers n dims target =>
      Some (ProvidePictureBuffers n dims target th)
  | EvDismissPictureBuffer id => Some (DismissPictureBuffer id th)
  | EvNotifyInitializeDone => Some (NotifyInitializeDone th)
  | EvNotifyEndOfBitstreamBuffer id => Some (NotifyEndOfBitstreamBuffer id th)
  | EvNotifyError error => Some (NotifyError error th)
  end.

Fixpoint run (evs : list Event) (th : t) : option t :=
  match evs with
  | [] => Some th
  | ev :: evs' => th' ← handle ev th; run evs' th'
  end.

(** Pictures handed to the wrapped client, and pictures given back to
    the decoder without being shown. *)
Definition is_delivery (e : Effect) : bool :=
  match e with ClientPictureReady _ => true | _ => false end.
Definition is_recycle (e : Effect) : bool :=
  match e with ReusePicture _ => true | _ => false end.
Definition is_tick (e : Effect) : bool :=
  match e with PostCallClientPictureReady _ _ => true | _ => false end.

Definition rendered_count (th : t) : Z :=
  Z.of_nat (length (List.filter is_delivery (effects_ th))).
Definition dropped_count (th : t) : Z :=
  Z.of_nat (length (List.filter is_recycle (effects_ th))).

(** The instant compared with the clock on a tick: the stored delivery
    time, or the clock reading itself while none is stored. *)
Definition due_time (now : Z) (th : t) : Z :=
  if is_null (next_frame_delivered_time_ th) then now
  else next_frame_delivered_time_ th.

(** Every queued picture arrived in the current stream version, and
    every picture handed over was handed over in the version in which it
    arrived. *)
Definition epochs_consistent (th : t) : Prop :=
  length (pending_epochs_ th) = length (pending_pictures_ th) /\
  Forall (fun e => e = stream_version_ th) (pending_epochs_ th) /\
  Forall (fun r => r.1.2 = r.2) (deliveries_ th) /\
  0 <= stream_version_ th.

End Throttle.

(** ** The decode driver: [GLRenderingVDAClient] *)

(** [decoder_] records whether the [scoped_ptr] is non-null; the calls the
    decoder receives go to [decoder_log_].  [note_] is the sequence of
    states passed to [note_->Notify], [rendering_helper_] the calls on the
    rendering helper, [message_loop_] the delayed [ReusePictureBuffer]
    tasks (buffer id, delay).  The last six fields are fixed by the
    constructor. *)
Record Driver := mkDriver {
  encoded_data_ : list Z;
  outstanding_decodes_ : Z;
  encoded_data_next_pos_to_decode_ : nat;
  next_bitstream_buffer_id_ : Z;
  decoder_ : bool;
  outstanding_texture_ids_ : gset Z;
  remaining_play_throughs_ : Z;
  reset_after_frame_num_ : Z;
  state_ : ClientState;
  num_skipped_fragments_ : Z;
  num_queued_fragments_ : Z;
  num_decoded_frames_ : Z;
  num_done_bitstream_buffers_ : Z;
  picture_buffers_by_id_ : gmap Z PictureBuffer;
  initialize_done_ticks_ : Z;
  frame_delivery_times_ : list Z;
  throttling_client_ : option Throttle.t;
  note_ : list ClientState;
  decoder_log_ : list VDACall;
  rendering_helper_ : list HelperCall;
  message_loop_ : list (Z * Z);
  num_in_flight_decodes_ : Z;
  delete_decoder_state_ : Z;
  profile_ : Z;
  suppress_rendering_ : bool;
  delay_reuse_after_frame_num_ : Z;
  rendering_window_id_ : Z
}.

(** Field updates. *)
Definition set_encoded_data (v : list Z) (d : Driver) : Driver :=
  mkDriver v (outstanding_decodes_ d) (encoded_data_next_pos_to_decode_ d)
    (next_bitstream_buffer_id_ d) (decoder_ d) (outstanding_texture_ids_ d)
    (remaining_play_throughs_ d) (reset_after_frame_num_ d) (state_ d)
    (num_skipped_fragments_ d) (num_queued_fragments_ d) (num_decoded_frames_
    d) (num_done_bitstream_buffers_ d) (picture_buffers_by_id_ d)
    (initialize_done_ticks_ d) (frame_delivery_times_ d) (throttling_client_
    d) (note_ d) (decoder_log_ d) (rendering_helper_ d) (message_loop_ d)
    (num_in_flight_decodes_ d) (delete_decoder_state_ d) (profile_ d)
    (suppress_rendering_ d) (delay_reuse_after_frame_num_ d)
    (rendering_window_id_ d).
Definition set_outstanding_decodes (v : Z) (d : Driver) : Driver :=
  mkDriver (encoded_data_ d) v (encoded_data_next_pos_to_decode_ d)
    (next_bitstream_buffer_id_ d) (decoder_ d) (outstanding_texture_ids_ d)
    (remaining_play_throughs_ d) (reset_after_frame_num_ d) (state_ d)
    (num_skipped_fragments_ d) (num_queued_fragments_ d) (num_decoded_frames_
    d) (num_done_bitstream_buffers_ d) (picture_buffers_by_id_ d)
    (initialize_done_ticks_ d) (frame_delivery_times_ d) (throttling_client_
    d) (note_ d) (decoder_log_ d) (rendering_helper_ d) (message_loop_ d)
    (num_in_flight_decodes_ d) (delete_decoder_state_ d) (profile_ d)
    (suppress_rendering_ d) (delay_reuse_after_frame_num_ d)
    (rendering_window_id_ d).
Definition set_encoded_data_next_pos_to_decode (v : nat) (d : Driver) : Driver :=
  mkDriver (encoded_data_ d) (outstanding_decodes_ d) v
    (next_bitstream_buffer_id_ d) (decoder_ d) (outstanding_texture_ids_ d)
    (remaining_play_throughs_ d) (reset_after_frame_num_ d) (state_ d)
    (num_skipped_fragments_ d) (num_queued_fragments_ d) (num_decoded_frames_
    d) (num_done_bitstream_buffers_ d) (picture_buffers_by_id_ d)
    (initialize_done_ticks_ d) (frame_delivery_times_ d) (throttling_client_
    d) (note_ d) (decoder_log_ d) (rendering_helper_ d) (message_loop_ d)
    (num_in_flight_decodes_ d) (delete_decoder_state_ d) (profile_ d)
    (suppress_rendering_ d) (delay_reuse_after_frame_num_ d)
    (rendering_window_id_ d).
Definition set_next_bitstream_buffer_id (v : Z) (d : Driver) : Driver :=
  mkDriver (encoded_data_ d) (outstanding_decodes_ d)
    (encoded_data_next_pos_to_decode_ d) v (decoder_ d)
    (outstanding_texture_ids_ d) (remaining_play_throughs_ d)
    (reset_after_frame_num_ d) (state_ d) (num_skipped_fragments_ d)
    (num_queued_fragments_ d) (num_decoded_frames_ d)
    (num_done_bitstream_buffers_ d) (picture_buffers_by_id_ d)
    (initialize_done_ticks_ d) (frame_delivery_times_ d) (throttling_client_
    d) (note_ d) (decoder_log_ d) (rendering_helper_ d) (message_loop_ d)
    (num_in_flight_decodes_ d) (delete_decoder_state_ d) (profile_ d)
    (suppress_rendering_ d) (delay_reuse_after_frame_num_ d)
    (rendering_window_id_ d).
Definition set_decoder (v : bool) (d : Driver) : Driver :=
  mkDriver (encoded_data_ d) (outstanding_decodes_ d)
    (encoded_data_next_pos_to_decode_ d) (next_bitstream_buffer_id_ d) v
    (outstanding_texture_ids_ d) (remaining_play_throughs_ d)
    (reset_after_frame_num_ d) (state_ d) (num_skipped_fragments_ d)
    (num_queued_fragments_ d) (num_decoded_frames_ d)
    (num_done_bitstream_buffers_ d) (picture_buffers_by_id_ d)
    (initialize_done_ticks_ d) (frame_delivery_times_ d) (throttling_client_
    d) (note_ d) (decoder_log_ d) (rendering_helper_ d) (message_loop_ d)
    (num_in_flight_decodes_ d) (delete_decoder_state_ d) (profile_ d)
    (suppress_rendering_ d) (delay_reuse_after_frame_num_ d)
    (rendering_window_id_ d).
Definition set_outstanding_texture_ids (v : gset Z) (d : Driver) : Driver :=
  mkDriver (encoded_data_ d) (outstanding_decodes_ d)
    (encoded_data_next_pos_to_decode_ d) (next_bitstream_buffer_id_ d)
    (decoder_ d) v (remaining_play_throughs_ d) (reset_after_frame_num_ d)
    (state_ d) (num_skipped_fragments_ d) (num_queued_fragments_ d)
    (num_decoded_frames_ d) (num_done_bitstream_buffers_ d)
    (picture_buffers_by_id_ d) (initialize_done_ticks_ d)
    (frame_delivery_times_ d) (throttling_client_ d) (note_ d) (decoder_log_
    d) (rendering_helper_ d) (message_loop_ d) (num_in_flight_decodes_ d)
    (delete_decoder_state_ d) (profile_ d) (suppress_rendering_ d)
    (delay_reuse_after_frame_num_ d) (rendering_window_id_ d).
Definition set_remaining_play_throughs (v : Z) (d : Driver) : Driver :=
  mkDriver (encoded_data_ d) (outstanding_decodes_ d)
    (encoded_data_next_pos_to_decode_ d) (next_bitstream_buffer_id_ d)
    (decoder_ d) (outstanding_texture_ids_ d) v (reset_after_frame_num_ d)
    (state_ d) (num_skipped_fragments_ d) (num_queued_fragments_ d)
    (num_decoded_frames_ d) (num_done_bitstream_buffers_ d)
    (picture_buffers_by_id_ d) (initialize_done_ticks_ d)
    (frame_delivery_times_ d) (throttling_client_ d) (note_ d) (decoder_log_
    d) (rendering_helper_ d) (message_loop_ d) (num_in_flight_decodes_ d)
    (delete_decoder_state_ d) (profile_ d) (suppress_rendering_ d)
    (delay_reuse_after_frame_num_ d) (rendering_window_id_ d).
Definition set_reset_after_frame_num (v : Z) (d : Driver) : Driver :=
  mkDriver (encoded_data_ d) (outstanding_decodes_ d)
    (encoded_data_next_pos_to_decode_ d) (next_bitstream_buffer_id_ d)
    (decoder_ d) (outstanding_texture_ids_ d) (remaining_play_throughs_ d) v
    (state_ d) (num_skipped_fragments_ d) (num_queued_fragments_ d)
    (num_decoded_frames_ d) (num_done_bitstream_buffers_ d)
    (picture_buffers_by_id_ d) (initialize_done_ticks_ d)
    (frame_delivery_times_ d) (throttling_client_ d) (note_ d) (decoder_log_
    d) (rendering_helper_ d) (message_loop_ d) (num_in_flight_decodes_ d)
    (delete_decoder_state_ d) (profile_ d) (suppress_rendering_ d)
    (delay_reuse_after_frame_num_ d) (rendering_window_id_ d).
Definition set_state (v : ClientState) (d : Driver) : Driver :=
  mkDriver (encoded_data_ d) (outstanding_decodes_ d)
    (encoded_data_next_pos_to_decode_ d) (next_bitstream_buffer_id_ d)
    (decoder_ d) (outstanding_texture_ids_ d) (remaining_play_throughs_ d)
    (reset_after_frame_num_ d) v (num_skipped_fragments_ d)
    (num_queued_fragments_ d) (num_decoded_frames_ d)
    (num_done_bitstream_buffers_ d) (picture_buffers_by_id_ d)
    (initialize_done_ticks_ d) (frame_delivery_times_ d) (throttling_client_
    d) (note_ d) (decoder_log_ d) (rendering_helper_ d) (message_loop_ d)
    (num_in_flight_decodes_ d) (delete_decoder_state_ d) (profile_ d)
    (suppress_rendering_ d) (delay_reuse_after_frame_num_ d)
    (rendering_window_id_ d).
Definition set_num_skipped_fragments (v : Z) (d : Driver) : Driver :=
  mkDriver (encoded_data_ d) (outstanding_decodes_ d)
    (encoded_data_next_pos_to_decode_ d) (next_bitstream_buffer_id_ d)
    (decoder_ d) (outstanding_texture_ids_ d) (remaining_play_throughs_ d)
    (reset_after_frame_num_ d) (state_ d) v (num_queued_fragments_ d)
    (num_decoded_frames_ d) (num_done_bitstream_buffers_ d)
    (picture_buffers_by_id_ d) (initialize_done_ticks_ d)
    (frame_delivery_times_ d) (throttling_client_ d) (note_ d) (decoder_log_
    d) (rendering_helper_ d) (message_loop_ d) (num_in_flight_decodes_ d)
    (delete_decoder_state_ d) (profile_ d) (suppress_rendering_ d)
    (delay_reuse_after_frame_num_ d) (rendering_window_id_ d).
Definition set_num_queued_fragments (v : Z) (d : Driver) : Driver :=
  mkDriver (encoded_data_ d) (outstanding_decodes_ d)
    (encoded_data_next_pos_to_decode_ d) (next_bitstream_buffer_id_ d)
    (decoder_ d) (outstanding_texture_ids_ d) (remaining_play_throughs_ d)
    (reset_after_frame_num_ d) (state_ d) (num_skipped_fragments_ d) v
    (num_decoded_frames_ d) (num_done_bitstream_buffers_ d)
    (picture_buffers_by_id_ d) (initialize_done_ticks_ d)
    (frame_delivery_times_ d) (throttling_client_ d) (note_ d) (decoder_log_
    d) (rendering_helper_ d) (message_loop_ d) (num_in_flight_decodes_ d)
    (delete_decoder_state_ d) (profile_ d) (suppress_rendering_ d)
    (delay_reuse_after_frame_num_ d) (rendering_window_id_ d).
Definition set_num_decoded_frames (v : Z) (d : Driver) : Driver :=
  mkDriver (encoded_data_ d) (outstanding_decodes_ d)
    (encoded_data_next_pos_to_decode_ d) (next_bitstream_buffer_id_ d)
    (decoder_ d) (outstanding_texture_ids_ d) (remaining_play_throughs_ d)
    (reset_after_frame_num_ d) (state_ d) (num_skipped_fragments_ d)
    (num_queued_fragments_ d) v (num_done_bitstream_buffers_ d)
    (picture_buffers_by_id_ d) (initialize_done_ticks_ d)
    (frame_delivery_times_ d) (throttling_client_ d) (note_ d) (decoder_log_
    d) (rendering_helper_ d) (message_loop_ d) (num_in_flight_decodes_ d)
    (delete_decoder_state_ d) (profile_ d) (suppress_rendering_ d)
    (delay_reuse_after_frame_num_ d) (rendering_window_id_ d).
Definition set_num_done_bitstream_buffers (v : Z) (d : Driver) : Driver :=
  mkDriver (encoded_data_ d) (outstanding_decodes_ d)
    (encoded_data_next_pos_to_decode_ d) (next_bitstream_buffer_id_ d)
    (decoder_ d) (outstanding_texture_ids_ d) (remaining_play_throughs_ d)
    (reset_after_frame_num_ d) (state_ d) (num_skipped_fragments_ d)
    (num_queued_fragments_ d) (num_decoded_frames_ d) v
    (picture_buffers_by_id_ d) (initialize_done_ticks_ d)
    (frame_delivery_times_ d) (throttling_client_ d) (note_ d) (decoder_log_
    d) (rendering_helper_ d) (message_loop_ d) (num_in_flight_decodes_ d)
    (delete_decoder_state_ d) (profile_ d) (suppress_rendering_ d)
    (delay_reuse_after_frame_num_ d) (rendering_window_id_ d).
Definition set_picture_buffers_by_id (v : gmap Z PictureBuffer) (d : Driver) : Driver :=
  mkDriver (encoded_data_ d) (outstanding_decodes_ d)
    (encoded_data_next_pos_to_decode_ d) (next_bitstream_buffer_id_ d)
    (decoder_ d) (outstanding_texture_ids_ d) (remaining_play_throughs_ d)
    (reset_after_frame_num_ d) (state_ d) (num_skipped_fragments_ d)
    (num_queued_fragments_ d) (num_decoded_frames_ d)
    (num_done_bitstream_buffers_ d) v (initialize_done_ticks_ d)
    (frame_delivery_times_ d) (throttling_client_ d) (note_ d) (decoder_log_
    d) (rendering_helper_ d) (message_loop_ d) (num_in_flight_decodes_ d)
    (delete_decoder_state_ d) (profile_ d) (suppress_rendering_ d)
    (delay_reuse_after_frame_num_ d) (rendering_window_id_ d).
Definition set_initialize_done_ticks (v : Z) (d : Driver) : Driver :=
  mkDriver (encoded_data_ d) (outstanding_decodes_ d)
    (encoded_data_next_pos_to_decode_ d) (next_bitstream_buffer_id_ d)
    (decoder_ d) (outstanding_texture_ids_ d) (remaining_play_throughs_ d)
    (reset_after_frame_num_ d) (state_ d) (num_skipped_fragments_ d)
    (num_queued_fragments_ d) (num_decoded_frames_ d)
    (num_done_bitstream_buffers_ d) (picture_buffers_by_id_ d) v
    (frame_delivery_times_ d) (throttling_client_ d) (note_ d) (decoder_log_
    d) (rendering_helper_ d) (message_loop_ d) (num_in_flight_decodes_ d)
    (delete_decoder_state_ d) (profile_ d) (suppress_rendering_ d)
    (delay_reuse_after_frame_num_ d) (rendering_window_id_ d).
Definition set_frame_delivery_times (v : list Z) (d : Driver) : Driver :=
  mkDriver (encoded_data_ d) (outstanding_decodes_ d)
    (encoded_data_next_pos_to_decode_ d) (next_bitstream_buffer_id_ d)
    (decoder_ d) (outstanding_texture_ids_ d) (remaining_play_throughs_ d)
    (reset_after_frame_num_ d) (state_ d) (num_skipped_fragments_ d)
    (num_queued_fragments_ d) (num_decoded_frames_ d)
    (num_done_bitstream_buffers_ d) (picture_buffers_by_id_ d)
    (initialize_done_ticks_ d) v (throttling_client_ d) (note_ d)
    (decoder_log_ d) (rendering_helper_ d) (message_loop_ d)
    (num_in_flight_decodes_ d) (delete_decoder_state_ d) (profile_ d)
    (suppress_rendering_ d) (delay_reuse_after_frame_num_ d)
    (rendering_window_id_ d).
Definition set_throttling_client (v : option Throttle.t) (d : Driver) : Driver :=
  mkDriver (encoded_data_ d) (outstanding_decodes_ d)
    (encoded_data_next_pos_to_decode_ d) (next_bitstream_buffer_id_ d)
    (decoder_ d) (outstanding_texture_ids_ d) (remaining_play_throughs_ d)
    (reset_after_frame_num_ d) (state_ d) (num_skipped_fragments_ d)
    (num_queued_fragments_ d) (num_decoded_frames_ d)
    (num_done_bitstream_buffers_ d) (picture_buffers_by_id_ d)
    (initialize_done_ticks_ d) (frame_delivery_times_ d) v (note_ d)
    (decoder_log_ d) (rendering_helper_ d) (message_loop_ d)
    (num_in_flight_decodes_ d) (delete_decoder_state_ d) (profile_ d)
    (suppress_rendering_ d) (delay_reuse_after_frame_num_ d)
    (rendering_window_id_ d).
Definition set_note (v : list ClientState) (d : Driver) : Driver :=
  mkDriver (encoded_data_ d) (outstanding_decodes_ d)
    (encoded_data_next_pos_to_decode_ d) (next_bitstream_buffer_id_ d)
    (decoder_ d) (outstanding_texture_ids_ d) (remaining_play_throughs_ d)
    (reset_after_frame_num_ d) (state_ d) (num_skipped_fragments_ d)
    (num_queued_fragments_ d) (num_decoded_frames_ d)
    (num_done_bitstream_buffers_ d) (picture_buffers_by_id_ d)
    (initialize_done_ticks_ d) (frame_delivery_times_ d) (throttling_client_
    d) v (decoder_log_ d) (rendering_helper_ d) (message_loop_ d)
    (num_in_flight_decodes_ d) (delete_decoder_state_ d) (profile_ d)
    (suppress_rendering_ d) (delay_reuse_after_frame_num_ d)
    (rendering_window_id_ d).
Definition set_decoder_log (v : list VDACall) (d : Driver) : Driver :=
  mkDriver (encoded_data_ d) (outstanding_decodes_ d)
    (encoded_data_next_pos_to_decode_ d) (next_bitstream_buffer_id_ d)
    (decoder_ d) (outstanding_texture_ids_ d) (remaining_play_throughs_ d)
    (reset_after_frame_num_ d) (state_ d) (num_skipped_fragments_ d)
    (num_queued_fragments_ d) (num_decoded_frames_ d)
    (num_done_bitstream_buffers_ d) (picture_buffers_by_id_ d)
    (initialize_done_ticks_ d) (frame_delivery_times_ d) (throttling_client_
    d) (note_ d) v (rendering_helper_ d) (message_loop_ d)
    (num_in_flight_decodes_ d) (delete_decoder_state_ d) (profile_ d)
    (suppress_rendering_ d) (delay_reuse_after_frame_num_ d)
    (rendering_window_id_ d).
Definition set_rendering_helper (v : list HelperCall) (d : Driver) : Driver :=
  mkDriver (encoded_data_ d) (outstanding_decodes_ d)
    (encoded_data_next_pos_to_decode_ d) (next_bitstream_buffer_id_ d)
    (decoder_ d) (outstanding_texture_ids_ d) (remaining_play_throughs_ d)
    (reset_after_frame_num_ d) (state_ d) (num_skipped_fragments_ d)
    (num_queued_fragments_ d) (num_decoded_frames_ d)
    (num_done_bitstream_buffers_ d) (picture_buffers_by_id_ d)
    (initialize_done_ticks_ d) (frame_delivery_times_ d) (throttling_client_
    d) (note_ d) (decoder_log_ d) v (message_loop_ d) (num_in_flight_decodes_
    d) (delete_decoder_state_ d) (profile_ d) (suppress_rendering_ d)
    (delay_reuse_after_frame_num_ d) (rendering_window_id_ d).
Definition set_message_loop (v : list (Z * Z)) (d : Driver) : Driver :=
  mkDriver (encoded_data_ d) (outstanding_decodes_ d)
    (encoded_data_next_pos_to_decode_ d) (next_bitstream_buffer_id_ d)
    (decoder_ d) (outstanding_texture_ids_ d) (remaining_play_throughs_ d)
    (reset_after_frame_num_ d) (state_ d) (num_skipped_fragments_ d)
    (num_queued_fragments_ d) (num_decoded_frames_ d)
    (num_done_bitstream_buffers_ d) (picture_buffers_by_id_ d)
    (initialize_done_ticks_ d) (frame_delivery_times_ d) (throttling_client_
    d) (note_ d) (decoder_log_ d) (rendering_helper_ d) v
    (num_in_flight_decodes_ d) (delete_decoder_state_ d) (profile_ d)
    (suppress_rendering_ d) (delay_reuse_after_frame_num_ d)
    (rendering_window_id_ d).

Definition kReuseDelay : Z := 1000000.
Definition H264PROFILE_BASELINE : Z := 0.

Definition decoder_deleted (d : Driver) : bool := negb (decoder_ d).

(** [decoder_->m(...)]: aborts on a null [decoder_]. *)
Definition call_decoder (c : VDACall) (d : Driver) : option Driver :=
  if decoder_deleted d then None
  else Some (set_decoder_log (decoder_log_ d ++ [c]) d).

Definition call_helper (c : HelperCall) (d : Driver) : Driver :=
  set_rendering_helper (rendering_helper_ d ++ [c]) d.

(** [num_decoded_frames()]. *)
Definition num_decoded_frames (d : Driver) : Z :=
  match throttling_client_ d with
  | Some th => Throttle.num_decoded_frames_ th
  | None => num_decoded_frames_ d
  end.

(** The constructor ([CHECK_GT(num_in_flight_decodes, 0)],
    [CHECK_GT(num_play_throughs, 0)]); [frame_duration] is [Some] of the
    throttling interval when [rendering_fps > 0]. *)
Definition create (window : Z) (encoded_data : list Z)
    (num_in_flight_decodes num_play_throughs reset_after_frame_num
     delete_decoder_state profile : Z) (frame_duration : option Z)
    (suppress_rendering : bool) (delay_reuse_after_frame_num : Z) : option Driver :=
  if (0 <? num_in_flight_decodes) && (0 <? num_play_throughs) then
    Some (mkDriver encoded_data 0 0%nat 0 false ∅ num_play_throughs
            reset_after_frame_num CS_CREATED 0 0 0 0 ∅ 0 []
            (Throttle.create <$> frame_duration) [] [] [] []
            num_in_flight_decodes delete_decoder_state profile
            suppress_rendering delay_reuse_after_frame_num window)
  else None.

(** *** State changes and decoder deletion

    [SetState] and [DeleteDecoder] call each other.  [SetState_with del]
    is the body of [SetState] with the call to [DeleteDecoder] left open;
    the cascade inside [DeleteDecoder] runs with [decoder_] already
    released, where [CHECK(!decoder_deleted())] fails before that call can
    be reached ([SetState_with_deleted]). *)
Definition SetState_with (del : Driver -> option Driver)
    (new_state : ClientState) (d : Driver) : option Driver :=
  let d := set_note (note_ d ++ [new_state]) d in
  let d := set_state new_state d in
  if (remaining_play_throughs_ d =? 0) &&
     (cs_value new_state =? delete_decoder_state_ d)
  then if decoder_deleted d then None else del d
  else Some d.

(** The states visited by [for (int i = state_ + 1; i < CS_MAX; ++i)]. *)
Definition states_above (s : ClientState) : list ClientState :=
  List.filter (fun s' => (cs_value s <? cs_value s') && (cs_value s' <? CS_MAX))
    all_states.

Definition cascade (states : list ClientState) (d : Driver) : option Driver :=
  foldl (fun acc s => acc ≫= SetState_with (fun _ => None) s) (Some d) states.

Definition DeleteDecoder (d : Driver) : option Driver :=
  if decoder_deleted d then Some d
  else
    let d := set_decoder false (set_decoder_log (decoder_log_ d ++ [VDA_Destroy]) d) in
    let d := set_encoded_data [] d in
    let d :=
      set_rendering_helper
        (rendering_helper_ d ++
         map DeleteTexture (merge_sort Z.le (elements (outstanding_texture_ids_ d)))) d in
    let d := set_outstanding_texture_ids ∅ d in
    cascade (states_above (state_ d)) d.

Definition SetState : ClientState -> Driver -> option Driver :=
  SetState_with DeleteDecoder.


(** *** Picture-buffer pool *)

(** One iteration of the loop of [ProvidePictureBuffers]; [texture_id] is
    what [CreateTexture] stored. *)
Definition provide_one (dims : Z * Z) (texture_target : Z)
    (acc : option (Driver * list PictureBuffer)) (texture_id : Z)
    : option (Driver * list PictureBuffer) :=
  '(d, buffers) ← acc;
  let id := Z.of_nat (size (picture_buffers_by_id_ d)) in
  let d := call_helper (CreateTexture (rendering_window_id_ d) texture_target texture_id) d in
  if decide (texture_id ∈ outstanding_texture_ids_ d) then None
  else
    let d := set_outstanding_texture_ids ({[texture_id]} ∪ outstanding_texture_ids_ d) d in
    let buffer := mkPictureBuffer id dims texture_id in
    match picture_buffers_by_id_ d !! id with
    | Some _ => None
    | None =>
        Some (set_picture_buffers_by_id (<[id := buffer]> (picture_buffers_by_id_ d)) d,
              buffers ++ [buffer])
    end.

(** [ProvidePictureBuffers(requested_num_of_buffers, dimensions,
    texture_target)], where [textures] lists the ids returned by the
    [requested_num_of_buffers] calls of [CreateTexture]. *)
Definition ProvidePictureBuffers (dims : Z * Z) (texture_target : Z)
    (textures : list Z) (d : Driver) : option Driver :=
  if decoder_deleted d then Some d
  else
    '(d, buffers) ← foldl (provide_one dims texture_target) (Some (d, [])) textures;
    call_decoder (VDA_AssignPictureBuffers buffers) d.

Definition DismissPictureBuffer (id : Z) (d : Driver) : option Driver :=
  buffer ← picture_buffers_by_id_ d !! id;
  if decide (pb_texture_id buffer ∈ outstanding_texture_ids_ d) then
    let d := set_outstanding_texture_ids
               (outstanding_texture_ids_ d ∖ {[pb_texture_id buffer]}) d in
    let d := call_helper (DeleteTexture (pb_texture_id buffer)) d in
    Some (set_picture_buffers_by_id (delete id (picture_buffers_by_id_ d)) d)
  else None.

Definition NotifyFrameDropped (id : Z) (d : Driver) : option Driver :=
  call_decoder (VDA_ReusePictureBuffer id) d.

Section Driver.

(** [DCHECK(condition)] of [base/logging.h]: a failed one aborts the
    process in a build where it is fatal (a debug build) and changes
    nothing of the client in the other builds; [main] asks for
    [ENABLE_DCHECK_FOR_NON_OFFICIAL_RELEASE_BUILDS].  Which build it is, is
    a parameter. *)
Variable dcheck_is_fatal : bool.

Definition DCHECK (condition : bool) : option unit :=
  if dcheck_is_fatal && negb condition then None else Some tt.

(** [media::H264PROFILE_MAX] and [media::VP8PROFILE_MAX], declared in
    [media/base/video_decoder_config.h]; the driver only compares
    [profile_] with them. *)
Variables H264PROFILE_MAX VP8PROFILE_MAX : Z.

(** *** Fragmenter *)

(** The 32-bit little-endian word at [pos] (the hosts of this test are
    little-endian); reading past the string is undefined. *)
Definition read_uint32 (encoded : list Z) (pos : nat) : option Z :=
  if (pos + 4 <=? length encoded)%nat then
    Some ((byte_at encoded pos) `mod` 256
          + 256 * ((byte_at encoded (pos + 1)) `mod` 256)
          + 65536 * ((byte_at encoded (pos + 2)) `mod` 256)
          + 16777216 * ((byte_at encoded (pos + 3)) `mod` 256))
  else None.

(** [GetBytesForNextFrame(start_pos, &end_pos)] (VP8 in IVF): the bytes
    returned, [*end_pos] and the updated client.  [substr] throws when its
    position is past the end. *)
Definition GetBytesForNextFrame (start_pos : nat) (d : Driver)
    : option (list Z * nat * Driver) :=
  let start_pos := if (start_pos =? 0)%nat then 32%nat else start_pos in
  let end_pos := start_pos in
  frame_size ← read_uint32 (encoded_data_ d) end_pos;
  let end_pos := (end_pos + 12)%nat in
  if (length (encoded_data_ d) <? end_pos)%nat then None
  else
    let bytes := substr (encoded_data_ d) end_pos (Z.to_nat frame_size) in
    let end_pos := (end_pos + Z.to_nat frame_size)%nat in
    Some (bytes, end_pos, set_num_queued_fragments (num_queued_fragments_ d + 1) d).

(** [GetBytesForNextFragment(start_pos, &end_pos)]. *)
Definition GetBytesForNextFragment (start_pos : nat) (d : Driver)
    : option (list Z * nat * Driver) :=
  if profile_ d <? H264PROFILE_MAX then
    end_pos ← GetBytesForNextNALU (encoded_data_ d) start_pos;
    let d :=
      if negb (start_pos =? end_pos)%nat
      then set_num_queued_fragments (num_queued_fragments_ d + 1) d else d in
    if (length (encoded_data_ d) <? start_pos)%nat then None
    else Some (substr (encoded_data_ d) start_pos (end_pos - start_pos), end_pos, d)
  else
    _ ← DCHECK (profile_ d <=? VP8PROFILE_MAX);
    GetBytesForNextFrame start_pos d.

(** The [while] loop of [GetBytesForFirstFragment]; every iteration that
    does not return moves [end_pos] forward, so [length encoded_data_]
    iterations are enough ([first_fragment_loop_fuel]). *)
Fixpoint first_fragment_loop (fuel : nat) (start_pos end_pos : nat) (d : Driver)
    : option (list Z * nat * Driver) :=
  if (end_pos + 4 <? length (encoded_data_ d))%nat then
    match fuel with
    | O => None
    | S fuel' =>
        if Z.land (byte_at (encoded_data_ d) (end_pos + 4)) 0x1f =? 0x7
        then GetBytesForNextFragment end_pos d
        else
          end_pos' ← GetBytesForNextNALU (encoded_data_ d) end_pos;
          first_fragment_loop fuel' start_pos end_pos'
            (set_num_skipped_fragments (num_skipped_fragments_ d + 1) d)
    end
  else Some ([], start_pos, d).

(** [GetBytesForFirstFragment(start_pos, &end_pos)]. *)
Definition GetBytesForFirstFragment (start_pos : nat) (d : Driver)
    : option (list Z * nat * Driver) :=
  if profile_ d <? H264PROFILE_MAX then
    first_fragment_loop (length (encoded_data_ d)) start_pos start_pos d
  else
    _ ← DCHECK (profile_ d <=? VP8PROFILE_MAX);
    GetBytesForNextFragment start_pos d.

(** *** Submission *)

(** [DecodeNextFragment()].  Creating and sharing the memory segment is
    assumed to succeed. *)
Definition DecodeNextFragment (d : Driver) : option Driver :=
  if decoder_deleted d then Some d
  else if (encoded_data_next_pos_to_decode_ d =? length (encoded_data_ d))%nat then
    if outstanding_decodes_ d =? 0 then
      d ← call_decoder VDA_Flush d;
      SetState CS_FLUSHING d
    else Some d
  else
    '(next_fragment_bytes, end_pos, d) ←
      (if (encoded_data_next_pos_to_decode_ d =? 0)%nat
       then GetBytesForFirstFragment 0 d
       else GetBytesForNextFragment (encoded_data_next_pos_to_decode_ d) d);
    let id := next_bitstream_buffer_id_ d in
    let d := set_next_bitstream_buffer_id (Z.land (id + 1) 0x3FFFFFFF) d in
    d ← call_decoder (VDA_Decode id next_fragment_bytes) d;
    let d := set_outstanding_decodes (outstanding_decodes_ d + 1) d in
    let d := set_encoded_data_next_pos_to_decode end_pos d in
    if (remaining_play_throughs_ d =? 0) &&
       (- delete_decoder_state_ d =? next_bitstream_buffer_id_ d)
    then DeleteDecoder d
    else Some d.

(** [for (int i = 0; i < num_in_flight_decodes_; ++i) DecodeNextFragment();] *)
Fixpoint decode_times (n : nat) (d : Driver) : option Driver :=
  match n with
  | O => Some d
  | S n' => d ← DecodeNextFragment d; decode_times n' d
  end.

(** *** Decoder callbacks *)

Definition CreateDecoder (initialize_ok : bool) (d : Driver) : option Driver :=
  if negb (decoder_deleted d) then None
  else
    d ← SetState CS_DECODER_SET (set_decoder true d);
    if decoder_deleted d then Some d
    else
      let profile := if negb (profile_ d =? -1) then profile_ d else H264PROFILE_BASELINE in
      d ← call_decoder (VDA_Initialize profile) d;
      if initialize_ok then Some d else None.

Definition PictureReady (now : Z) (picture : Picture) (d : Driver) : option Driver :=
  if negb (cs_value (state_ d) <? cs_value CS_RESET) then None
  else if decoder_deleted d then Some d
  else
    let d := set_frame_delivery_times (frame_delivery_times_ d ++ [now]) d in
    if negb (bitstream_buffer_id picture <=? next_bitstream_buffer_id_ d) then None
    else
      let d := set_num_decoded_frames (num_decoded_frames_ d + 1) d in
      d ← (if (remaining_play_throughs_ d =? 1) &&
              (reset_after_frame_num_ d =? num_decoded_frames d)
           then
             d ← call_decoder VDA_Reset (set_reset_after_frame_num MID_STREAM_RESET d);
             Some (set_encoded_data_next_pos_to_decode 0%nat d)
           else Some d);
      picture_buffer ← picture_buffers_by_id_ d !! picture_buffer_id picture;
      let d :=
        if negb (suppress_rendering_ d)
        then call_helper (RenderTexture (pb_texture_id picture_buffer)) d else d in
      if delay_reuse_after_frame_num_ d <? num_decoded_frames d then
        Some (set_message_loop
                (message_loop_ d ++ [(picture_buffer_id picture, kReuseDelay)]) d)
      else call_decoder (VDA_ReusePictureBuffer (picture_buffer_id picture)) d.

Definition NotifyInitializeDone (now : Z) (d : Driver) : option Driver :=
  d ← SetState CS_INITIALIZED d;
  let d := set_initialize_done_ticks now d in
  if reset_after_frame_num_ d =? START_OF_STREAM_RESET then call_decoder VDA_Reset d
  else
    d ← decode_times (Z.to_nat (num_in_flight_decodes_ d)) d;
    _ ← DCHECK (outstanding_decodes_ d =? num_in_flight_decodes_ d);
    Some d.

Definition NotifyEndOfBitstreamBuffer (id : Z) (d : Driver) : option Driver :=
  let d := set_num_done_bitstream_buffers (num_done_bitstream_buffers_ d + 1) d in
  let d := set_outstanding_decodes (outstanding_decodes_ d - 1) d in
  DecodeNextFragment d.

Definition NotifyFlushDone (d : Driver) : option Driver :=
  if decoder_deleted d then Some d
  else
    d ← SetState CS_FLUSHED d;
    let d := set_remaining_play_throughs (remaining_play_throughs_ d - 1) d in
    _ ← DCHECK (0 <=? remaining_play_throughs_ d);
    if decoder_deleted d then Some d
    else
      d ← call_decoder VDA_Reset d;
      SetState CS_RESETTING d.

Definition NotifyResetDone (now : Z) (d : Driver) : option Driver :=
  if decoder_deleted d then Some d
  else if reset_after_frame_num_ d =? MID_STREAM_RESET then
    DecodeNextFragment (set_reset_after_frame_num END_OF_STREAM_RESET d)
  else if reset_after_frame_num_ d =? START_OF_STREAM_RESET then
    let d := set_reset_after_frame_num END_OF_STREAM_RESET d in
    decode_times (Z.to_nat (num_in_flight_decodes_ d)) d
  else if negb (remaining_play_throughs_ d =? 0) then
    NotifyInitializeDone now (set_encoded_data_next_pos_to_decode 0%nat d)
  else
    d ← SetState CS_RESET d;
    if negb (decoder_deleted d) then DeleteDecoder d else Some d.

Definition NotifyError (error : Z) (d : Driver) : option Driver :=
  SetState CS_ERROR d.

(** *** Auxiliary description of the fragment selection *)

(** The fragment [DecodeNextFragment] asks for. *)
Definition next_fragment (d : Driver) : option (list Z * nat * Driver) :=
  if (encoded_data_next_pos_to_decode_ d =? 0)%nat
  then GetBytesForFirstFragment 0 d
  else GetBytesForNextFragment (encoded_data_next_pos_to_decode_ d) d.


End Driver.

(** ** Specification vocabulary: start-code delimited units *)

(** The unit whose start code is at [p] ends at [e]: [p] holds a whole
    start code, no start code begins strictly between [p] and [e], and
    [e] is either the end of the data or the position of the next whole
    start code. *)
Definition unit_end (encoded : list Z) (p e : nat) : Prop :=
  (p + 4 <= length encoded)%nat /\
  LookingAtNAL encoded p = true /\
  (p + 4 <= e <= length encoded)%nat /\
  (forall q, (p < q < e)%nat -> (q + 4 <= length encoded)%nat ->
             LookingAtNAL encoded q = false) /\
  (e = length encoded \/
   ((e + 4 <= length encoded)%nat /\ LookingAtNAL encoded e = true)).

(** [skipped encoded p q n]: starting at [p], [n] consecutive units, none
    of which is a sequence-parameter set, lead to [q]. *)
Inductive skipped (encoded : list Z) : nat -> nat -> nat -> Prop :=
| skipped_none p : skipped encoded p p 0
| skipped_unit p e q n :
    (p + 4 < length encoded)%nat ->
    Z.land (byte_at encoded (p + 4)) 0x1f <> 0x7 ->
    unit_end encoded p e ->
    skipped encoded e q n ->
    skipped encoded p q (S n).

(** ** Specification vocabulary: length-prefixed units *)

(** The unit at [pos] in the words of the specification: a 4-byte
    little-endian length, then 12 ignored header bytes, then the payload;
    the result is the payload and the position after it. *)
Definition spec_length_prefixed_unit (encoded : list Z) (pos : nat)
    : option (list Z * nat) :=
  len ← read_uint32 encoded pos;
  Some (substr encoded (pos + 4 + 12) (Z.to_nat len),
        (pos + 4 + 12 + Z.to_nat len)%nat).

(** ** Sample inputs *)

(** An Annex-B stream: an access-unit delimiter, a sequence-parameter
    set, a picture-parameter set and one slice. *)
Definition sample_h264 : list Z :=
  [0; 0; 0; 1; 9; 240;
   0; 0; 0; 1; 103; 1; 2;
   0; 0; 0; 1; 104; 3;
   0; 0; 0; 1; 101; 9; 9; 9].

(** An IVF file: 32 header bytes, then two frames of 2 and 3 bytes. *)
Definition sample_ivf : list Z :=
  replicate 32 0 ++
  [2; 0; 0; 0;  1; 1; 1; 1; 1; 1; 1; 1;  170; 187;
   3; 0; 0; 0;  5; 5; 5; 5; 5; 5; 5; 5;  7; 8; 9].

(** A client as the constructor leaves it, on [encoded_data] with the
    given parameters, unthrottled, rendering, never delaying reuse. *)
Definition sample_client (encoded_data : list Z)
    (num_in_flight_decodes num_play_throughs reset_after_frame_num
     delete_decoder_state profile : Z) : Driver :=
  mkDriver encoded_data 0 0%nat 0 false ∅ num_play_throughs
    reset_after_frame_num CS_CREATED 0 0 0 0 ∅ 0 [] None [] [] [] []
    num_in_flight_decodes delete_decoder_state profile false 1000000 0.


(** ** Auxiliary descriptions of teardown *)

(** The client right after [DeleteDecoder] has released the decoder and
    the textures, before the cascade of state changes. *)
Definition released (d : Driver) : Driver :=
  set_outstanding_texture_ids ∅
    (set_rendering_helper
       (rendering_helper_ d ++
        map DeleteTexture (merge_sort Z.le (elements (outstanding_texture_ids_ d))))
       (set_encoded_data []
          (set_decoder false
             (set_decoder_log (decoder_log_ d ++ [VDA_Destroy]) d)))).

(** What a cascade through [states] does when no [CHECK] fails. *)
Definition cascaded (states : list ClientState) (d : Driver) : Driver :=
  foldl (fun d s => set_state s (set_note (note_ d ++ [s]) d)) d states.

(** No state of [states] triggers the deletion test of [SetState]. *)
Definition cascade_safe (states : list ClientState) (d : Driver) : Prop :=
  Forall (fun s => ~ (remaining_play_throughs_ d = 0 /\
                      cs_value s = delete_decoder_state_ d)) states.

(** The configured deletion point does not lie ahead of the current state
    while no play-through remains. *)
Definition teardown_safe (d : Driver) : Prop :=
  ~ (remaining_play_throughs_ d = 0 /\
     cs_value (state_ d) < delete_decoder_state_ d < CS_MAX).

(** A client that finished its only play-through, waits for the
    completion of the final reset, and is configured to delete its
    decoder on reaching [CS_DESTROYED]. *)
Definition sample_resetting_client : Driver :=
  mkDriver sample_h264 0 27%nat 3 true ∅ 0 END_OF_STREAM_RESET CS_RESETTING
    1 3 0 3 ∅ 5 [] None
    [CS_DECODER_SET; CS_INITIALIZED; CS_FLUSHING; CS_FLUSHED; CS_RESETTING]
    [VDA_Initialize 1;
     VDA_Decode 0 [0; 0; 0; 1; 103; 1; 2];
     VDA_Decode 1 [0; 0; 0; 1; 104; 3];
     VDA_Decode 2 [0; 0; 0; 1; 101; 9; 9; 9];
     VDA_Flush; VDA_Reset]
    [] [] 1 (cs_value CS_DESTROYED) 1 false 1000000 0.






(** ** Auxiliary description of the wrapper's bookkeeping *)

(** Every picture that arrived was handed over, given back, or is still
    queued. *)
Definition throttle_conserved (th : Throttle.t) : Prop :=
  Throttle.num_decoded_frames_ th =
  Throttle.rendered_count th + Throttle.dropped_count th +
  Z.of_nat (length (Throttle.pending_pictures_ th)).


(** A run of the wrapper at 30 frames per second: two pictures arrive, a
    reset completes, the tick posted before the reset fires, a third
    picture arrives and its tick fires. *)
Definition sample_throttle_events : list Throttle.Event :=
  [Throttle.EvPictureReady 100 (mkPicture 0 0);
   Throttle.EvPictureReady 110 (mkPicture 1 0);
   Throttle.EvNotifyResetDone;
   Throttle.EvCallClientPictureReady 0 120 121;
   Throttle.EvPictureReady 130 (mkPicture 2 1);
   Throttle.EvCallClientPictureReady 1 140 141].

(** The wrapper holding its first picture, before any tick. *)
Definition sample_throttle_first_picture : Throttle.t :=
  Throttle.PictureReady 1000000 (mkPicture 0 0) (Throttle.create 33333).


(** ** Auxiliary descriptions of state changes and submission *)

(** [SetState] up to its deletion test. *)
Definition entered (s : ClientState) (d : Driver) : Driver :=
  set_state s (set_note (note_ d ++ [s]) d).

(** The deletion test of [SetState]. *)
Definition deletes_at (s : ClientState) (d : Driver) : bool :=
  (remaining_play_throughs_ d =? 0) && (cs_value s =? delete_decoder_state_ d).

(** The whole of [DeleteDecoder] on a live client when no [CHECK] fails. *)
Definition torn_down (d : Driver) : Driver :=
  cascaded (states_above (state_ d)) (released d).

(** [SetState] on a client that holds its decoder. *)
Definition SetState_result (s : ClientState) (d : Driver) : Driver :=
  if deletes_at s d then torn_down (entered s d) else entered s d.

(** The body of [DecodeNextFragment] from the call of [Decode] on, up to
    the deletion test. *)
Definition submitted (bytes : list Z) (end_pos : nat) (d : Driver) : Driver :=
  set_encoded_data_next_pos_to_decode end_pos
    (set_outstanding_decodes (outstanding_decodes_ d + 1)
       (set_decoder_log
          (decoder_log_ d ++ [VDA_Decode (next_bitstream_buffer_id_ d) bytes])
          (set_next_bitstream_buffer_id
             (Z.land (next_bitstream_buffer_id_ d + 1) 0x3FFFFFFF) d))).

(** The deletion test at the end of [DecodeNextFragment]. *)
Definition deletes_after_decode (d : Driver) : bool :=
  (remaining_play_throughs_ d =? 0) &&
  (- delete_decoder_state_ d =? next_bitstream_buffer_id_ d).


(** The only fields a fragment call writes are the two fragment
    counters. *)
Definition recounted (queued skipped : Z) (d : Driver) : Driver :=
  set_num_queued_fragments queued (set_num_skipped_fragments skipped d).


(** ** Counting the requests made to the decoder *)

Definition is_initialize (c : VDACall) : bool :=
  match c with VDA_Initialize _ => true | _ => false end.
Definition is_decode (c : VDACall) : bool :=
  match c with VDA_Decode _ _ => true | _ => false end.
Definition is_flush (c : VDACall) : bool :=
  match c with VDA_Flush => true | _ => false end.
Definition is_reset (c : VDACall) : bool :=
  match c with VDA_Reset => true | _ => false end.

Definition count_calls (f : VDACall -> bool) (d : Driver) : Z :=
  Z.of_nat (length (List.filter f (decoder_log_ d))).

(** The cursor is at the end of the stream and nothing is outstanding. *)
Definition drained (d : Driver) : Prop :=
  encoded_data_next_pos_to_decode_ d = length (encoded_data_ d) /\
  outstanding_decodes_ d = 0.


(** ** Specification vocabulary: the picture-buffer pool *)






(** A client configured to reset after its first frame, decoding
    [sample_h264] with one unit in flight and one picture buffer
    (texture 7) allocated. *)
Definition sample_mid_reset_client : Driver :=
  default (sample_client sample_h264 1 1 1 6 1)
    (d ← CreateDecoder true (sample_client sample_h264 1 1 1 6 1);
     d ← NotifyInitializeDone true 10 11 5 d;
     ProvidePictureBuffers (320, 240) 3553 [7] d).

(** A client that has submitted the whole of [sample_h264] and waits for
    the last unit to be consumed. *)
Definition sample_draining_client : Driver :=
  default (sample_client sample_h264 1 1 END_OF_STREAM_RESET 6 1)
    (d ← CreateDecoder true (sample_client sample_h264 1 1 END_OF_STREAM_RESET 6 1);
     d ← NotifyInitializeDone true 10 11 5 d;
     d ← NotifyEndOfBitstreamBuffer true 10 11 0 d;
     NotifyEndOfBitstreamBuffer true 10 11 1 d).

(** An Annex-B stream without a sequence-parameter set, and a client
    about to submit from it. *)
Definition sample_no_sps : list Z :=
  [0; 0; 0; 1; 9; 240;  0; 0; 0; 1; 104; 3].

Definition sample_no_sps_client : Driver :=
  default (sample_client sample_no_sps 1 1 END_OF_STREAM_RESET 6 1)
    (CreateDecoder true (sample_client sample_no_sps 1 1 END_OF_STREAM_RESET 6 1)).


(** ** Auxiliary descriptions of [PictureReady] *)

(** The client once [PictureReady] has counted the frame and requested
    the mid-stream reset. *)
Definition reset_requested (now : Z) (d : Driver) : Driver :=
  set_encoded_data_next_pos_to_decode 0%nat
    (set_decoder_log (decoder_log_ d ++ [VDA_Reset])
       (set_reset_after_frame_num MID_STREAM_RESET
          (set_num_decoded_frames (num_decoded_frames_ d + 1)
             (set_frame_delivery_times (frame_delivery_times_ d ++ [now]) d)))).

(** The rest of [PictureReady]: render the picture, then give its buffer
    back to the decoder at once or after [kReuseDelay]. *)
Definition picture_shown (picture : Picture) (buffer : PictureBuffer)
    (d : Driver) : Driver :=
  let d1 :=
    if negb (suppress_rendering_ d)
    then call_helper (RenderTexture (pb_texture_id buffer)) d else d in
  if delay_reuse_after_frame_num_ d1 <? num_decoded_frames d1 then
    set_message_loop
      (message_loop_ d1 ++ [(picture_buffer_id picture, kReuseDelay)]) d1
  else
    set_decoder_log
      (decoder_log_ d1 ++ [VDA_ReusePictureBuffer (picture_buffer_id picture)]) d1.


(** ** Runs of an unthrottled client *)

Section Runs.

Variable dcheck_is_fatal : bool.
Variables H264PROFILE_MAX VP8PROFILE_MAX : Z.

(** The callbacks a decoder makes on the client, with the clock readings
    and the texture ids the callback obtains. *)
Inductive Event :=
| EvProvidePictureBuffers (dims : Z * Z) (texture_target : Z) (textures : list Z)
| EvDismissPictureBuffer (id : Z)
| EvPictureReady (now : Z) (picture : Picture)
| EvNotifyInitializeDone (now : Z)
| EvNotifyEndOfBitstreamBuffer (id : Z)
| EvNotifyFlushDone
| EvNotifyResetDone (now : Z)
| EvNotifyError (error : Z).

Definition handle (ev : Event) (d : Driver) : option Driver :=
  match ev with
  | EvProvidePictureBuffers dims target textures =>
      ProvidePictureBuffers dims target textures d
  | EvDismissPictureBuffer id => DismissPictureBuffer id d
  | EvPictureReady now picture => PictureReady now picture d
  | EvNotifyInitializeDone now =>
      NotifyInitializeDone dcheck_is_fatal H264PROFILE_MAX VP8PROFILE_MAX now d
  | EvNotifyEndOfBitstreamBuffer id =>
      NotifyEndOfBitstreamBuffer dcheck_is_fatal H264PROFILE_MAX VP8PROFILE_MAX id d
  | EvNotifyFlushDone => NotifyFlushDone dcheck_is_fatal d
  | EvNotifyResetDone now => NotifyResetDone dcheck_is_fatal H264PROFILE_MAX VP8PROFILE_MAX now d
  | EvNotifyError error => NotifyError error d
  end.

Definition is_initialize_done (ev : Event) : bool :=
  match ev with EvNotifyInitializeDone _ => true | _ => false end.
Definition is_buffer_done (ev : Event) : bool :=
  match ev with EvNotifyEndOfBitstreamBuffer _ => true | _ => false end.
Definition is_flush_done (ev : Event) : bool :=
  match ev with EvNotifyFlushDone => true | _ => false end.
Definition is_reset_done (ev : Event) : bool :=
  match ev with EvNotifyResetDone _ => true | _ => false end.

Definition answered (f : Event -> bool) (past : list Event) : Z :=
  Z.of_nat (length (List.filter f past)).

(** Requests the decoder has received and not yet answered. *)
Definition pending_initialize (d : Driver) (past : list Event) : Z :=
  count_calls is_initialize d - answered is_initialize_done past.
Definition held_buffers (d : Driver) (past : list Event) : Z :=
  count_calls is_decode d - answered is_buffer_done past.
Definition pending_flushes (d : Driver) (past : list Event) : Z :=
  count_calls is_flush d - answered is_flush_done past.
Definition pending_resets (d : Driver) (past : list Event) : Z :=
  count_calls is_reset d - answered is_reset_done past.

(** Modelled from the spec: the decoder contract (sections 5 and 6), the
    decoder itself being an external collaborator.  A decoder that has
    been destroyed makes no callback; completions are one-to-one with
    requests, so initialise-done, buffer-consumed, flush-done and
    reset-done each answer a request of their kind that is still
    unanswered.  The other callbacks are unconstrained. *)
Definition permitted (d : Driver) (past : list Event) (ev : Event) : bool :=
  decoder_ d &&
  match ev with
  | EvNotifyInitializeDone _ => 0 <? pending_initialize d past
  | EvNotifyEndOfBitstreamBuffer _ => 0 <? held_buffers d past
  | EvNotifyFlushDone => 0 <? pending_flushes d past
  | EvNotifyResetDone _ => 0 <? pending_resets d past
  | _ => true
  end.

(** [run d0 past d]: the callbacks [past], each permitted when it was
    made and none aborting, lead from [d0] to [d]. *)
Inductive run (d0 : Driver) : list Event -> Driver -> Prop :=
| run_start : run d0 [] d0
| run_step past d ev d' :
    run d0 past d ->
    permitted d past ev = true ->
    handle ev d = Some d' ->
    run d0 (past ++ [ev]) d'.

(** The executable form of [run]. *)
Fixpoint replay (past evs : list Event) (d : Driver) : option Driver :=
  match evs with
  | [] => Some d
  | ev :: evs' =>
      if permitted d past ev
      then d' ← handle ev d; replay (past ++ [ev]) evs' d'
      else None
  end.

(** A client freshly constructed without throttling, reset point
    [reset_point], whose decoder has just been created. *)
Definition started (d0 : Driver) (reset_point : Z) : Prop :=
  exists window encoded_data num_in_flight num_play_throughs
         delete_decoder_state profile suppress_rendering delay_reuse c,
    create window encoded_data num_in_flight num_play_throughs reset_point
      delete_decoder_state profile None suppress_rendering delay_reuse = Some c /\
    CreateDecoder true c = Some d0.

(** No request is pending at the decoder. *)
Definition quiet (d : Driver) (past : list Event) : Prop :=
  pending_initialize d past = 0 /\ pending_flushes d past = 0 /\
  pending_resets d past = 0.

End Runs.

(** ** Specification vocabulary: the flow-control invariant *)

(** What a callback leaves alone unless said otherwise. *)
Definition same_setup (d d' : Driver) : Prop :=
  num_in_flight_decodes_ d' = num_in_flight_decodes_ d /\
  reset_after_frame_num_ d' = reset_after_frame_num_ d /\
  num_decoded_frames_ d' = num_decoded_frames_ d /\
  throttling_client_ d' = throttling_client_ d /\
  encoded_data_ d' = encoded_data_ d /\
  remaining_play_throughs_ d' = remaining_play_throughs_ d /\
  count_calls is_initialize d' = count_calls is_initialize d /\
  count_calls is_reset d' = count_calls is_reset d.

(** The invariant of runs without a mid-stream reset.  The outstanding
    count never exceeds the configured maximum; while the decoder exists
    it equals the number of units the decoder holds, it is zero while a
    request for initialisation, flush or reset is pending, and it equals
    the maximum while none is pending and the cursor is short of the end
    of the stream. *)
Definition in_flight_invariant (d : Driver) (past : list Event) : Prop :=
  outstanding_decodes_ d <= num_in_flight_decodes_ d /\
  1 <= num_in_flight_decodes_ d /\
  (decoder_ d = true ->
   outstanding_decodes_ d = held_buffers d past /\
   0 <= outstanding_decodes_ d /\
   (reset_after_frame_num_ d = END_OF_STREAM_RESET \/
    reset_after_frame_num_ d = START_OF_STREAM_RESET) /\
   0 <= num_decoded_frames_ d /\
   throttling_client_ d = None /\
   0 <= pending_initialize d past <= 1 /\
   0 <= pending_flushes d past /\
   0 <= pending_resets d past /\
   (0 < pending_initialize d past + pending_flushes d past + pending_resets d past ->
    outstanding_decodes_ d = 0) /\
   (1 < pending_initialize d past + pending_flushes d past + pending_resets d past ->
    length (encoded_data_ d) = 0%nat) /\
   (length (encoded_data_ d) = 0%nat -> encoded_data_next_pos_to_decode_ d = 0%nat) /\
   (reset_after_frame_num_ d = START_OF_STREAM_RESET ->
    encoded_data_next_pos_to_decode_ d = 0%nat /\
    0 < pending_initialize d past + pending_resets d past) /\
   (0 < pending_initialize d past ->
    encoded_data_next_pos_to_decode_ d = 0%nat /\
    count_calls is_decode d = 0 /\ count_calls is_flush d = 0 /\
    count_calls is_reset d = 0 /\ remaining_play_throughs_ d <> 0) /\
   (quiet d past ->
    encoded_data_next_pos_to_decode_ d <> length (encoded_data_ d) ->
    outstanding_decodes_ d = num_in_flight_decodes_ d) /\
   (state_ d = CS_INITIALIZED -> remaining_play_throughs_ d <> 0)).


(** A callback that neither submits nor asks the decoder for anything
    to be answered. *)
Definition inert (d d' : Driver) : Prop :=
  num_in_flight_decodes_ d' = num_in_flight_decodes_ d /\
  outstanding_decodes_ d' = outstanding_decodes_ d /\
  (decoder_ d' = true ->
   same_setup (set_num_decoded_frames (num_decoded_frames_ d') d) d' /\
   num_decoded_frames_ d <= num_decoded_frames_ d' /\
   encoded_data_next_pos_to_decode_ d' = encoded_data_next_pos_to_decode_ d /\
   count_calls is_decode d' = count_calls is_decode d /\
   count_calls is_flush d' = count_calls is_flush d /\
   (state_ d' = state_ d \/ state_ d' = CS_ERROR)).


(** ** Sample runs *)

(** The client for [sample_h264] with one decode in flight and one
    play-through, right after its decoder has been created. *)
Definition sample_started_client (reset_point : Z) : Driver :=
  default (sample_client sample_h264 1 1 reset_point 6 1)
    (CreateDecoder true (sample_client sample_h264 1 1 reset_point 6 1)).

(** The decoder initialises, asks for one picture buffer and consumes the
    first unit. *)
Definition sample_callbacks : list Event :=
  [EvNotifyInitializeDone 5; EvProvidePictureBuffers (320, 240) 3553 [7];
   EvNotifyEndOfBitstreamBuffer 0].

Definition sample_running_client : Driver :=
  default (sample_started_client END_OF_STREAM_RESET)
    (replay true 10 11 [] sample_callbacks (sample_started_client END_OF_STREAM_RESET)).




(** ** Callbacks in any order *)

Section Callbacks.

Variable dcheck_is_fatal : bool.
Variables H264PROFILE_MAX VP8PROFILE_MAX : Z.

(** The callbacks [evs] made one after the other, whatever the decoder's
    reasons for them; [None] when one of them aborts. *)
Fixpoint callbacks (evs : list Event) (d : Driver) : option Driver :=
  match evs with
  | [] => Some d
  | ev :: evs' =>
      d' ← handle dcheck_is_fatal H264PROFILE_MAX VP8PROFILE_MAX ev d;
      callbacks evs' d'
  end.

End Callbacks.

(** The ids of the [Decode] requests of a log, oldest first, and the ids
    [0, 1, 2, ...] under the 30-bit mask of [DecodeNextFragment]. *)
Definition decode_ids (log : list VDACall) : list Z :=
  omap (fun c => match c with VDA_Decode id _ => Some id | _ => None end) log.

Definition ids_from_zero (n : nat) : list Z :=
  (fun k => Z.of_nat k `mod` 2 ^ 30) <$> seq 0 n.

(** The fields the accounting of requests and notifications reads. *)
Record Books := mkBooks {
  b_log : list VDACall;
  b_note : list ClientState;
  b_state : ClientState;
  b_decoder : bool;
  b_outstanding : Z;
  b_done : Z;
  b_next_id : Z;
  b_queued : Z;
  b_skipped : Z;
  b_remaining : Z
}.

Definition books (d : Driver) : Books :=
  mkBooks (decoder_log_ d) (note_ d) (state_ d) (decoder_ d)
    (outstanding_decodes_ d) (num_done_bitstream_buffers_ d)
    (next_bitstream_buffer_id_ d) (num_queued_fragments_ d)
    (num_skipped_fragments_ d) (remaining_play_throughs_ d).

(** The elementary changes the methods of the client make to the books:
    [SetState] up to its deletion test, [DeleteDecoder] on a live client,
    a request other than [Decode] and [Destroy], the submission of a
    fragment, the bookkeeping of [NotifyEndOfBitstreamBuffer] and the
    decrement of [NotifyFlushDone].  The index counts the decrements. *)
Inductive book_change : nat -> Books -> Books -> Prop :=
| change_entered s b :
    book_change 0 b
      (mkBooks (b_log b) (b_note b ++ [s]) s (b_decoder b) (b_outstanding b)
         (b_done b) (b_next_id b) (b_queued b) (b_skipped b) (b_remaining b))
| change_torn_down b :
    b_decoder b = true -> b_remaining b = 0 ->
    book_change 0 b
      (mkBooks (b_log b ++ [VDA_Destroy]) (b_note b ++ states_above (b_state b))
         CS_DESTROYED false (b_outstanding b) (b_done b) (b_next_id b)
         (b_queued b) (b_skipped b) (b_remaining b))
| change_call c b :
    b_decoder b = true -> is_decode c = false -> c <> VDA_Destroy ->
    book_change 0 b
      (mkBooks (b_log b ++ [c]) (b_note b) (b_state b) (b_decoder b)
         (b_outstanding b) (b_done b) (b_next_id b) (b_queued b) (b_skipped b)
         (b_remaining b))
| change_submitted bytes q k b :
    b_decoder b = true ->
    b_queued b <= q <= b_queued b + 1 -> b_skipped b <= k ->
    book_change 0 b
      (mkBooks (b_log b ++ [VDA_Decode (b_next_id b) bytes]) (b_note b) (b_state b)
         (b_decoder b) (b_outstanding b + 1) (b_done b)
         (Z.land (b_next_id b + 1) 0x3FFFFFFF) q k (b_remaining b))
| change_consumed b :
    book_change 0 b
      (mkBooks (b_log b) (b_note b) (b_state b) (b_decoder b) (b_outstanding b - 1)
         (b_done b + 1) (b_next_id b) (b_queued b) (b_skipped b) (b_remaining b))
| change_play_through b :
    book_change 1 b
      (mkBooks (b_log b) (b_note b) (b_state b) (b_decoder b) (b_outstanding b)
         (b_done b) (b_next_id b) (b_queued b) (b_skipped b) (b_remaining b - 1)).

Inductive book_changes : nat -> Books -> Books -> Prop :=
| changes_none b : book_changes 0 b b
| changes_cons n m b1 b2 b3 :
    book_change n b1 b2 -> book_changes m b2 b3 -> book_changes (n + m) b1 b3.

(** The requests made equal the units consumed plus the units
    outstanding, the ids of the requests are [0, 1, 2, ...] under the
    30-bit mask, and the count of queued fragments stays within the count
    of requests. *)
Definition accounted (b : Books) : Prop :=
  b_outstanding b + b_done b = Z.of_nat (length (decode_ids (b_log b))) /\
  b_next_id b = Z.of_nat (length (decode_ids (b_log b))) `mod` 2 ^ 30 /\
  decode_ids (b_log b) = ids_from_zero (length (decode_ids (b_log b))) /\
  0 <= b_queued b <= Z.of_nat (length (decode_ids (b_log b))) /\
  0 <= b_skipped b.

(** [Destroy] is requested at most once, exactly when the decoder is
    released, and nothing is requested after it. *)
Definition destroy_is_last (b : Books) : Prop :=
  (b_decoder b = true -> VDA_Destroy ∉ b_log b) /\
  (b_decoder b = false ->
   exists log, b_log b = log ++ [VDA_Destroy] /\ VDA_Destroy ∉ log).

(** The observers have been told of the current state. *)
Definition announced (b : Books) : Prop :=
  b_state b = default CS_CREATED (last (b_note b)).


(** The decoder is released only when no play-through remains. *)
Definition kept_while_playing (b : Books) : Prop :=
  b_decoder b = false -> b_remaining b <= 0.

(** ** A whole play-through *)

(** The callbacks of one play-through of [sample_h264] with one unit in
    flight: the units are consumed one by one, the picture of the third
    is shown, the flush and the reset complete. *)
Definition sample_whole_callbacks : list Event :=
  sample_callbacks ++
  [EvNotifyEndOfBitstreamBuffer 1; EvPictureReady 20 (mkPicture 0 2);
   EvNotifyEndOfBitstreamBuffer 2; EvNotifyFlushDone; EvNotifyResetDone 40].

Definition sample_finished_client : Driver :=
  default (sample_started_client END_OF_STREAM_RESET)
    (callbacks true 10 11 sample_whole_callbacks
       (sample_started_client END_OF_STREAM_RESET)).


(** ** What the decoder owes *)

(** The callbacks the decoder still has to make: the units it holds and
    the requests it has not completed. *)
Definition owed (d : Driver) (past : list Event) : Z :=
  held_buffers d past + pending_initialize d past +
  pending_flushes d past + pending_resets d past.


(** ** Well-formed streams *)

(** The successive ids [DecodeNextFragment] gives out from [id] on. *)
Fixpoint ids_from (id : Z) (n : nat) : list Z :=
  match n with
  | O => []
  | S n' => id :: ids_from (Z.land (id + 1) 0x3FFFFFFF) n'
  end.

(** An IVF file: the file header, then for each frame a 12-byte frame
    header that starts with the little-endian length of the payload, and
    the payload.  A frame is given as the last 8 bytes of its header and
    its payload. *)
Definition le32 (n : Z) : list Z :=
  [n `mod` 256; (n / 256) `mod` 256; (n / 65536) `mod` 256; (n / 16777216) `mod` 256].

Definition ivf_frame (frame : list Z * list Z) : list Z :=
  le32 (Z.of_nat (length frame.2)) ++ frame.1 ++ frame.2.

Definition ivf_file (file_header : list Z) (frames : list (list Z * list Z)) : list Z :=
  file_header ++ concat (ivf_frame <$> frames).

Definition ivf_well_formed (file_header : list Z) (frames : list (list Z * list Z))
    : Prop :=
  length file_header = 32%nat /\
  Forall (fun frame => length frame.1 = 8%nat /\ Z.of_nat (length frame.2) < 2 ^ 32)
    frames.

(** A client about to decode a VP8 stream: it holds its decoder, its
    profile is a VP8 profile, and a play-through remains (so that no
    deletion after a [Decode] is due). *)
Definition decoding_vp8 (dcheck_is_fatal : bool) (H264PROFILE_MAX VP8PROFILE_MAX : Z)
    (d : Driver) : Prop :=
  decoder_ d = true /\
  H264PROFILE_MAX <= profile_ d /\
  (dcheck_is_fatal = true -> profile_ d <= VP8PROFILE_MAX) /\
  remaining_play_throughs_ d <> 0.

(** Sample: a client on [sample_ivf] with a VP8 profile. *)
Definition sample_vp8_client : Driver :=
  default (sample_client sample_ivf 1 1 END_OF_STREAM_RESET 6 11)
    (CreateDecoder true (sample_client sample_ivf 1 1 END_OF_STREAM_RESET 6 11)).

(** Sample: [sample_ivf] as a file header and two frames, and the same
    file cut one byte into the payload of its first frame. *)
Definition sample_ivf_frames : list (list Z * list Z) :=
  [([1; 1; 1; 1; 1; 1; 1; 1], [170; 187]); ([5; 5; 5; 5; 5; 5; 5; 5], [7; 8; 9])].


(** ** Specification vocabulary: Annex-B streams built from units *)

Definition start_code : list Z := [0; 0; 0; 1].

(** A unit: the start code, then the body. *)
Definition nal_unit (body : list Z) : list Z := start_code ++ body.

(** No start code begins inside [body]. *)
Definition start_code_free (body : list Z) : bool :=
  forallb (fun q => negb (LookingAtNAL body q)) (seq 0 (length body)).

(** The low five bits of the first byte of a body; an empty body is
    followed by the zero of the next start code. *)
Definition nal_type (body : list Z) : Z := Z.land (default 0 (head body)) 0x1f.

Definition decoding_h264 (H264PROFILE_MAX : Z) (d : Driver) : Prop :=
  decoder_ d = true /\ profile_ d < H264PROFILE_MAX /\ remaining_play_throughs_ d <> 0.

Definition sample_h264_client : Driver :=
  default (sample_client sample_h264 1 1 END_OF_STREAM_RESET 6 1)
    (CreateDecoder true (sample_client sample_h264 1 1 END_OF_STREAM_RESET 6 1)).


(** * Properties *)

(** Reduce the field reads of an updated client and nothing else. *)
Ltac driver_fields :=
  cbn [
       encoded_data_ outstanding_decodes_
       encoded_data_next_pos_to_decode_ next_bitstream_buffer_id_
       decoder_ outstanding_texture_ids_ remaining_play_throughs_
       reset_after_frame_num_ state_ num_skipped_fragments_
       num_queued_fragments_ num_decoded_frames_
       num_done_bitstream_buffers_ picture_buffers_by_id_
       initialize_done_ticks_ frame_delivery_times_ throttling_client_
       note_ decoder_log_ rendering_helper_ message_loop_
       num_in_flight_decodes_ delete_decoder_state_ profile_
       suppress_rendering_ delay_reuse_after_frame_num_
       rendering_window_id_ set_encoded_data set_outstanding_decodes
       set_encoded_data_next_pos_to_decode set_next_bitstream_buffer_id
       set_decoder set_outstanding_texture_ids
       set_remaining_play_throughs set_reset_after_frame_num set_state
       set_num_skipped_fragments set_num_queued_fragments
       set_num_decoded_frames set_num_done_bitstream_buffers
       set_picture_buffers_by_id set_initialize_done_ticks
       set_frame_delivery_times set_throttling_client set_note
       set_decoder_log set_rendering_helper set_message_loop call_helper
       entered submitted recounted released negb andb orb].
Ltac driver_fields_in H :=
  cbn [
       encoded_data_ outstanding_decodes_
       encoded_data_next_pos_to_decode_ next_bitstream_buffer_id_
       decoder_ outstanding_texture_ids_ remaining_play_throughs_
       reset_after_frame_num_ state_ num_skipped_fragments_
       num_queued_fragments_ num_decoded_frames_
       num_done_bitstream_buffers_ picture_buffers_by_id_
       initialize_done_ticks_ frame_delivery_times_ throttling_client_
       note_ decoder_log_ rendering_helper_ message_loop_
       num_in_flight_decodes_ delete_decoder_state_ profile_
       suppress_rendering_ delay_reuse_after_frame_num_
       rendering_window_id_ set_encoded_data set_outstanding_decodes
       set_encoded_data_next_pos_to_decode set_next_bitstream_buffer_id
       set_decoder set_outstanding_texture_ids
       set_remaining_play_throughs set_reset_after_frame_num set_state
       set_num_skipped_fragments set_num_queued_fragments
       set_num_decoded_frames set_num_done_bitstream_buffers
       set_picture_buffers_by_id set_initialize_done_ticks
       set_frame_delivery_times set_throttling_client set_note
       set_decoder_log set_rendering_helper set_message_loop call_helper
       entered submitted recounted released negb andb orb] in H.
Ltac driver_fields_all :=
  cbn [
       encoded_data_ outstanding_decodes_
       encoded_data_next_pos_to_decode_ next_bitstream_buffer_id_
       decoder_ outstanding_texture_ids_ remaining_play_throughs_
       reset_after_frame_num_ state_ num_skipped_fragments_
       num_queued_fragments_ num_decoded_frames_
       num_done_bitstream_buffers_ picture_buffers_by_id_
       initialize_done_ticks_ frame_delivery_times_ throttling_client_
       note_ decoder_log_ rendering_helper_ message_loop_
       num_in_flight_decodes_ delete_decoder_state_ profile_
       suppress_rendering_ delay_reuse_after_frame_num_
       rendering_window_id_ set_encoded_data set_outstanding_decodes
       set_encoded_data_next_pos_to_decode set_next_bitstream_buffer_id
       set_decoder set_outstanding_texture_ids
       set_remaining_play_throughs set_reset_after_frame_num set_state
       set_num_skipped_fragments set_num_queued_fragments
       set_num_decoded_frames set_num_done_bitstream_buffers
       set_picture_buffers_by_id set_initialize_done_ticks
       set_frame_delivery_times set_throttling_client set_note
       set_decoder_log set_rendering_helper set_message_loop call_helper
       entered submitted recounted released negb andb orb] in *.

Lemma bind_Some {A B} (f : A -> option B) x : Some x ≫= f = f x.
Proof. reflexivity. Qed.

(** A [DCHECK] that lets the caller go on has no effect. *)
Lemma DCHECK_bind {A} dcheck_is_fatal condition (k : unit -> option A) r :
  DCHECK dcheck_is_fatal condition ≫= k = Some r -> k () = Some r.
Proof. unfold DCHECK. destruct (_ && _); [done|]. by rewrite bind_Some. Qed.

Lemma DCHECK_pass dcheck_is_fatal condition :
  condition = true -> DCHECK dcheck_is_fatal condition = Some ().
Proof. intros ->. unfold DCHECK. by rewrite andb_false_r. Qed.

Lemma checked_loop_result dcheck_is_fatal (m : option Driver) d' :
  (d ← m;
   _ ← DCHECK dcheck_is_fatal (outstanding_decodes_ d =? num_in_flight_decodes_ d);
   Some d) = Some d' ->
  m = Some d'.
Proof.
  destruct m; [|done]. rewrite bind_Some. intros H. by apply DCHECK_bind in H.
Qed.

(** ** Start-code scanner *)

Lemma nalu_scan_ge encoded fuel p : (p <= nalu_scan encoded fuel p)%nat.
Proof.
  revert p; induction fuel as [|fuel IH]; intros p; simpl; [lia|].
  destruct (_ && _); [|lia]. specialize (IH (S p)). lia.
Qed.

Lemma nalu_scan_exit encoded fuel p :
  (length encoded <= fuel + p)%nat ->
  let e := nalu_scan encoded fuel p in
  (length encoded < e + 4)%nat \/ LookingAtNAL encoded e = true.
Proof.
  revert p; induction fuel as [|fuel IH]; intros p Hfuel; simpl.
  - left. lia.
  - destruct (Nat.leb_spec (p + 4) (length encoded)) as [Hin|Hout]; simpl.
    + destruct (LookingAtNAL encoded p) eqn:Hnal; simpl.
      * right. exact Hnal.
      * apply IH. lia.
    + left. lia.
Qed.

Lemma nalu_scan_skipped encoded fuel p q :
  (p <= q < nalu_scan encoded fuel p)%nat ->
  (q + 4 <= length encoded)%nat /\ LookingAtNAL encoded q = false.
Proof.
  revert p; induction fuel as [|fuel IH]; intros p; simpl; [lia|].
  destruct (Nat.leb_spec (p + 4) (length encoded)) as [Hin|Hout]; simpl; [|lia].
  destruct (LookingAtNAL encoded p) eqn:Hnal; simpl; [lia|].
  intros Hq. destruct (decide (q = p)) as [->|Hne]; [split; [lia|done]|].
  assert (Hlt : (q + 4 <= length encoded)%nat /\ LookingAtNAL encoded q = false)
    by (apply (IH (S p)); lia).
  exact Hlt.
Qed.

Lemma nalu_scan_le encoded fuel p :
  (p <= length encoded)%nat -> (nalu_scan encoded fuel p <= length encoded)%nat.
Proof.
  revert p; induction fuel as [|fuel IH]; intros p Hp; simpl; [lia|].
  destruct (Nat.leb_spec (p + 4) (length encoded)) as [Hin|Hout]; simpl; [|lia].
  destruct (LookingAtNAL encoded p); simpl; [lia|]. apply IH. lia.
Qed.

(** A start code at [p] rules out a start code at [p+1], [p+2], [p+3]. *)
Lemma LookingAtNAL_no_overlap encoded p q :
  LookingAtNAL encoded p = true -> (p < q < p + 4)%nat ->
  LookingAtNAL encoded q = false.
Proof.
  unfold LookingAtNAL. intros Hp Hq.
  repeat (apply andb_prop in Hp as [Hp ?]).
  assert (Hcases : (q = p + 1 \/ q = p + 2 \/ q = p + 3)%nat) by lia.
  destruct Hcases as [ -> | [ -> | -> ] ].
  - replace (p + 1 + 2)%nat with (p + 3)%nat by lia.
    destruct (byte_at encoded (p + 3) =? 0) eqn:E; [lia|].
    rewrite !andb_false_r. reflexivity.
  - replace (p + 2 + 1)%nat with (p + 3)%nat by lia.
    destruct (byte_at encoded (p + 3) =? 0) eqn:E; [lia|].
    rewrite !andb_false_r. reflexivity.
  - destruct (byte_at encoded (p + 3) =? 0) eqn:E; [lia|]. reflexivity.
Qed.

Lemma GetBytesForNextNALU_unit encoded p :
  (p + 4 <= length encoded)%nat -> LookingAtNAL encoded p = true ->
  exists e, GetBytesForNextNALU encoded p = Some e /\ unit_end encoded p e.
Proof.
  intros Hin Hnal. unfold GetBytesForNextNALU.
  destruct (Nat.ltb_spec (length encoded) (p + 4)) as [?|_]; [lia|].
  rewrite Hnal; simpl.
  set (s := nalu_scan encoded (length encoded) (p + 4)).
  assert (Hge : (p + 4 <= s)%nat) by apply nalu_scan_ge.
  assert (Hle : (s <= length encoded)%nat) by (apply nalu_scan_le; lia).
  assert (Hexit : (length encoded < s + 4)%nat \/ LookingAtNAL encoded s = true)
    by (apply nalu_scan_exit; lia).
  assert (Hskip : forall q, (p < q < s)%nat -> (q + 4 <= length encoded)%nat ->
                            LookingAtNAL encoded q = false).
  { intros q Hq Hq4. destruct (decide (q < p + 4)%nat) as [Hnear|Hfar].
    - apply (LookingAtNAL_no_overlap encoded p); [done|lia].
    - apply (nalu_scan_skipped encoded (length encoded) (p + 4)). fold s. lia. }
  destruct (Nat.leb_spec (length encoded) (s + 3)) as [Htail|Hroom].
  - exists (length encoded). split; [done|].
    split; [done|]. split; [done|]. split; [lia|]. split; [|by left].
    intros q Hq Hq4. apply Hskip; lia.
  - exists s. split; [done|].
    split; [done|]. split; [done|]. split; [lia|]. split; [done|].
    right. split; [lia|]. destruct Hexit as [?|?]; [lia|done].
Qed.

Lemma unit_end_unique encoded p e e' :
  unit_end encoded p e -> unit_end encoded p e' -> e = e'.
Proof.
  intros (_ & _ & He & Hno & Hend) (_ & _ & He' & Hno' & Hend').
  destruct (Nat.lt_trichotomy e e') as [Hlt|Hge].
  - destruct Hend as [Heq|[H4 Hm]]; [lia|].
    rewrite Hno' in Hm; [done|lia|done].
  - destruct Hge as [Heq|Hgt]; [done|].
    destruct Hend' as [Heq|[H4 Hm]]; [lia|].
    rewrite Hno in Hm; [done|lia|done].
Qed.

Lemma unit_end_NALU encoded p e :
  unit_end encoded p e -> GetBytesForNextNALU encoded p = Some e.
Proof.
  intros Hu. pose proof Hu as (Hin & Hnal & _).
  destruct (GetBytesForNextNALU_unit encoded p Hin Hnal) as (e' & -> & Hu').
  f_equal. by apply (unit_end_unique encoded p).
Qed.

Lemma skipped_reaches_code encoded p q n :
  skipped encoded p q n -> LookingAtNAL encoded p = true ->
  (q + 4 <= length encoded)%nat -> LookingAtNAL encoded q = true.
Proof.
  induction 1 as [|p e q n Hroom Hty Hu Hs IH]; [done|].
  intros _ Hq. apply IH; [|done].
  destruct Hu as (_ & _ & He & _ & [->|[_ ?]]); [|done].
  inversion Hs; subst; lia.
Qed.

(** ** Fragmenter *)

Lemma set_num_skipped_fragments_same d :
  set_num_skipped_fragments (num_skipped_fragments_ d) d = d.
Proof. by destruct d. Qed.

Lemma skipped_advances encoded p0 q n :
  skipped encoded p0 q n -> (p0 + 4 * n <= q)%nat.
Proof.
  induction 1 as [|p e q n _ _ (_ & _ & He & _) _ IH]; lia.
Qed.

Section FragmenterProperties.

Variable dcheck_is_fatal : bool.
Variables H264PROFILE_MAX VP8PROFILE_MAX : Z.

Lemma GetBytesForNextFragment_unit d p e :
  profile_ d < H264PROFILE_MAX ->
  unit_end (encoded_data_ d) p e ->
  GetBytesForNextFragment dcheck_is_fatal H264PROFILE_MAX VP8PROFILE_MAX p d =
    Some (substr (encoded_data_ d) p (e - p), e,
          set_num_queued_fragments (num_queued_fragments_ d + 1) d).
Proof.
  intros Hprof Hu. unfold GetBytesForNextFragment.
  destruct (Z.ltb_spec (profile_ d) H264PROFILE_MAX) as [_|?]; [|lia].
  rewrite (unit_end_NALU _ _ _ Hu). simpl.
  destruct Hu as (Hin & _ & He & _).
  destruct (Nat.eqb_spec p e) as [->|_]; [lia|]. simpl.
  destruct (Nat.ltb_spec (length (encoded_data_ d)) p) as [?|_]; [lia|done].
Qed.

Lemma first_fragment_loop_skips encoded p0 p n :
  skipped encoded p0 p n ->
  forall fuel start d,
    encoded_data_ d = encoded ->
    (length encoded <= fuel + p0)%nat ->
    first_fragment_loop dcheck_is_fatal H264PROFILE_MAX VP8PROFILE_MAX fuel start p0 d =
    first_fragment_loop dcheck_is_fatal H264PROFILE_MAX VP8PROFILE_MAX (fuel - n) start p
      (set_num_skipped_fragments (num_skipped_fragments_ d + Z.of_nat n) d).
Proof.
  induction 1 as [p|p e q n Hroom Hty Hu Hs IH]; intros fuel start d Hd Hfuel.
  - rewrite Z.add_0_r, set_num_skipped_fragments_same. f_equal. lia.
  - destruct fuel as [|fuel]; [lia|]. simpl. rewrite Hd.
    destruct (Nat.ltb_spec (p + 4) (length encoded)) as [_|?]; [|lia].
    destruct (Z.eqb_spec (Z.land (byte_at encoded (p + 4)) 31) 7) as [?|_]; [done|].
    rewrite (unit_end_NALU _ _ _ Hu). simpl.
    destruct Hu as (_ & _ & He & _).
    rewrite IH; [|done|lia]. simpl. f_equal.
    destruct d; unfold set_num_skipped_fragments; simpl. f_equal. lia.
Qed.

Lemma first_fragment_loop_none encoded p0 q n :
  skipped encoded p0 q n ->
  forall start d,
    encoded_data_ d = encoded ->
    (length encoded <= q + 4)%nat ->
    first_fragment_loop dcheck_is_fatal H264PROFILE_MAX VP8PROFILE_MAX (length encoded) start p0 d =
    Some ([], start,
          set_num_skipped_fragments (num_skipped_fragments_ d + Z.of_nat n) d).
Proof.
  intros Hs start d Hd Hq.
  rewrite (first_fragment_loop_skips _ _ _ _ Hs _ _ _ Hd); [|lia].
  destruct (length encoded - n)%nat; simpl; rewrite Hd;
    by destruct (Nat.ltb_spec (q + 4) (length encoded)) as [?|_]; [lia|].
Qed.

(** C7. In an H.264 stream, when [n] non-SPS units lead from [start] to a
    unit at [p] whose first payload byte has type 7 in its low five bits,
    the first-fragment call returns exactly that unit: the bytes from its
    start code at [p] up to [e], the next start code or the end of the
    data; it leaves the cursor at [e], counts the [n] skipped units and
    one queued fragment. *)
Theorem first_fragment_is_first_sps_unit d start p n :
  profile_ d < H264PROFILE_MAX ->
  skipped (encoded_data_ d) start p n ->
  LookingAtNAL (encoded_data_ d) p = true ->
  (p + 4 < length (encoded_data_ d))%nat ->
  Z.land (byte_at (encoded_data_ d) (p + 4)) 0x1f = 0x7 ->
  exists e,
    unit_end (encoded_data_ d) p e /\
    GetBytesForFirstFragment dcheck_is_fatal H264PROFILE_MAX VP8PROFILE_MAX start d =
      Some (substr (encoded_data_ d) p (e - p), e,
            set_num_queued_fragments (num_queued_fragments_ d + 1)
              (set_num_skipped_fragments
                 (num_skipped_fragments_ d + Z.of_nat n) d)).
Proof.
  intros Hprof Hs Hnal Hroom Hty.
  destruct (GetBytesForNextNALU_unit (encoded_data_ d) p) as (e & _ & Hu);
    [lia|done|].
  exists e. split; [done|].
  unfold GetBytesForFirstFragment.
  destruct (Z.ltb_spec (profile_ d) H264PROFILE_MAX) as [_|?]; [|lia].
  rewrite (first_fragment_loop_skips _ _ _ _ Hs _ _ _ eq_refl); [|lia].
  pose proof (skipped_advances _ _ _ _ Hs) as Hadv.
  destruct (length (encoded_data_ d) - n)%nat as [|fuel] eqn:Hfuel; [lia|].
  simpl.
  destruct (Nat.ltb_spec (p + 4) (length (encoded_data_ d))) as [_|?]; [|lia].
  destruct (Z.eqb_spec (Z.land (byte_at (encoded_data_ d) (p + 4)) 31) 7)
    as [_|?]; [|done].
  by rewrite (GetBytesForNextFragment_unit _ p e).
Qed.

End FragmenterProperties.

(** ** Length-prefixed frames *)

Lemma read_uint32_bytes encoded pos b0 b1 b2 b3 :
  substr encoded pos 4 = [b0; b1; b2; b3] ->
  0 <= b0 < 256 -> 0 <= b1 < 256 -> 0 <= b2 < 256 -> 0 <= b3 < 256 ->
  read_uint32 encoded pos = Some (b0 + 256 * b1 + 65536 * b2 + 16777216 * b3).
Proof.
  unfold substr, read_uint32, byte_at. intros Hsub H0 H1 H2 H3.
  assert (Hlen : (pos + 4 <= length encoded)%nat).
  { apply (f_equal length) in Hsub. rewrite length_take, length_drop in Hsub.
    change (length [b0; b1; b2; b3]) with 4%nat in Hsub. lia. }
  assert (Hat : forall i b, [b0; b1; b2; b3] !! i = Some b ->
                            encoded !! (pos + i)%nat = Some b).
  { intros i b Hi. rewrite <- Hsub in Hi.
    apply lookup_take_Some in Hi as [Hi _]. by rewrite lookup_drop in Hi. }
  destruct (Nat.leb_spec (pos + 4) (length encoded)) as [_|?]; [|lia].
  rewrite <- (Nat.add_0_r pos) at 1.
  rewrite (Hat 0%nat b0), (Hat 1%nat b1), (Hat 2%nat b2), (Hat 3%nat b3) by done.
  simpl. by rewrite !Z.mod_small by lia.
Qed.

(** C8 (as the code has it). A call at [start_pos] works at
    [pos = 32] when [start_pos = 0] and at [pos = start_pos] otherwise.
    When the four bytes at [pos] are [b0..b3] and the data holds the
    whole unit, the fragment returned is the [len] bytes that start 12
    bytes after [pos], for [len] the little-endian value of [b0..b3]:
    the 4-byte length is followed by 8 ignored bytes, not 12.  The cursor
    is left just after the payload and one more fragment is counted as
    queued. *)
Theorem next_frame_is_payload_after_12_byte_header d start_pos b0 b1 b2 b3 :
  let pos := if (start_pos =? 0)%nat then 32%nat else start_pos in
  let len := Z.to_nat (b0 + 256 * b1 + 65536 * b2 + 16777216 * b3) in
  substr (encoded_data_ d) pos 4 = [b0; b1; b2; b3] ->
  0 <= b0 < 256 -> 0 <= b1 < 256 -> 0 <= b2 < 256 -> 0 <= b3 < 256 ->
  (pos + 12 + len <= length (encoded_data_ d))%nat ->
  GetBytesForNextFrame start_pos d =
    Some (substr (encoded_data_ d) (pos + 4 + 8) len,
          (pos + 4 + 8 + len)%nat,
          set_num_queued_fragments (num_queued_fragments_ d + 1) d) /\
  length (substr (encoded_data_ d) (pos + 4 + 8) len) = len.
Proof.
  intros pos len Hsub H0 H1 H2 H3 Hfit. split.
  - unfold GetBytesForNextFrame. fold pos.
    rewrite (read_uint32_bytes _ _ _ _ _ _ Hsub) by done. simpl. fold len.
    destruct (Nat.ltb_spec (length (encoded_data_ d)) (pos + 12)) as [?|_]; [lia|].
    by replace (pos + 4 + 8)%nat with (pos + 12)%nat by lia.
  - unfold substr. rewrite length_take, length_drop. lia.
Qed.

(** ** State changes and teardown *)

Lemma SetState_with_deleted del del' s d :
  decoder_deleted d = true ->
  SetState_with del s d = SetState_with del' s d.
Proof.
  unfold SetState_with, decoder_deleted. intros Hdel. simpl.
  rewrite Hdel. by destruct (_ && _).
Qed.

Lemma cascaded_snoc states s d :
  cascaded (states ++ [s]) d =
  set_state s (set_note (note_ (cascaded states d) ++ [s]) (cascaded states d)).
Proof. unfold cascaded. by rewrite foldl_app. Qed.

Lemma cascaded_fields states d :
  let d' := cascaded states d in
  note_ d' = note_ d ++ states /\
  state_ d' = default (state_ d) (last states) /\
  decoder_ d' = decoder_ d /\
  remaining_play_throughs_ d' = remaining_play_throughs_ d /\
  delete_decoder_state_ d' = delete_decoder_state_ d /\
  outstanding_texture_ids_ d' = outstanding_texture_ids_ d /\
  picture_buffers_by_id_ d' = picture_buffers_by_id_ d /\
  outstanding_decodes_ d' = outstanding_decodes_ d /\
  num_in_flight_decodes_ d' = num_in_flight_decodes_ d /\
  encoded_data_next_pos_to_decode_ d' = encoded_data_next_pos_to_decode_ d /\
  encoded_data_ d' = encoded_data_ d /\
  decoder_log_ d' = decoder_log_ d.
Proof.
  induction states as [|s states IH] using rev_ind; simpl.
  - by rewrite app_nil_r.
  - rewrite cascaded_snoc. simpl.
    destruct IH as (Hn & Hs & Hrest). rewrite Hn.
    split; [by rewrite app_assoc|]. split; [by rewrite last_snoc|done].
Qed.

Lemma cascade_None states :
  foldl (fun acc s => acc ≫= SetState_with (fun _ => None) s) None states = None.
Proof. by induction states. Qed.

Lemma cascade_cons s states d :
  cascade (s :: states) d =
  SetState_with (fun _ => None) s d ≫= cascade states.
Proof.
  unfold cascade. simpl.
  destruct (SetState_with _ s d); simpl; [done|apply cascade_None].
Qed.

Lemma cascaded_cons s states d :
  cascaded (s :: states) d =
  cascaded states (set_state s (set_note (note_ d ++ [s]) d)).
Proof. done. Qed.

Lemma cascade_ok states d :
  decoder_ d = false -> cascade_safe states d ->
  cascade states d = Some (cascaded states d).
Proof.
  revert d. induction states as [|s states IH]; intros d Hdel Hsafe; [done|].
  rewrite cascade_cons, cascaded_cons.
  apply Forall_cons in Hsafe as [Hs Hsafe].
  unfold SetState_with. simpl.
  destruct (Z.eqb_spec (remaining_play_throughs_ d) 0) as [Hr|Hr];
    destruct (Z.eqb_spec (cs_value s) (delete_decoder_state_ d)) as [Hc|Hc];
    simpl; try (by apply IH); by destruct Hs.
Qed.

Lemma cascade_abort states d :
  decoder_ d = false -> ~ cascade_safe states d -> cascade states d = None.
Proof.
  revert d. induction states as [|s states IH]; intros d Hdel Hunsafe.
  - destruct Hunsafe. constructor.
  - rewrite cascade_cons. unfold SetState_with, decoder_deleted. simpl.
    rewrite Hdel. simpl.
    destruct (Z.eqb_spec (remaining_play_throughs_ d) 0) as [Hr|Hr];
      destruct (Z.eqb_spec (cs_value s) (delete_decoder_state_ d)) as [Hc|Hc];
      simpl; try done;
      apply IH; try done; intros Hsafe; apply Hunsafe;
      (constructor; [intros [? ?]; done|done]).
Qed.

Lemma elem_of_states_above s s' :
  s' ∈ states_above s <-> cs_value s < cs_value s'.
Proof.
  destruct s, s'; unfold states_above; simpl; split; intros H;
    try lia; try (by repeat constructor);
    repeat (apply elem_of_cons in H as [H|H]; [done|]);
    by apply elem_of_nil in H.
Qed.


Lemma last_states_above s :
  default s (last (states_above s)) = CS_DESTROYED.
Proof. by destruct s. Qed.

Lemma cs_value_onto v : 0 <= v < CS_MAX -> exists s, cs_value s = v.
Proof.
  unfold CS_MAX. intros Hv.
  assert (Hcases : v = 0 \/ v = 1 \/ v = 2 \/ v = 3 \/ v = 4 \/ v = 5 \/
                   v = 6 \/ v = 7 \/ v = 8) by lia.
  destruct Hcases as [Hc|[Hc|[Hc|[Hc|[Hc|[Hc|[Hc|[Hc|Hc]]]]]]]]; subst v.
  - by exists CS_CREATED.
  - by exists CS_DECODER_SET.
  - by exists CS_INITIALIZED.
  - by exists CS_FLUSHING.
  - by exists CS_FLUSHED.
  - by exists CS_RESETTING.
  - by exists CS_RESET.
  - by exists CS_ERROR.
  - by exists CS_DESTROYED.
Qed.

Lemma teardown_safe_cascade d :
  teardown_safe d <-> cascade_safe (states_above (state_ d)) (released d).
Proof.
  unfold teardown_safe, cascade_safe. rewrite Forall_forall. simpl. split.
  - intros Hsafe s Hs [Hr Hc]. apply elem_of_states_above in Hs.
    simpl in Hr, Hc. apply Hsafe. split; [done|]. rewrite <- Hc.
    split; [done|]. unfold CS_MAX. destruct s; simpl; lia.
  - intros Hsafe [Hr Hc].
    destruct (cs_value_onto (delete_decoder_state_ d)) as [s Hs].
    { unfold CS_MAX in *. destruct (state_ d); simpl in Hc; lia. }
    apply (Hsafe s); [|done]. apply elem_of_states_above. lia.
Qed.

Lemma classic_teardown d : teardown_safe d \/ ~ teardown_safe d.
Proof.
  unfold teardown_safe, CS_MAX.
  destruct (decide (remaining_play_throughs_ d = 0)) as [Hr|Hr];
    destruct (decide (cs_value (state_ d) < delete_decoder_state_ d < 9)) as [Hc|Hc];
    [right|left|left|left]; tauto.
Qed.

Lemma DeleteDecoder_live d :
  decoder_ d = true -> teardown_safe d ->
  DeleteDecoder d = Some (cascaded (states_above (state_ d)) (released d)).
Proof.
  intros Hlive Hsafe. unfold DeleteDecoder, decoder_deleted. rewrite Hlive. simpl.
  apply (cascade_ok _ (released d)); [done|]. by apply teardown_safe_cascade.
Qed.

Lemma DeleteDecoder_abort d :
  decoder_ d = true -> ~ teardown_safe d -> DeleteDecoder d = None.
Proof.
  intros Hlive Hunsafe. unfold DeleteDecoder, decoder_deleted. rewrite Hlive. simpl.
  apply (cascade_abort _ (released d)); [done|].
  by rewrite <- teardown_safe_cascade.
Qed.

Lemma DeleteDecoder_deleted d :
  decoder_deleted d = true -> DeleteDecoder d = Some d.
Proof. unfold DeleteDecoder. by intros ->. Qed.


(** The sample client is what a complete play-through leaves behind. *)
Lemma sample_resetting_client_reached :
  (d ← CreateDecoder true (sample_client sample_h264 1 1 END_OF_STREAM_RESET 8 1);
   d ← NotifyInitializeDone true 10 11 5 d;
   d ← NotifyEndOfBitstreamBuffer true 10 11 0 d;
   d ← NotifyEndOfBitstreamBuffer true 10 11 1 d;
   d ← NotifyEndOfBitstreamBuffer true 10 11 2 d;
   NotifyFlushDone true d) = Some sample_resetting_client.
Proof. vm_compute. reflexivity. Qed.



(** ** Fragmenter on the sample inputs *)

Lemma sample_h264_first_unit : unit_end sample_h264 0 6.
Proof.
  destruct (GetBytesForNextNALU_unit sample_h264 0) as (e & He & Hu);
    [simpl; lia|reflexivity|].
  vm_compute in He. injection He as <-. exact Hu.
Qed.

Lemma first_fragment_is_first_sps_unit_witness :
  exists e,
    unit_end sample_h264 6 e /\
    GetBytesForFirstFragment true 10 11 0 (sample_client sample_h264 1 1 END_OF_STREAM_RESET 6 1) =
      Some (substr sample_h264 6 (e - 6), e,
            set_num_queued_fragments (0 + 1)
              (set_num_skipped_fragments (0 + Z.of_nat 1)
                 (sample_client sample_h264 1 1 END_OF_STREAM_RESET 6 1))).
Proof.
  apply (first_fragment_is_first_sps_unit true 10 11
           (sample_client sample_h264 1 1 END_OF_STREAM_RESET 6 1) 0 6 1).
  - reflexivity.
  - apply (skipped_unit _ 0 6 6 0).
    + vm_compute. lia.
    + vm_compute. discriminate.
    + exact sample_h264_first_unit.
    + constructor.
  - reflexivity.
  - vm_compute. lia.
  - reflexivity.
Defined.

(** C8, counterexample: on the sample IVF data the first call returns the
    two bytes that start 12 bytes after the length field's first byte and
    leaves the cursor at 46; the layout of the specification puts the
    payload 16 bytes after it and the cursor at 50. *)
Lemma next_frame_differs_from_specified_layout :
  (fun r => (r.1.1, r.1.2)) <$>
    GetBytesForNextFrame 0 (sample_client sample_ivf 1 1 END_OF_STREAM_RESET 6 11)
    = Some ([170; 187], 46%nat) /\
  spec_length_prefixed_unit sample_ivf 32 = Some ([0; 0], 50%nat).
Proof. vm_compute. done. Qed.

Lemma next_frame_is_payload_after_12_byte_header_witness :
  GetBytesForNextFrame 0 (sample_client sample_ivf 1 1 END_OF_STREAM_RESET 6 11) =
    Some ([170; 187], 46%nat,
          set_num_queued_fragments 1
            (sample_client sample_ivf 1 1 END_OF_STREAM_RESET 6 11)) /\
  length [170; 187] = 2%nat.
Proof.
  apply (next_frame_is_payload_after_12_byte_header
           (sample_client sample_ivf 1 1 END_OF_STREAM_RESET 6 11) 0 2 0 0 0).
  - reflexivity.
  - lia.
  - lia.
  - lia.
  - lia.
  - vm_compute. lia.
Defined.

(** ** Throttling wrapper *)

Lemma filter_recycle_map (pictures : list Picture) :
  List.filter Throttle.is_recycle
    (map (fun p => Throttle.ReusePicture (picture_buffer_id p)) pictures) =
  map (fun p => Throttle.ReusePicture (picture_buffer_id p)) pictures.
Proof. induction pictures as [|p ps IH]; simpl; [done|by rewrite IH]. Qed.

Lemma filter_delivery_map (pictures : list Picture) :
  List.filter Throttle.is_delivery
    (map (fun p => Throttle.ReusePicture (picture_buffer_id p)) pictures) = [].
Proof. by induction pictures. Qed.

Lemma throttle_counts_app th effs :
  Z.of_nat (length (List.filter Throttle.is_delivery (Throttle.effects_ th ++ effs))) =
    Throttle.rendered_count th + Z.of_nat (length (List.filter Throttle.is_delivery effs)) /\
  Z.of_nat (length (List.filter Throttle.is_recycle (Throttle.effects_ th ++ effs))) =
    Throttle.dropped_count th + Z.of_nat (length (List.filter Throttle.is_recycle effs)).
Proof.
  unfold Throttle.rendered_count, Throttle.dropped_count.
  rewrite !List.filter_app, !length_app. lia.
Qed.

(** The effect of a tick whose version is current on a non-empty queue. *)
Lemma tick_current th now now' front rest :
  Throttle.pending_pictures_ th = front :: rest ->
  let due := Throttle.due_time now th in
  let late := due + Throttle.frame_duration_ th <? now in
  Throttle.CallClientPictureReady (Throttle.stream_version_ th) now now' th =
  Some (Throttle.mk (due + Throttle.frame_duration_ th)
          (Throttle.frame_duration_ th) (Throttle.num_decoded_frames_ th)
          (Throttle.stream_version_ th) rest
          (Throttle.effects_ th ++
           [if late then Throttle.ReusePicture (picture_buffer_id front)
            else Throttle.ClientPictureReady front] ++
           match rest with
           | [] => []
           | _ :: _ =>
               [Throttle.PostCallClientPictureReady (Throttle.stream_version_ th)
                  (due + Throttle.frame_duration_ th - now')]
           end)
          (tail (Throttle.pending_epochs_ th))
          (if late then Throttle.deliveries_ th
           else Throttle.deliveries_ th ++
                [(front,
                  default (Throttle.stream_version_ th)
                    (head (Throttle.pending_epochs_ th)),
                  Throttle.stream_version_ th)])).
Proof.
  intros Hq due late. unfold Throttle.CallClientPictureReady.
  rewrite Z.eqb_refl, Hq. simpl. fold (Throttle.due_time now th). fold due. fold late.
  destruct rest; simpl; [done|by rewrite <- app_assoc].
Qed.

Lemma tick_stale th version now now' :
  version <> Throttle.stream_version_ th ->
  Throttle.CallClientPictureReady version now now' th = Some th.
Proof.
  intros Hne. unfold Throttle.CallClientPictureReady.
  by destruct (Z.eqb_spec version (Throttle.stream_version_ th)).
Qed.

Lemma throttle_handle_conserved ev th th' :
  Throttle.handle ev th = Some th' ->
  throttle_conserved th -> throttle_conserved th'.
Proof.
  unfold throttle_conserved.
  destruct ev as [now p|version now now'|now| | | | | |]; simpl; intros Hh Hc;
    try (injection Hh as <-; unfold Throttle.rendered_count, Throttle.dropped_count;
         simpl; rewrite !List.filter_app, !length_app; simpl;
         unfold Throttle.rendered_count, Throttle.dropped_count in Hc; lia).
  - injection Hh as <-. unfold Throttle.PictureReady.
    unfold Throttle.rendered_count, Throttle.dropped_count in *.
    destruct (Throttle.pending_pictures_ th) eqn:Hq; simpl; rewrite ?Hq; simpl;
      rewrite ?List.filter_app, ?length_app; simpl in *; lia.
  - destruct (Z.eq_dec version (Throttle.stream_version_ th)) as [->|Hne].
    + destruct (Throttle.pending_pictures_ th) as [|front rest] eqn:Hq.
      * unfold Throttle.CallClientPictureReady in Hh.
        by rewrite Z.eqb_refl, Hq in Hh.
      * rewrite (tick_current th now now' front rest Hq) in Hh. injection Hh as <-.
        unfold Throttle.rendered_count, Throttle.dropped_count in *. simpl.
        rewrite !List.filter_app, !length_app.
        destruct (_ <? now); destruct rest; simpl in *; lia.
    + rewrite tick_stale in Hh by done. by injection Hh as <-.
  - injection Hh as <-. unfold Throttle.NotifyFlushDone.
    unfold Throttle.rendered_count, Throttle.dropped_count in *.
    destruct (Throttle.pending_pictures_ th) eqn:Hq; simpl;
      rewrite ?Hq, !List.filter_app, !length_app; simpl in *; lia.
  - injection Hh as <-. unfold Throttle.NotifyResetDone.
    unfold Throttle.rendered_count, Throttle.dropped_count in *. simpl.
    rewrite !List.filter_app, !length_app, filter_recycle_map, filter_delivery_map.
    rewrite length_map. simpl in *. lia.
Qed.

Lemma throttle_run_conserved evs th th' :
  Throttle.run evs th = Some th' ->
  throttle_conserved th -> throttle_conserved th'.
Proof.
  revert th. induction evs as [|ev evs IH]; simpl; intros th Hrun Hc.
  - by injection Hrun as <-.
  - destruct (Throttle.handle ev th) as [th1|] eqn:Hh; [|done]. simpl in Hrun.
    apply (IH th1); [done|]. by apply (throttle_handle_conserved ev th).
Qed.

Lemma throttle_handle_epochs ev th th' :
  Throttle.handle ev th = Some th' ->
  Throttle.epochs_consistent th -> Throttle.epochs_consistent th'.
Proof.
  unfold Throttle.epochs_consistent.
  destruct ev as [now p|version now now'|now| | | | | |]; simpl;
    intros Hh (Hlen & Hq & Hd & Hv);
    try (injection Hh as <-; done).
  - injection Hh as <-. unfold Throttle.PictureReady.
    destruct (Throttle.pending_pictures_ th) eqn:Hp; simpl; rewrite ?Hp;
      rewrite !length_app, Hlen; simpl;
      (split; [done|]); (split; [|done]);
      apply Forall_app; (split; [done|]); by repeat constructor.
  - destruct (Z.eq_dec version (Throttle.stream_version_ th)) as [->|Hne].
    + destruct (Throttle.pending_pictures_ th) as [|front rest] eqn:Hp.
      * unfold Throttle.CallClientPictureReady in Hh.
        by rewrite Z.eqb_refl, Hp in Hh.
      * rewrite (tick_current th now now' front rest Hp) in Hh. injection Hh as <-.
        simpl. destruct (Throttle.pending_epochs_ th) as [|e es] eqn:He; [done|].
        simpl in *. apply Forall_cons in Hq as [-> Hq].
        split; [lia|]. split; [done|]. split; [|done].
        destruct (_ <? now); [done|]. apply Forall_app. split; [done|].
        by repeat constructor.
    + rewrite tick_stale in Hh by done. by injection Hh as <-.
  - injection Hh as <-. unfold Throttle.NotifyFlushDone.
    destruct (Throttle.pending_pictures_ th) eqn:Hp; simpl; rewrite ?Hp;
      by repeat split.
  - injection Hh as <-. simpl. split; [done|]. split; [constructor|].
    split; [done|lia].
Qed.

Lemma throttle_run_epochs evs th th' :
  Throttle.run evs th = Some th' ->
  Throttle.epochs_consistent th -> Throttle.epochs_consistent th'.
Proof.
  revert th. induction evs as [|ev evs IH]; simpl; intros th Hrun Hc.
  - by injection Hrun as <-.
  - destruct (Throttle.handle ev th) as [th1|] eqn:Hh; [|done]. simpl in Hrun.
    apply (IH th1); [done|]. by apply (throttle_handle_epochs ev th).
Qed.

(** C2. In every reachable state of the wrapper: each queued picture
    arrived in the current stream version and each picture handed to the
    client was handed over in the version in which it arrived; a tick
    with another version changes nothing; the ticks posted on arrival and
    by a tick carry the current version; completing a reset adds one to
    the version, gives every queued picture back to the decoder and hands
    none to the client. *)
Theorem stale_version_never_delivered frame_duration evs th :
  Throttle.run evs (Throttle.create frame_duration) = Some th ->
  Throttle.epochs_consistent th /\
  (forall version now now',
     version <> Throttle.stream_version_ th ->
     Throttle.CallClientPictureReady version now now' th = Some th) /\
  (forall now picture,
     exists posted,
       Throttle.effects_ (Throttle.PictureReady now picture th) =
         Throttle.effects_ th ++ posted /\
       forall version delay,
         Throttle.PostCallClientPictureReady version delay ∈ posted ->
         version = Throttle.stream_version_ th) /\
  (forall now now' th',
     Throttle.CallClientPictureReady (Throttle.stream_version_ th) now now' th = Some th' ->
     exists done,
       Throttle.effects_ th' = Throttle.effects_ th ++ done /\
       forall version delay,
         Throttle.PostCallClientPictureReady version delay ∈ done ->
         version = Throttle.stream_version_ th) /\
  (let th' := Throttle.NotifyResetDone th in
   Throttle.stream_version_ th' = Throttle.stream_version_ th + 1 /\
   Throttle.pending_pictures_ th' = [] /\
   Throttle.deliveries_ th' = Throttle.deliveries_ th /\
   Throttle.effects_ th' =
     Throttle.effects_ th ++
     map (fun p => Throttle.ReusePicture (picture_buffer_id p))
       (Throttle.pending_pictures_ th) ++
     [Throttle.ClientNotifyResetDone]).
Proof.
  intros Hrun. split.
  { apply (throttle_run_epochs evs (Throttle.create frame_duration)); [done|].
    by repeat split. }
  split; [intros; by apply tick_stale|]. split.
  { intros now picture. unfold Throttle.PictureReady.
    destruct (Throttle.pending_pictures_ th) eqn:Hp; simpl; rewrite ?Hp; simpl.
    - eexists. split; [done|]. intros version delay Hin.
      apply list_elem_of_singleton in Hin. by injection Hin as -> _.
    - exists []. split; [by rewrite app_nil_r|]. intros ? ? Hin.
      by apply elem_of_nil in Hin. }
  split.
  { intros now now' th' Htick.
    destruct (Throttle.pending_pictures_ th) as [|front rest] eqn:Hp.
    - unfold Throttle.CallClientPictureReady in Htick.
      by rewrite Z.eqb_refl, Hp in Htick.
    - rewrite (tick_current th now now' front rest Hp) in Htick.
      injection Htick as <-. simpl. eexists. split; [done|].
      intros version delay Hin.
      apply elem_of_cons in Hin as [Hin|Hin].
      + by destruct (_ <? now).
      + destruct rest; [by apply elem_of_nil in Hin|].
        apply list_elem_of_singleton in Hin. by injection Hin as -> _. }
  simpl. split; [done|]. split; [done|]. split; [done|]. by rewrite <- app_assoc.
Qed.

(** C3 (as the code has it). In every reachable state of the wrapper the
    pictures that arrived are those handed over, given back or still
    queued.  A tick of the current version on a queue with head [front]
    compares the clock with the due time, which is the stored delivery
    time or, while none is stored, the clock reading itself: when the due
    time plus the frame interval is earlier than the clock the head is
    given back to the decoder, otherwise it is handed to the client; the
    head is removed, the stored delivery time becomes the due time plus
    the interval, and a further tick is posted exactly when pictures
    remain. *)
Theorem tick_delivers_or_drops_head frame_duration evs th :
  Throttle.run evs (Throttle.create frame_duration) = Some th ->
  throttle_conserved th /\
  forall now now' front rest,
    Throttle.pending_pictures_ th = front :: rest ->
    let due := Throttle.due_time now th in
    exists th',
      Throttle.CallClientPictureReady (Throttle.stream_version_ th) now now' th = Some th' /\
      Throttle.pending_pictures_ th' = rest /\
      Throttle.next_frame_delivered_time_ th' = due + Throttle.frame_duration_ th /\
      Throttle.effects_ th' =
        Throttle.effects_ th ++
        [if due + Throttle.frame_duration_ th <? now
         then Throttle.ReusePicture (picture_buffer_id front)
         else Throttle.ClientPictureReady front] ++
        match rest with
        | [] => []
        | _ :: _ =>
            [Throttle.PostCallClientPictureReady (Throttle.stream_version_ th)
               (due + Throttle.frame_duration_ th - now')]
        end.
Proof.
  intros Hrun. split.
  - apply (throttle_run_conserved evs (Throttle.create frame_duration)); [done|].
    reflexivity.
  - intros now now' front rest Hp due. eexists. split.
    + apply (tick_current th now now' front rest Hp).
    + done.
Qed.

Lemma stale_version_never_delivered_witness :
  exists th,
    Throttle.run sample_throttle_events (Throttle.create 33333) = Some th /\
    Throttle.epochs_consistent th /\
    Throttle.effects_ th =
      [Throttle.PostCallClientPictureReady 0 0;
       Throttle.ReusePicture 0; Throttle.ReusePicture 1;
       Throttle.ClientNotifyResetDone;
       Throttle.PostCallClientPictureReady 1 0;
       Throttle.ClientPictureReady (mkPicture 2 1)].
Proof.
  eexists. split; [vm_compute; reflexivity|]. split; [|reflexivity].
  apply (stale_version_never_delivered 33333 sample_throttle_events).
  vm_compute. reflexivity.
Defined.

(** C3, counterexample: before the first tick no delivery time is
    stored (the null value 0), so the stored time plus the interval is
    far earlier than the clock; the tick nevertheless hands the picture
    to the client, and stores clock plus interval as the next delivery
    time. *)
Lemma tick_with_no_stored_delivery_time_delivers :
  Throttle.next_frame_delivered_time_ sample_throttle_first_picture +
    Throttle.frame_duration_ sample_throttle_first_picture < 1000000 /\
  Throttle.effects_ <$>
    Throttle.CallClientPictureReady 0 1000000 1000000 sample_throttle_first_picture =
    Some [Throttle.PostCallClientPictureReady 0 0;
          Throttle.ClientPictureReady (mkPicture 0 0)] /\
  Throttle.next_frame_delivered_time_ <$>
    Throttle.CallClientPictureReady 0 1000000 1000000 sample_throttle_first_picture =
    Some 1033333.
Proof. vm_compute. done. Qed.

Lemma tick_delivers_or_drops_head_witness :
  exists th,
    Throttle.run [Throttle.EvPictureReady 100 (mkPicture 0 0);
                  Throttle.EvPictureReady 110 (mkPicture 1 0);
                  Throttle.EvCallClientPictureReady 0 120 121]
      (Throttle.create 33333) = Some th /\
    throttle_conserved th /\
    exists th',
      Throttle.CallClientPictureReady 0 2000000 2000001 th = Some th' /\
      Throttle.pending_pictures_ th' = [] /\
      Throttle.next_frame_delivered_time_ th' = 120 + 33333 + 33333 /\
      Throttle.effects_ th' =
        Throttle.effects_ th ++ [Throttle.ReusePicture 1] ++ [].
Proof.
  eexists. split; [vm_compute; reflexivity|].
  destruct (tick_delivers_or_drops_head 33333
              [Throttle.EvPictureReady 100 (mkPicture 0 0);
               Throttle.EvPictureReady 110 (mkPicture 1 0);
               Throttle.EvCallClientPictureReady 0 120 121] _ eq_refl)
    as [Hcons Htick].
  split; [exact Hcons|].
  exact (Htick 2000000 2000001 (mkPicture 1 0) [] eq_refl).
Defined.

(** ** Submission *)

Lemma SetState_live s d :
  decoder_ d = true -> SetState s d = Some (SetState_result s d).
Proof.
  intros Hlive. unfold SetState, SetState_with, SetState_result, deletes_at.
  fold (entered s d). simpl.
  destruct (Z.eqb_spec (remaining_play_throughs_ d) 0) as [Hr|Hr];
    destruct (Z.eqb_spec (cs_value s) (delete_decoder_state_ d)) as [Hc|Hc];
    simpl; try done.
  unfold decoder_deleted. simpl. rewrite Hlive. simpl.
  apply DeleteDecoder_live; [done|]. unfold teardown_safe. simpl. lia.
Qed.

Lemma recounted_same d :
  recounted (num_queued_fragments_ d) (num_skipped_fragments_ d) d = d.
Proof. by destruct d. Qed.

Section SubmissionProperties.

Variable dcheck_is_fatal : bool.
Variables H264PROFILE_MAX VP8PROFILE_MAX : Z.

Lemma GetBytesForNextFrame_recounts p d bytes e d1 :
  GetBytesForNextFrame p d = Some (bytes, e, d1) ->
  exists q k, d1 = recounted q k d.
Proof.
  unfold GetBytesForNextFrame. intros H.
  destruct (read_uint32 _ _); simpl in H; [|done].
  destruct (_ <? _)%nat; [done|]. injection H as _ _ <-.
  exists (num_queued_fragments_ d + 1), (num_skipped_fragments_ d).
  by destruct d.
Qed.

Lemma GetBytesForNextFragment_recounts p d bytes e d1 :
  GetBytesForNextFragment dcheck_is_fatal H264PROFILE_MAX VP8PROFILE_MAX p d
    = Some (bytes, e, d1) ->
  exists q k, d1 = recounted q k d.
Proof.
  unfold GetBytesForNextFragment. intros H.
  destruct (profile_ d <? H264PROFILE_MAX);
    [|apply DCHECK_bind in H; by apply (GetBytesForNextFrame_recounts p d bytes e)].
  destruct (GetBytesForNextNALU _ _) as [e'|]; simpl in H; [|done].
  destruct (negb _); simpl in H; destruct (_ <? _)%nat; try done;
    injection H as _ _ <-.
  - exists (num_queued_fragments_ d + 1), (num_skipped_fragments_ d). by destruct d.
  - exists (num_queued_fragments_ d), (num_skipped_fragments_ d). by destruct d.
Qed.

Lemma first_fragment_loop_recounts fuel start p d bytes e d1 :
  first_fragment_loop dcheck_is_fatal H264PROFILE_MAX VP8PROFILE_MAX fuel start p d
    = Some (bytes, e, d1) ->
  exists q k, d1 = recounted q k d.
Proof.
  revert p d. induction fuel as [|fuel IH]; intros p d; simpl.
  - destruct (_ <? _)%nat; [done|]. intros H. injection H as _ _ <-.
    eexists _, _. symmetry. apply recounted_same.
  - destruct (_ <? _)%nat.
    + destruct (_ =? 7).
      * apply GetBytesForNextFragment_recounts.
      * destruct (GetBytesForNextNALU _ _) as [e'|]; simpl; [|done].
        intros H. apply IH in H as (q & k & ->). by exists q, k.
    + intros H. injection H as _ _ <-.
      eexists _, _. symmetry. apply recounted_same.
Qed.

Lemma next_fragment_recounts d bytes e d1 :
  next_fragment dcheck_is_fatal H264PROFILE_MAX VP8PROFILE_MAX d = Some (bytes, e, d1) ->
  exists q k, d1 = recounted q k d.
Proof.
  unfold next_fragment, GetBytesForFirstFragment.
  destruct (_ =? 0)%nat; [|apply GetBytesForNextFragment_recounts].
  destruct (profile_ d <? H264PROFILE_MAX); [apply first_fragment_loop_recounts|].
  intros H. apply DCHECK_bind in H. revert H. apply GetBytesForNextFragment_recounts.
Qed.

(** [DecodeNextFragment] on a client that holds its decoder: the only
    aborts are those of the fragment call. *)
Lemma DecodeNextFragment_live d :
  decoder_ d = true ->
  DecodeNextFragment dcheck_is_fatal H264PROFILE_MAX VP8PROFILE_MAX d =
    if (encoded_data_next_pos_to_decode_ d =? length (encoded_data_ d))%nat then
      if outstanding_decodes_ d =? 0
      then Some (SetState_result CS_FLUSHING
                   (set_decoder_log (decoder_log_ d ++ [VDA_Flush]) d))
      else Some d
    else
      '(bytes, e, d1) ← next_fragment dcheck_is_fatal H264PROFILE_MAX VP8PROFILE_MAX d;
      Some (if deletes_after_decode (submitted bytes e d1)
            then torn_down (submitted bytes e d1) else submitted bytes e d1).
Proof.
  intros Hlive. unfold DecodeNextFragment, decoder_deleted. rewrite Hlive. simpl.
  destruct (_ =? length _)%nat.
  - destruct (_ =? 0); [|done]. unfold call_decoder, decoder_deleted.
    rewrite Hlive. simpl. by apply SetState_live.
  - fold (next_fragment dcheck_is_fatal H264PROFILE_MAX VP8PROFILE_MAX d).
    destruct (next_fragment dcheck_is_fatal H264PROFILE_MAX VP8PROFILE_MAX d)
      as [[[bytes e] d1]|] eqn:Hf; [|done].
    simpl. apply next_fragment_recounts in Hf as (q & k & ->).
    unfold call_decoder, decoder_deleted. simpl. rewrite Hlive. simpl.
    fold (submitted bytes e (recounted q k d)).
    change ((remaining_play_throughs_ d =? 0) &&
            (- delete_decoder_state_ d =? Z.land (next_bitstream_buffer_id_ d + 1) 1073741823))
      with (deletes_after_decode (submitted bytes e (recounted q k d))).
    destruct (deletes_after_decode _) eqn:Hdel; [|done].
    apply DeleteDecoder_live; [done|].
    unfold deletes_after_decode in Hdel. simpl in Hdel.
    apply andb_prop in Hdel as [_ Hid]. apply Z.eqb_eq in Hid.
    pose proof (Z.land_nonneg (next_bitstream_buffer_id_ d + 1) 1073741823) as [_ Hnn].
    unfold teardown_safe. simpl. destruct (state_ d); simpl; lia.
Qed.

End SubmissionProperties.

Lemma torn_down_fields d :
  let d' := torn_down d in
  state_ d' = CS_DESTROYED /\
  decoder_ d' = false /\
  decoder_log_ d' = decoder_log_ d ++ [VDA_Destroy] /\
  note_ d' = note_ d ++ states_above (state_ d) /\
  outstanding_decodes_ d' = outstanding_decodes_ d /\
  encoded_data_next_pos_to_decode_ d' = encoded_data_next_pos_to_decode_ d /\
  num_in_flight_decodes_ d' = num_in_flight_decodes_ d /\
  remaining_play_throughs_ d' = remaining_play_throughs_ d /\
  outstanding_texture_ids_ d' = ∅ /\
  picture_buffers_by_id_ d' = picture_buffers_by_id_ d.
Proof.
  unfold torn_down.
  pose proof (cascaded_fields (states_above (state_ d)) (released d)) as Hf.
  simpl in *. destruct Hf as (Hn & Hs & Hd & Hr & _ & Ht & Hp & Ho & Hm & Hc & _ & Hl).
  rewrite last_states_above in Hs. by repeat split.
Qed.

Lemma count_calls_log f d calls d' :
  decoder_log_ d' = decoder_log_ d ++ calls ->
  count_calls f d' = count_calls f d + Z.of_nat (length (List.filter f calls)).
Proof.
  unfold count_calls. intros ->. rewrite List.filter_app, length_app. lia.
Qed.

(** The requests [SetState] adds on a live client: none, or [Destroy]. *)
Lemma SetState_result_log s d :
  decoder_log_ (SetState_result s d) = decoder_log_ d \/
  decoder_log_ (SetState_result s d) = decoder_log_ d ++ [VDA_Destroy].
Proof.
  unfold SetState_result. destruct (deletes_at s d); [right|by left].
  by destruct (torn_down_fields (entered s d)) as (_ & _ & -> & _).
Qed.

Lemma SetState_result_note s d :
  exists seen, note_ (SetState_result s d) = note_ d ++ s :: seen.
Proof.
  unfold SetState_result. destruct (deletes_at s d).
  - destruct (torn_down_fields (entered s d)) as (_ & _ & _ & -> & _).
    simpl. rewrite <- app_assoc. by eexists.
  - exists []. done.
Qed.

Lemma SetState_result_state s d :
  deletes_at s d = false -> SetState_result s d = entered s d.
Proof. unfold SetState_result. by intros ->. Qed.

Section FlushProperties.

Variable dcheck_is_fatal : bool.
Variables H264PROFILE_MAX VP8PROFILE_MAX : Z.

Lemma DecodeNextFragment_flush d d' :
  decoder_ d = true ->
  DecodeNextFragment dcheck_is_fatal H264PROFILE_MAX VP8PROFILE_MAX d = Some d' ->
  (count_calls is_flush d' = count_calls is_flush d + 1 <-> drained d) /\
  (~ drained d ->
     count_calls is_flush d' = count_calls is_flush d /\
     (state_ d' = state_ d \/ state_ d' = CS_DESTROYED)).
Proof.
  intros Hlive. rewrite DecodeNextFragment_live by done. unfold drained.
  destruct (Nat.eqb_spec (encoded_data_next_pos_to_decode_ d) (length (encoded_data_ d)))
    as [Hend|Hmid].
  - destruct (Z.eqb_spec (outstanding_decodes_ d) 0) as [Hzero|Hbusy];
      intros Hd'; injection Hd' as <-.
    + assert (Hcount : count_calls is_flush
                 (SetState_result CS_FLUSHING
                    (set_decoder_log (decoder_log_ d ++ [VDA_Flush]) d)) =
               count_calls is_flush d + 1).
      { destruct (SetState_result_log CS_FLUSHING
                    (set_decoder_log (decoder_log_ d ++ [VDA_Flush]) d)) as [Hl|Hl];
          simpl in Hl; rewrite <- ?app_assoc in Hl;
          by rewrite (count_calls_log _ d _ _ Hl). }
      split; [done|]. intros Hnot. by destruct Hnot.
    + split; [split; [lia|intros [_ ?]; done]|]. intros _. split; [done|by left].
  - intros Hd'.
    destruct (next_fragment dcheck_is_fatal H264PROFILE_MAX VP8PROFILE_MAX d)
      as [[[bytes e] d1]|] eqn:Hf; [|done].
    simpl in Hd'. apply next_fragment_recounts in Hf as (q & k & ->).
    assert (Hsame : count_calls is_flush d' = count_calls is_flush d /\
                    (state_ d' = state_ d \/ state_ d' = CS_DESTROYED)).
    { injection Hd' as <-. destruct (deletes_after_decode _).
      - destruct (torn_down_fields (submitted bytes e (recounted q k d)))
          as (Hs & _ & Hl & _).
        simpl in Hl. rewrite <- app_assoc in Hl.
        rewrite (count_calls_log _ d _ _ Hl). simpl. split; [lia|by right].
      - split; [|by left].
        rewrite (count_calls_log _ d [VDA_Decode (next_bitstream_buffer_id_ d) bytes]
                   (submitted bytes e (recounted q k d)) eq_refl).
        simpl. lia. }
    destruct Hsame as [Hcount Hstate]. split; [|done].
    rewrite Hcount. split; [lia|intros [? _]; done].
Qed.

(** C4. On a client in [CS_INITIALIZED] that holds its decoder,
    [DecodeNextFragment] asks the decoder to flush exactly when the
    cursor is at the end of the stream and nothing is outstanding; it
    then announces [CS_FLUSHING] first of all and, unless the forced
    deletion at that very state is due, stays in [CS_FLUSHING] with
    [Flush] as the only request made.  Otherwise no flush is requested
    and the state does not become [CS_FLUSHING].  A consumed callback
    runs the same test after taking one off the outstanding count, so it
    requests a flush exactly when the cursor is at the end and that
    callback was for the last outstanding unit. *)
Theorem flush_exactly_when_drained d :
  state_ d = CS_INITIALIZED ->
  decoder_deleted d = false ->
  (drained d ->
     exists d' seen,
       DecodeNextFragment dcheck_is_fatal H264PROFILE_MAX VP8PROFILE_MAX d = Some d' /\
       count_calls is_flush d' = count_calls is_flush d + 1 /\
       note_ d' = note_ d ++ CS_FLUSHING :: seen /\
       (deletes_at CS_FLUSHING d = false ->
          state_ d' = CS_FLUSHING /\ seen = [] /\
          decoder_log_ d' = decoder_log_ d ++ [VDA_Flush])) /\
  (~ drained d ->
     forall d', DecodeNextFragment dcheck_is_fatal H264PROFILE_MAX VP8PROFILE_MAX d = Some d' ->
       count_calls is_flush d' = count_calls is_flush d /\
       state_ d' <> CS_FLUSHING) /\
  (forall id d',
     NotifyEndOfBitstreamBuffer dcheck_is_fatal H264PROFILE_MAX VP8PROFILE_MAX id d = Some d' ->
     (count_calls is_flush d' = count_calls is_flush d + 1 <->
        encoded_data_next_pos_to_decode_ d = length (encoded_data_ d) /\
        outstanding_decodes_ d - 1 = 0) /\
     (~ (encoded_data_next_pos_to_decode_ d = length (encoded_data_ d) /\
         outstanding_decodes_ d - 1 = 0) ->
        count_calls is_flush d' = count_calls is_flush d /\
        state_ d' <> CS_FLUSHING)).
Proof.
  intros Hinit Hdel.
  assert (Hlive : decoder_ d = true)
    by (unfold decoder_deleted in Hdel; by destruct (decoder_ d)).
  split; [|split].
  - intros [Hend Hzero].
    set (d1 := set_decoder_log (decoder_log_ d ++ [VDA_Flush]) d).
    destruct (SetState_result_note CS_FLUSHING d1) as [seen Hnote].
    exists (SetState_result CS_FLUSHING d1), seen.
    assert (Hrun : DecodeNextFragment dcheck_is_fatal H264PROFILE_MAX VP8PROFILE_MAX d =
                   Some (SetState_result CS_FLUSHING d1)).
    { rewrite DecodeNextFragment_live by done.
      rewrite Hend, Nat.eqb_refl, Hzero. done. }
    split; [done|]. split.
    { by apply (DecodeNextFragment_flush d _ Hlive Hrun). }
    split; [done|]. intros Hno.
    assert (Hno1 : deletes_at CS_FLUSHING d1 = false) by done.
    rewrite (SetState_result_state _ _ Hno1) in Hnote |- *. simpl in *.
    split; [done|]. split; [|done].
    apply app_inv_head in Hnote. by injection Hnote as <-.
  - intros Hnot d' Hrun.
    destruct (DecodeNextFragment_flush d d' Hlive Hrun) as [_ Hrest].
    destruct (Hrest Hnot) as [Hcount [Hs|Hs]]; (split; [done|]);
      rewrite Hs, ?Hinit; done.
  - intros id d' Hrun. unfold NotifyEndOfBitstreamBuffer in Hrun.
    set (d1 := set_outstanding_decodes (outstanding_decodes_ d - 1)
                 (set_num_done_bitstream_buffers (num_done_bitstream_buffers_ d + 1) d))
      in Hrun.
    destruct (DecodeNextFragment_flush d1 d' Hlive Hrun) as [Hiff Hrest].
    split; [exact Hiff|]. intros Hnot.
    destruct (Hrest Hnot) as [Hcount [Hs|Hs]]; (split; [done|]);
      rewrite Hs; simpl; rewrite ?Hinit; done.
Qed.

End FlushProperties.

Section ProgressProperties.

Variable dcheck_is_fatal : bool.
Variables H264PROFILE_MAX VP8PROFILE_MAX : Z.

Lemma GetBytesForNextFragment_short d p :
  profile_ d < H264PROFILE_MAX ->
  (p <= length (encoded_data_ d))%nat ->
  (length (encoded_data_ d) < p + 4)%nat ->
  GetBytesForNextFragment dcheck_is_fatal H264PROFILE_MAX VP8PROFILE_MAX p d = Some ([], p, d).
Proof.
  intros Hprof Hin Hshort. unfold GetBytesForNextFragment, GetBytesForNextNALU.
  destruct (Z.ltb_spec (profile_ d) H264PROFILE_MAX) as [_|?]; [|lia].
  destruct (Nat.ltb_spec (length (encoded_data_ d)) (p + 4)) as [_|?]; [|lia].
  simpl. rewrite Nat.eqb_refl. simpl.
  destruct (Nat.ltb_spec (length (encoded_data_ d)) p) as [?|_]; [lia|].
  unfold substr. by rewrite Nat.sub_diag.
Qed.

Lemma GetBytesForFirstFragment_none d p q n :
  profile_ d < H264PROFILE_MAX ->
  skipped (encoded_data_ d) p q n ->
  (length (encoded_data_ d) <= q + 4)%nat ->
  GetBytesForFirstFragment dcheck_is_fatal H264PROFILE_MAX VP8PROFILE_MAX p d =
    Some ([], p, set_num_skipped_fragments (num_skipped_fragments_ d + Z.of_nat n) d).
Proof.
  intros Hprof Hs Hq. unfold GetBytesForFirstFragment.
  destruct (Z.ltb_spec (profile_ d) H264PROFILE_MAX) as [_|?]; [|lia].
  by apply (first_fragment_loop_none dcheck_is_fatal H264PROFILE_MAX VP8PROFILE_MAX _ p q n).
Qed.

(** C10. For an H.264 client and a position [p] inside the data:
    - at a whole start code the scanner moves strictly forward, to the
      next whole start code or to the very end of the data;
    - with fewer than four bytes left the next-fragment call returns an
      empty fragment and leaves the position where it was, and so does
      the first-fragment call when the units it skips run out without a
      sequence-parameter set;
    - in both of these cases [DecodeNextFragment], with the cursor at [p]
      short of the end, submits the empty fragment and leaves the cursor
      at [p]: the loop never reaches the end of the stream. *)
Theorem scanner_progress d p :
  profile_ d < H264PROFILE_MAX ->
  (p <= length (encoded_data_ d))%nat ->
  ((p + 4 <= length (encoded_data_ d))%nat ->
   LookingAtNAL (encoded_data_ d) p = true ->
   exists e,
     GetBytesForNextNALU (encoded_data_ d) p = Some e /\
     (p < e)%nat /\
     unit_end (encoded_data_ d) p e /\
     (e = length (encoded_data_ d) \/ (e + 4 <= length (encoded_data_ d))%nat)) /\
  ((length (encoded_data_ d) < p + 4)%nat ->
   GetBytesForNextFragment dcheck_is_fatal H264PROFILE_MAX VP8PROFILE_MAX p d = Some ([], p, d)) /\
  (forall q n,
     skipped (encoded_data_ d) p q n ->
     (length (encoded_data_ d) <= q + 4)%nat ->
     GetBytesForFirstFragment dcheck_is_fatal H264PROFILE_MAX VP8PROFILE_MAX p d =
       Some ([], p,
             set_num_skipped_fragments (num_skipped_fragments_ d + Z.of_nat n) d)) /\
  (decoder_ d = true ->
   encoded_data_next_pos_to_decode_ d = p ->
   p <> length (encoded_data_ d) ->
   (p <> 0%nat /\ (length (encoded_data_ d) < p + 4)%nat) \/
   (p = 0%nat /\ exists q n, skipped (encoded_data_ d) p q n /\
                             (length (encoded_data_ d) <= q + 4)%nat) ->
   exists d' rest,
     DecodeNextFragment dcheck_is_fatal H264PROFILE_MAX VP8PROFILE_MAX d = Some d' /\
     encoded_data_next_pos_to_decode_ d' = p /\
     outstanding_decodes_ d' = outstanding_decodes_ d + 1 /\
     decoder_log_ d' =
       decoder_log_ d ++ VDA_Decode (next_bitstream_buffer_id_ d) [] :: rest).
Proof.
  intros Hprof Hin. split; [|split; [|split]].
  - intros Hroom Hnal.
    destruct (GetBytesForNextNALU_unit _ p Hroom Hnal) as (e & He & Hu).
    exists e. split; [done|]. pose proof Hu as (_ & _ & Hpe & _ & Hend).
    split; [lia|]. split; [done|]. destruct Hend as [?|[? _]]; [by left|by right].
  - by apply GetBytesForNextFragment_short.
  - intros q n. by apply GetBytesForFirstFragment_none.
  - intros Hlive Hcur Hmid Hstuck.
    assert (Hfetch : exists k,
              next_fragment dcheck_is_fatal H264PROFILE_MAX VP8PROFILE_MAX d =
              Some ([], p, recounted (num_queued_fragments_ d) k d)).
    { unfold next_fragment. rewrite Hcur.
      destruct Hstuck as [[Hp Hshort]|[-> (q & n & Hs & Hq)]].
      - destruct (Nat.eqb_spec p 0) as [?|_]; [done|].
        exists (num_skipped_fragments_ d).
        rewrite GetBytesForNextFragment_short by done. by rewrite recounted_same.
      - simpl. rewrite (GetBytesForFirstFragment_none d 0 q n) by done.
        exists (num_skipped_fragments_ d + Z.of_nat n). by destruct d. }
    destruct Hfetch as [k Hfetch].
    rewrite DecodeNextFragment_live by done. rewrite Hfetch, Hcur.
    destruct (Nat.eqb_spec p (length (encoded_data_ d))) as [?|_]; [done|].
    simpl. destruct (deletes_after_decode _).
    + destruct (torn_down_fields
                  (submitted [] p (recounted (num_queued_fragments_ d) k d)))
        as (_ & _ & Hl & _ & Ho & Hc & _).
      eexists _, [VDA_Destroy]. split; [done|]. rewrite Hc, Ho, Hl. simpl.
      by rewrite <- app_assoc.
    + eexists _, []. by split.
Qed.

End ProgressProperties.

(** ** Picture-buffer pool *)

(** Reduce the field reads of an updated client without unfolding the
    set and map operations. *)
Ltac pool_fields :=
  cbn [outstanding_texture_ids_ picture_buffers_by_id_ decoder_
       set_picture_buffers_by_id set_outstanding_texture_ids call_helper
       set_rendering_helper set_state set_note set_decoder_log].

Lemma provide_one_None dims target textures :
  foldl (provide_one dims target) None textures = None.
Proof. by induction textures. Qed.












(** ** Mid-stream reset *)

Section ResetProperties.

Variable dcheck_is_fatal : bool.
Variables H264PROFILE_MAX VP8PROFILE_MAX : Z.

Lemma picture_shown_fields picture buffer d :
  let d' := picture_shown picture buffer d in
  state_ d' = state_ d /\
  note_ d' = note_ d /\
  decoder_ d' = decoder_ d /\
  count_calls is_reset d' = count_calls is_reset d /\
  reset_after_frame_num_ d' = reset_after_frame_num_ d /\
  encoded_data_next_pos_to_decode_ d' = encoded_data_next_pos_to_decode_ d /\
  outstanding_decodes_ d' = outstanding_decodes_ d.
Proof.
  unfold picture_shown, count_calls.
  destruct (suppress_rendering_ d); cbn [negb];
    destruct (_ <? _); driver_fields;
    rewrite ?List.filter_app, ?length_app; cbn [List.filter is_reset length];
    repeat split; lia.
Qed.

Lemma PictureReady_mid_stream_reset now picture buffer d :
  cs_value (state_ d) < cs_value CS_RESET ->
  decoder_ d = true ->
  bitstream_buffer_id picture <= next_bitstream_buffer_id_ d ->
  picture_buffers_by_id_ d !! picture_buffer_id picture = Some buffer ->
  remaining_play_throughs_ d = 1 ->
  reset_after_frame_num_ d =
    num_decoded_frames (set_num_decoded_frames (num_decoded_frames_ d + 1) d) ->
  PictureReady now picture d =
    Some (picture_shown picture buffer (reset_requested now d)).
Proof.
  intros Hstate Hlive Hid Hbuf Hlast Hnth.
  unfold PictureReady, decoder_deleted.
  destruct (Z.ltb_spec (cs_value (state_ d)) (cs_value CS_RESET)) as [_|?]; [|lia].
  rewrite Hlive. cbn [negb].
  unfold call_decoder, decoder_deleted, num_decoded_frames in *.
  driver_fields. driver_fields_in Hnth.
  destruct (Z.leb_spec (bitstream_buffer_id picture) (next_bitstream_buffer_id_ d))
    as [_|?]; [|lia].
  driver_fields. rewrite Hlast, <- Hnth, !Z.eqb_refl, Hlive.
  cbn [andb negb]. rewrite !bind_Some. cbv beta.
  driver_fields. rewrite Hbuf, bind_Some. cbv beta.
  unfold picture_shown, reset_requested, num_decoded_frames.
  destruct (suppress_rendering_ d) eqn:Hsup; driver_fields; rewrite ?Hsup;
    driver_fields; rewrite Hlive; cbn [negb];
    destruct (delay_reuse_after_frame_num_ d <? _); reflexivity.
Qed.

Lemma NotifyResetDone_mid_stream now d :
  decoder_ d = true -> reset_after_frame_num_ d = MID_STREAM_RESET ->
  NotifyResetDone dcheck_is_fatal H264PROFILE_MAX VP8PROFILE_MAX now d =
  DecodeNextFragment dcheck_is_fatal H264PROFILE_MAX VP8PROFILE_MAX
    (set_reset_after_frame_num END_OF_STREAM_RESET d).
Proof.
  intros Hlive Hmid. unfold NotifyResetDone, decoder_deleted.
  by rewrite Hlive, Hmid.
Qed.

(** C5 (as the code has it). In the last play-through, when the count of
    decoded frames reaches the configured frame number with this
    callback, [PictureReady] asks the decoder to reset, remembers that a
    mid-stream reset is under way and moves the cursor to offset 0; the
    client state and the notifications stay as they were (no
    [CS_RESETTING] is announced).  From then on the next fragment asked
    for is the first fragment from offset 0, and the completion of the
    reset just runs [DecodeNextFragment] once more. *)
Theorem mid_stream_reset_restarts_from_zero now picture buffer d :
  cs_value (state_ d) < cs_value CS_RESET ->
  decoder_deleted d = false ->
  bitstream_buffer_id picture <= next_bitstream_buffer_id_ d ->
  picture_buffers_by_id_ d !! picture_buffer_id picture = Some buffer ->
  remaining_play_throughs_ d = 1 ->
  reset_after_frame_num_ d =
    num_decoded_frames (set_num_decoded_frames (num_decoded_frames_ d + 1) d) ->
  exists d',
    PictureReady now picture d = Some d' /\
    state_ d' = state_ d /\
    note_ d' = note_ d /\
    decoder_deleted d' = false /\
    count_calls is_reset d' = count_calls is_reset d + 1 /\
    reset_after_frame_num_ d' = MID_STREAM_RESET /\
    encoded_data_next_pos_to_decode_ d' = 0%nat /\
    outstanding_decodes_ d' = outstanding_decodes_ d /\
    next_fragment dcheck_is_fatal H264PROFILE_MAX VP8PROFILE_MAX d' =
      GetBytesForFirstFragment dcheck_is_fatal H264PROFILE_MAX VP8PROFILE_MAX 0 d' /\
    forall now',
      NotifyResetDone dcheck_is_fatal H264PROFILE_MAX VP8PROFILE_MAX now' d' =
      DecodeNextFragment dcheck_is_fatal H264PROFILE_MAX VP8PROFILE_MAX
        (set_reset_after_frame_num END_OF_STREAM_RESET d').
Proof.
  intros Hstate Hdel Hid Hbuf Hlast Hnth.
  assert (Hlive : decoder_ d = true)
    by (unfold decoder_deleted in Hdel; by destruct (decoder_ d)).
  exists (picture_shown picture buffer (reset_requested now d)).
  pose proof (picture_shown_fields picture buffer (reset_requested now d)) as Hf.
  cbv zeta in Hf. destruct Hf as (Hs & Hn & Hd & Hc & Hr & Hp & Ho).
  split; [by apply PictureReady_mid_stream_reset|].
  split; [by rewrite Hs|]. split; [by rewrite Hn|].
  split; [unfold decoder_deleted; rewrite Hd; unfold reset_requested;
          driver_fields; by rewrite Hlive|].
  split.
  { rewrite Hc. unfold count_calls, reset_requested. driver_fields.
    rewrite List.filter_app, length_app. cbn [List.filter is_reset length]. lia. }
  split; [by rewrite Hr|]. split; [by rewrite Hp|]. split; [by rewrite Ho|].
  split.
  { unfold next_fragment. by rewrite Hp. }
  intros now'. apply NotifyResetDone_mid_stream; [by rewrite Hd|by rewrite Hr].

Qed.

End ResetProperties.

(** ** The properties on the sample clients *)

Lemma sample_no_sps_units :
  skipped sample_no_sps 0 12 2.
Proof.
  assert (H0 : unit_end sample_no_sps 0 6).
  { destruct (GetBytesForNextNALU_unit sample_no_sps 0) as (e & He & Hu);
      [simpl; lia|reflexivity|].
    vm_compute in He. injection He as <-. exact Hu. }
  assert (H6 : unit_end sample_no_sps 6 12).
  { destruct (GetBytesForNextNALU_unit sample_no_sps 6) as (e & He & Hu);
      [simpl; lia|reflexivity|].
    vm_compute in He. injection He as <-. exact Hu. }
  apply (skipped_unit _ 0 6); [simpl; lia|vm_compute; discriminate|exact H0|].
  apply (skipped_unit _ 6 12); [simpl; lia|vm_compute; discriminate|exact H6|].
  constructor.
Qed.

Lemma scanner_progress_witness :
  (exists e,
     GetBytesForNextNALU sample_no_sps 0 = Some e /\ (0 < e)%nat /\
     unit_end sample_no_sps 0 e /\
     (e = length sample_no_sps \/ (e + 4 <= length sample_no_sps)%nat)) /\
  GetBytesForFirstFragment true 10 11 0 sample_no_sps_client =
    Some ([], 0%nat,
          set_num_skipped_fragments
            (num_skipped_fragments_ sample_no_sps_client + Z.of_nat 2)
            sample_no_sps_client) /\
  exists d' rest,
    DecodeNextFragment true 10 11 sample_no_sps_client = Some d' /\
    encoded_data_next_pos_to_decode_ d' = 0%nat /\
    outstanding_decodes_ d' = outstanding_decodes_ sample_no_sps_client + 1 /\
    decoder_log_ d' =
      decoder_log_ sample_no_sps_client ++
      VDA_Decode (next_bitstream_buffer_id_ sample_no_sps_client) [] :: rest.
Proof.
  assert (Hprof : profile_ sample_no_sps_client < 10) by (vm_compute; reflexivity).
  assert (Hin : (0 <= length (encoded_data_ sample_no_sps_client))%nat) by lia.
  destruct (scanner_progress true 10 11 sample_no_sps_client 0 Hprof Hin)
    as (Hfwd & _ & Hnone & Hstuck).
  split; [|split].
  - apply Hfwd; [vm_compute; lia|reflexivity].
  - apply (Hnone 12%nat 2%nat); [exact sample_no_sps_units|vm_compute; lia].
  - apply Hstuck; [reflexivity|reflexivity|vm_compute; discriminate|].
    right. split; [reflexivity|]. exists 12%nat, 2%nat.
    split; [exact sample_no_sps_units|vm_compute; lia].
Defined.

Lemma flush_exactly_when_drained_witness :
  ~ drained sample_draining_client /\
  (forall d', DecodeNextFragment true 10 11 sample_draining_client = Some d' ->
     count_calls is_flush d' = count_calls is_flush sample_draining_client /\
     state_ d' <> CS_FLUSHING) /\
  (forall id d',
     NotifyEndOfBitstreamBuffer true 10 11 id sample_draining_client = Some d' ->
     count_calls is_flush d' = count_calls is_flush sample_draining_client + 1) /\
  (state_ <$> NotifyEndOfBitstreamBuffer true 10 11 2 sample_draining_client) = Some CS_FLUSHING.
Proof.
  assert (Hnot : ~ drained sample_draining_client).
  { intros [_ Hout]. vm_compute in Hout. discriminate Hout. }
  destruct (flush_exactly_when_drained true 10 11 sample_draining_client)
    as (_ & Hidle & Hconsumed); [reflexivity|reflexivity|].
  split; [exact Hnot|]. split; [exact (Hidle Hnot)|]. split; [|reflexivity].
  intros id d' Hrun. apply (Hconsumed id d' Hrun). split; reflexivity.
Defined.

(** C5, counterexample: when the first decoded frame triggers the
    configured reset, the client asks the decoder to reset but stays in
    [CS_INITIALIZED]; no [CS_RESETTING] is announced. *)
Lemma mid_stream_reset_does_not_enter_resetting :
  reset_after_frame_num_ sample_mid_reset_client = 1 /\
  remaining_play_throughs_ sample_mid_reset_client = 1 /\
  (fun d => (state_ d, note_ d, reset_after_frame_num_ d,
             encoded_data_next_pos_to_decode_ d)) <$>
    PictureReady 20 (mkPicture 0 0) sample_mid_reset_client =
    Some (CS_INITIALIZED, [CS_DECODER_SET; CS_INITIALIZED], MID_STREAM_RESET, 0%nat).
Proof. vm_compute. done. Qed.

Lemma mid_stream_reset_restarts_from_zero_witness :
  exists d',
    PictureReady 20 (mkPicture 0 0) sample_mid_reset_client = Some d' /\
    state_ d' = state_ sample_mid_reset_client /\
    note_ d' = note_ sample_mid_reset_client /\
    decoder_deleted d' = false /\
    count_calls is_reset d' = count_calls is_reset sample_mid_reset_client + 1 /\
    reset_after_frame_num_ d' = MID_STREAM_RESET /\
    encoded_data_next_pos_to_decode_ d' = 0%nat /\
    outstanding_decodes_ d' = outstanding_decodes_ sample_mid_reset_client /\
    next_fragment true 10 11 d' = GetBytesForFirstFragment true 10 11 0 d' /\
    forall now',
      NotifyResetDone true 10 11 now' d' =
      DecodeNextFragment true 10 11 (set_reset_after_frame_num END_OF_STREAM_RESET d').
Proof.
  apply (mid_stream_reset_restarts_from_zero true 10 11 20 (mkPicture 0 0)
           (mkPictureBuffer 0 (320, 240) 7) sample_mid_reset_client).
  - vm_compute. reflexivity.
  - reflexivity.
  - vm_compute. discriminate.
  - reflexivity.
  - reflexivity.
  - reflexivity.
Defined.


(** ** Flow control *)

(** Counts of requests after some were appended to the log. *)
Ltac count_log :=
  unfold same_setup, count_calls; driver_fields;
  rewrite ?List.filter_app, ?length_app;
  cbn [List.filter is_initialize is_decode is_flush is_reset length].

Lemma same_setup_refl d : same_setup d d.
Proof. by repeat split. Qed.

Lemma same_setup_trans d1 d2 d3 :
  same_setup d1 d2 -> same_setup d2 d3 -> same_setup d1 d3.
Proof.
  unfold same_setup. intros (?&?&?&?&?&?&?&?) (?&?&?&?&?&?&?&?).
  repeat split; congruence.
Qed.

(** [SetState] on a live client either deletes the decoder or only
    records the new state. *)
Lemma SetState_result_cases s d :
  (decoder_ (SetState_result s d) = false /\
   outstanding_decodes_ (SetState_result s d) = outstanding_decodes_ d /\
   num_in_flight_decodes_ (SetState_result s d) = num_in_flight_decodes_ d) \/
  (SetState_result s d = entered s d).
Proof.
  unfold SetState_result. destruct (deletes_at s d); [left|by right].
  by destruct (torn_down_fields (entered s d)) as (_ & ? & _ & _ & ? & _ & ? & _).
Qed.

Section FlowControlSteps.

Variable dcheck_is_fatal : bool.
Variables H264PROFILE_MAX VP8PROFILE_MAX : Z.

(** One call of [DecodeNextFragment] on a live client: the decoder is
    deleted, or a flush is requested, or nothing happens, or one unit is
    submitted. *)
Lemma DecodeNextFragment_step d d' :
  decoder_ d = true ->
  DecodeNextFragment dcheck_is_fatal H264PROFILE_MAX VP8PROFILE_MAX d = Some d' ->
  num_in_flight_decodes_ d' = num_in_flight_decodes_ d /\
  ((decoder_ d' = false /\
    outstanding_decodes_ d <= outstanding_decodes_ d' <= outstanding_decodes_ d + 1) \/
   (decoder_ d' = true /\ same_setup d d' /\
    ((encoded_data_next_pos_to_decode_ d = length (encoded_data_ d) /\
      outstanding_decodes_ d = 0 /\
      outstanding_decodes_ d' = 0 /\
      encoded_data_next_pos_to_decode_ d' = encoded_data_next_pos_to_decode_ d /\
      count_calls is_flush d' = count_calls is_flush d + 1 /\
      count_calls is_decode d' = count_calls is_decode d /\
      state_ d' = CS_FLUSHING) \/
     (encoded_data_next_pos_to_decode_ d = length (encoded_data_ d) /\
      outstanding_decodes_ d <> 0 /\ d' = d) \/
     (encoded_data_next_pos_to_decode_ d <> length (encoded_data_ d) /\
      outstanding_decodes_ d' = outstanding_decodes_ d + 1 /\
      count_calls is_flush d' = count_calls is_flush d /\
      count_calls is_decode d' = count_calls is_decode d + 1 /\
      state_ d' = state_ d)))).
Proof.
  intros Hlive. rewrite DecodeNextFragment_live by done.
  destruct (Nat.eqb_spec (encoded_data_next_pos_to_decode_ d) (length (encoded_data_ d)))
    as [Hend|Hmid].
  - destruct (Z.eqb_spec (outstanding_decodes_ d) 0) as [Hzero|Hbusy];
      intros Hd'; injection Hd' as <-.
    + set (d1 := set_decoder_log (decoder_log_ d ++ [VDA_Flush]) d).
      destruct (SetState_result_cases CS_FLUSHING d1) as [(Hdead & Ho & Hm)|Heq].
      * split; [exact Hm|]. left. split; [done|]. rewrite Ho. simpl. lia.
      * rewrite Heq. unfold entered, d1. split; [done|]. right. split; [done|].
        split; [count_log; repeat split; try done; lia|]. left.
        count_log. repeat split; try done; lia.
    + split; [done|]. right. split; [done|]. split; [apply same_setup_refl|].
      right. left. by repeat split.
  - intros Hd'.
    destruct (next_fragment dcheck_is_fatal H264PROFILE_MAX VP8PROFILE_MAX d)
      as [[[bytes e] d1]|] eqn:Hf; [|done].
    rewrite bind_Some in Hd'. cbv beta iota in Hd'.
    apply next_fragment_recounts in Hf as (q & k & ->).
    injection Hd' as <-. destruct (deletes_after_decode _).
    + destruct (torn_down_fields (submitted bytes e (recounted q k d)))
        as (_ & Hdead & _ & _ & Ho & _ & Hm & _).
      split; [exact Hm|]. left. split; [done|]. rewrite Ho. simpl. lia.
    + unfold submitted, recounted. split; [done|]. right. split; [done|].
      split; [count_log; repeat split; try done; lia|]. right. right.
      count_log. repeat split; try done; lia.
Qed.

Lemma DecodeNextFragment_dead d :
  decoder_ d = false -> DecodeNextFragment dcheck_is_fatal H264PROFILE_MAX VP8PROFILE_MAX d
    = Some d.
Proof. intros Hdead. unfold DecodeNextFragment, decoder_deleted. by rewrite Hdead. Qed.

Lemma decode_times_dead n d :
  decoder_ d = false -> decode_times dcheck_is_fatal H264PROFILE_MAX VP8PROFILE_MAX n d = Some d.
Proof.
  intros Hdead. induction n as [|n IH]; [done|].
  cbn [decode_times]. rewrite DecodeNextFragment_dead by done. by rewrite bind_Some.
Qed.

(** The submission loop: [n] calls of [DecodeNextFragment] on a live
    client with nothing outstanding below zero. *)
Lemma decode_times_step n d d' :
  decoder_ d = true ->
  0 <= outstanding_decodes_ d ->
  decode_times dcheck_is_fatal H264PROFILE_MAX VP8PROFILE_MAX n d = Some d' ->
  num_in_flight_decodes_ d' = num_in_flight_decodes_ d /\
  ((decoder_ d' = false /\
    outstanding_decodes_ d <= outstanding_decodes_ d' <= outstanding_decodes_ d + Z.of_nat n) \/
   (decoder_ d' = true /\ same_setup d d' /\
    ((n = 0%nat /\ d' = d) \/
     ((0 < n)%nat /\
      encoded_data_next_pos_to_decode_ d = length (encoded_data_ d) /\
      outstanding_decodes_ d = 0 /\
      outstanding_decodes_ d' = 0 /\
      encoded_data_next_pos_to_decode_ d' = encoded_data_next_pos_to_decode_ d /\
      count_calls is_flush d' = count_calls is_flush d + Z.of_nat n /\
      count_calls is_decode d' = count_calls is_decode d /\
      state_ d' = CS_FLUSHING) \/
     ((0 < n)%nat /\
      encoded_data_next_pos_to_decode_ d = length (encoded_data_ d) /\
      outstanding_decodes_ d <> 0 /\ d' = d) \/
     ((0 < n)%nat /\
      encoded_data_next_pos_to_decode_ d <> length (encoded_data_ d) /\
      1 <= outstanding_decodes_ d' - outstanding_decodes_ d <= Z.of_nat n /\
      count_calls is_decode d' - count_calls is_decode d =
        outstanding_decodes_ d' - outstanding_decodes_ d /\
      count_calls is_flush d' = count_calls is_flush d /\
      state_ d' = state_ d /\
      (outstanding_decodes_ d' - outstanding_decodes_ d = Z.of_nat n \/
       encoded_data_next_pos_to_decode_ d' = length (encoded_data_ d')))))).
Proof.
  revert d. induction n as [|n IH]; intros d Hlive Hpos Hrun.
  - cbn [decode_times] in Hrun. injection Hrun as <-. split; [done|].
    right. split; [done|]. split; [apply same_setup_refl|]. by left.
  - cbn [decode_times] in Hrun.
    destruct (DecodeNextFragment dcheck_is_fatal H264PROFILE_MAX VP8PROFILE_MAX d)
      as [d1|] eqn:Hstep; [|done].
    rewrite bind_Some in Hrun.
    destruct (DecodeNextFragment_step d d1 Hlive Hstep) as [Hm1 Hcases].
    destruct Hcases as [[Hdead Hout]|(Hlive1 & Hsame1 & Hcases)].
    { rewrite decode_times_dead in Hrun by done. injection Hrun as <-.
      split; [done|]. left. split; [done|]. lia. }
    assert (Hdata1 : encoded_data_ d1 = encoded_data_ d) by apply Hsame1.
    destruct Hcases as [Hflush|[Hidle|Hsubmit]].
    + destruct Hflush as (Hend & Hzero & Hzero1 & Hcur1 & Hfl1 & Hdec1 & Hst1).
      destruct (IH d1 Hlive1 ltac:(lia) Hrun) as [Hm Hcases].
      split; [congruence|].
      destruct Hcases as [[Hdead Hout]|(Hlive' & Hsame' & Hcases)].
      { left. split; [done|]. lia. }
      right. split; [done|]. split; [by apply (same_setup_trans d d1 d')|].
      right. left. split; [lia|].
      destruct Hcases as [[-> ->]|[Hc|[Hc|Hc]]].
      * repeat split; try done; lia.
      * destruct Hc as (_ & _ & _ & ? & ? & ? & ? & ?).
        repeat split; try done; try congruence; lia.
      * destruct Hc as (_ & _ & ? & _). lia.
      * destruct Hc as (_ & ? & _). congruence.
    + destruct Hidle as (Hend & Hbusy & ->).
      destruct (IH d Hlive Hpos Hrun) as [Hm Hcases].
      split; [done|].
      destruct Hcases as [[Hdead Hout]|(Hlive' & Hsame' & Hcases)].
      { left. split; [done|]. lia. }
      right. split; [done|]. split; [done|].
      right. right. left. split; [lia|].
      destruct Hcases as [[_ ->]|[Hc|[Hc|Hc]]].
      * by repeat split.
      * destruct Hc as (_ & _ & ? & _). done.
      * destruct Hc as (_ & _ & _ & ->). by repeat split.
      * destruct Hc as (_ & ? & _). done.
    + destruct Hsubmit as (Hmid & Hout1 & Hfl1 & Hdec1 & Hst1).
      destruct (IH d1 Hlive1 ltac:(lia) Hrun) as [Hm Hcases].
      split; [congruence|].
      destruct Hcases as [[Hdead Hout]|(Hlive' & Hsame' & Hcases)].
      { left. split; [done|]. lia. }
      right. split; [done|]. split; [by apply (same_setup_trans d d1 d')|].
      right. right. right. split; [lia|]. split; [done|].
      destruct Hcases as [[-> ->]|[Hc|[Hc|Hc]]].
      * repeat split; try lia; try done; try (left; lia).
      * destruct Hc as (_ & _ & ? & _). lia.
      * destruct Hc as (_ & Hend1 & _ & ->).
        repeat split; try lia; try done; try (right; congruence).
      * destruct Hc as (_ & _ & ? & ? & ? & ? & Hfin).
        repeat split; try lia; try congruence;
          try (destruct Hfin as [?|?]; [left; lia|by right]).
Qed.

Lemma entered_inert s d :
  s = state_ d \/ s = CS_ERROR -> inert d (entered s d).
Proof.
  intros Hs. unfold inert, entered. count_log.
  repeat split; try done; try (destruct Hs as [->| ->]; [by left|by right]).
Qed.

Lemma NotifyError_inert error d d' :
  decoder_ d = true -> NotifyError error d = Some d' -> inert d d'.
Proof.
  intros Hlive. unfold NotifyError. rewrite SetState_live by done.
  intros Hd'. injection Hd' as <-.
  destruct (SetState_result_cases CS_ERROR d) as [(Hdead & Ho & Hm)|Heq].
  - split; [done|]. split; [done|]. intros Hl. congruence.
  - rewrite Heq. apply entered_inert. by right.
Qed.

Lemma provide_one_inert dims target d buffers t d' buffers' :
  provide_one dims target (Some (d, buffers)) t = Some (d', buffers') ->
  inert d d' /\ decoder_ d' = decoder_ d /\ decoder_log_ d' = decoder_log_ d.
Proof.
  unfold provide_one. rewrite bind_Some. cbv beta iota. pool_fields.
  destruct (decide _); [done|]. destruct (_ !! _); [done|].
  intros Hd'. injection Hd' as <- _.
  split; [|done]. unfold inert. count_log.
  repeat split; try done; try lia; try (by left).
Qed.

Lemma inert_trans d1 d2 d3 :
  decoder_ d2 = true -> inert d1 d2 -> inert d2 d3 -> inert d1 d3.
Proof.
  intros Hlive2 (Hm1 & Ho1 & H1) (Hm2 & Ho2 & H2).
  split; [congruence|]. split; [congruence|]. intros Hlive3.
  destruct (H1 Hlive2) as (Hs1 & Hn1 & Hc1 & Hd1 & Hf1 & Hst1).
  destruct (H2 Hlive3) as (Hs2 & Hn2 & Hc2 & Hd2 & Hf2 & Hst2).
  unfold same_setup, count_calls in *. driver_fields_all.
  destruct Hs1 as (?&?&?&?&?&?&?&?). destruct Hs2 as (?&?&?&?&?&?&?&?).
  repeat split; try congruence; try lia.
  destruct Hst1 as [Hst1|Hst1], Hst2 as [Hst2|Hst2]; rewrite ?Hst2, ?Hst1;
    (by left) || (by right).
Qed.

Lemma provide_loop_inert dims target textures d buffers d' buffers' :
  decoder_ d = true ->
  foldl (provide_one dims target) (Some (d, buffers)) textures = Some (d', buffers') ->
  inert d d' /\ decoder_ d' = true /\ decoder_log_ d' = decoder_log_ d.
Proof.
  revert d buffers. induction textures as [|t textures IH]; intros d buffers Hlive Hloop.
  - cbn [foldl] in Hloop. injection Hloop as <- _.
    split; [|done]. unfold inert. count_log.
    repeat split; try done; try lia; try (by left).
  - cbn [foldl] in Hloop.
    destruct (provide_one dims target (Some (d, buffers)) t) as [[d1 b1]|] eqn:Hstep;
      [|by rewrite provide_one_None in Hloop].
    destruct (provide_one_inert _ _ _ _ _ _ _ Hstep) as (Hi1 & Hd1 & Hl1).
    destruct (IH d1 b1 ltac:(congruence) Hloop) as (Hi' & Hd' & Hl').
    split; [|split; [done|congruence]].
    apply (inert_trans d d1 d'); [congruence|done|done].
Qed.

Lemma ProvidePictureBuffers_inert dims target textures d d' :
  decoder_ d = true ->
  ProvidePictureBuffers dims target textures d = Some d' -> inert d d'.
Proof.
  intros Hlive. unfold ProvidePictureBuffers, decoder_deleted. rewrite Hlive.
  cbn [negb].
  destruct (foldl _ _ textures) as [[d1 buffers]|] eqn:Hloop; [|done].
  rewrite bind_Some. cbv beta iota.
  destruct (provide_loop_inert _ _ _ _ _ _ _ Hlive Hloop) as (Hi & Hd1 & Hl).
  unfold call_decoder, decoder_deleted. rewrite Hd1. cbn [negb].
  intros Hd'. injection Hd' as <-.
  apply (inert_trans d d1); [done|done|].
  unfold inert. count_log. repeat split; try done; try lia; try (by left).
Qed.

Lemma DismissPictureBuffer_inert id d d' :
  DismissPictureBuffer id d = Some d' -> inert d d'.
Proof.
  unfold DismissPictureBuffer.
  destruct (_ !! _) as [buffer|]; [|done]. rewrite bind_Some. cbv beta.
  destruct (decide _); [|done]. intros Hd'. injection Hd' as <-.
  unfold inert. count_log. repeat split; try done; try lia; try (by left).
Qed.

Lemma PictureReady_inert now picture d d' :
  decoder_ d = true ->
  reset_after_frame_num_ d < 0 ->
  0 <= num_decoded_frames_ d ->
  throttling_client_ d = None ->
  PictureReady now picture d = Some d' ->
  inert d d' /\ decoder_ d' = true.
Proof.
  intros Hlive Hreset Hcount Hthr. unfold PictureReady, decoder_deleted.
  destruct (_ <? cs_value CS_RESET); [|done]. rewrite Hlive. cbn [negb].
  driver_fields. destruct (_ <=? _); [|done]. cbn [negb].
  unfold num_decoded_frames. driver_fields. rewrite Hthr.
  destruct (Z.eqb_spec (reset_after_frame_num_ d) (num_decoded_frames_ d + 1))
    as [?|_]; [lia|].
  rewrite andb_false_r, bind_Some. cbv beta. driver_fields.
  destruct (_ !! _) as [buffer|]; [|done]. rewrite bind_Some. cbv beta.
  unfold call_decoder, decoder_deleted.
  destruct (suppress_rendering_ d) eqn:Hsup; driver_fields; rewrite ?Hsup;
    driver_fields; rewrite ?Hlive; cbn [negb];
    destruct (_ <? _); intros Hd'; injection Hd' as <-;
    (split; [|done]); unfold inert; count_log;
    repeat split; try done; try lia; try (by left).
Qed.

Lemma answered_snoc f past ev :
  answered f (past ++ [ev]) = answered f past + (if f ev then 1 else 0).
Proof.
  unfold answered. rewrite List.filter_app, length_app. cbn [List.filter].
  destruct (f ev); cbn [length]; lia.
Qed.

(** Callbacks that are inert and answer nothing keep the invariant. *)
Lemma inert_keeps_invariant d past ev d' :
  in_flight_invariant d past ->
  decoder_ d = true ->
  inert d d' ->
  is_initialize_done ev = false -> is_buffer_done ev = false ->
  is_flush_done ev = false -> is_reset_done ev = false ->
  in_flight_invariant d' (past ++ [ev]).
Proof.
  intros (Hle & Hmax & Hinv) Hlive (Hm & Ho & Hrest) Hi Hb Hf Hr.
  split; [lia|]. split; [lia|]. intros Hlive'.
  specialize (Hinv Hlive). destruct (Hrest Hlive') as (Hs & Hn & Hc & Hd & Hfl & Hst).
  destruct Hs as (_ & Hra & _ & Hth & Hdata & Hrem & Hci & Hcr).
  driver_fields_in Hra. driver_fields_in Hth. driver_fields_in Hdata.
  driver_fields_in Hrem. unfold count_calls in Hci, Hcr.
  driver_fields_in Hci. driver_fields_in Hcr.
  fold (count_calls is_initialize d') (count_calls is_initialize d) in Hci.
  fold (count_calls is_reset d') (count_calls is_reset d) in Hcr.
  unfold quiet, pending_initialize, held_buffers, pending_flushes, pending_resets in *.
  rewrite !answered_snoc, Hi, Hb, Hf, Hr, !Z.add_0_r.
  rewrite Hm, Ho, Hra, Hth, Hdata, Hrem, Hc, Hd, Hfl, Hci, Hcr.
  destruct Hinv as (H1 & H2 & H3 & H4 & H5 & H6 & H7 & H8 & H9 & H10 & H11 & H12
                    & H13 & H14 & H15).
  split; [done|]. split; [done|]. split; [done|]. split; [lia|]. split; [done|].
  split; [done|]. split; [done|]. split; [done|]. split; [done|]. split; [done|].
  split; [done|]. split; [done|]. split; [done|]. split; [done|].
  intros Hinit. apply H15. destruct Hst as [Hst|Hst]; congruence.
Qed.

Lemma DeleteDecoder_step d d' :
  decoder_ d = true -> DeleteDecoder d = Some d' ->
  decoder_ d' = false /\
  outstanding_decodes_ d' = outstanding_decodes_ d /\
  num_in_flight_decodes_ d' = num_in_flight_decodes_ d.
Proof.
  intros Hlive Hrun. destruct (classic_teardown d) as [Hsafe|Hunsafe].
  - rewrite DeleteDecoder_live in Hrun by done. injection Hrun as <-.
    by destruct (torn_down_fields d) as (_ & ? & _ & _ & ? & _ & ? & _).
  - by rewrite DeleteDecoder_abort in Hrun.
Qed.

Lemma NotifyEndOfBitstreamBuffer_keeps_invariant id d past d' :
  in_flight_invariant d past ->
  permitted d past (EvNotifyEndOfBitstreamBuffer id) = true ->
  NotifyEndOfBitstreamBuffer dcheck_is_fatal H264PROFILE_MAX VP8PROFILE_MAX id d = Some d' ->
  in_flight_invariant d' (past ++ [EvNotifyEndOfBitstreamBuffer id]).
Proof.
  intros (Hle & Hmax & Hinv) Hperm Hrun.
  unfold permitted in Hperm. apply andb_prop in Hperm as [Hlive Hheld].
  apply Z.ltb_lt in Hheld. specialize (Hinv Hlive).
  destruct Hinv as (H1 & H2 & H3 & H4 & H5 & H6 & H7 & H8 & H9 & H10 & H11 & H12
                    & H13 & H14 & H15).
  unfold NotifyEndOfBitstreamBuffer in Hrun.
  set (d2 := set_outstanding_decodes (outstanding_decodes_ d - 1)
               (set_num_done_bitstream_buffers (num_done_bitstream_buffers_ d + 1) d))
    in Hrun.
  destruct (DecodeNextFragment_step d2 d' Hlive Hrun) as [Hm Hcases].
  unfold d2 in Hm, Hcases. clear d2 Hrun.
  unfold same_setup, count_calls in Hcases. driver_fields_in Hm.
  driver_fields_in Hcases.
  fold (count_calls is_initialize d') (count_calls is_initialize d)
       (count_calls is_reset d') (count_calls is_reset d)
       (count_calls is_flush d') (count_calls is_flush d)
       (count_calls is_decode d') (count_calls is_decode d) in Hcases.
  unfold in_flight_invariant, quiet, pending_initialize, held_buffers,
    pending_flushes, pending_resets in *.
  rewrite !answered_snoc. cbn [is_initialize_done is_buffer_done is_flush_done is_reset_done].
  rewrite !Z.add_0_r.
  destruct Hcases as [[Hdead Hout]|(Hlive' & Hsame & Hcases)].
  { split; [lia|]. split; [lia|]. intros Hl. congruence. }
  destruct Hsame as (_ & Hra & Hnd & Hth & Hdata & Hrem & Hci & Hcr).
  rewrite Hm, Hra, Hnd, Hth, Hdata, Hrem, Hci, Hcr.
  destruct Hcases as [Hflush|[Hidle|Hsubmit]].
  - destruct Hflush as (Hend & Hzero & Hzero' & Hcur & Hfl & Hdec & Hst).
    rewrite Hzero', Hcur, Hfl, Hdec, Hst.
    split; [lia|]. split; [lia|]. intros _.
    repeat split; intros; try lia; try done; try (apply H12; done); try (apply H13; lia).
  - destruct Hidle as (Hend & Hbusy & ->). unfold count_calls. driver_fields.
    fold (count_calls is_initialize d) (count_calls is_reset d)
         (count_calls is_flush d) (count_calls is_decode d).
    split; [lia|]. split; [lia|]. intros _.
    repeat split; intros; try lia; try done; try (apply H12; done);
      try (apply H13; lia); try (apply H15; done).
  - destruct Hsubmit as (Hmid & Hout & Hfl & Hdec & Hst).
    rewrite Hout, Hfl, Hdec, Hst.
    assert (Hquiet : outstanding_decodes_ d = num_in_flight_decodes_ d)
      by (apply H14; [repeat split; lia|done]).
    split; [lia|]. split; [lia|]. intros _.
    repeat split; intros; try lia; try done; try (apply H15; done).
Qed.

(** The submission loop, started with nothing outstanding at offset 0
    once the request it follows has been answered, establishes the
    invariant. *)
Lemma decode_loop_establishes d1 past d' :
  decoder_ d1 = true ->
  1 <= num_in_flight_decodes_ d1 ->
  outstanding_decodes_ d1 = 0 ->
  encoded_data_next_pos_to_decode_ d1 = 0%nat ->
  held_buffers d1 past = 0 ->
  reset_after_frame_num_ d1 = END_OF_STREAM_RESET ->
  0 <= num_decoded_frames_ d1 ->
  throttling_client_ d1 = None ->
  pending_initialize d1 past = 0 ->
  0 <= pending_flushes d1 past ->
  0 <= pending_resets d1 past ->
  (0 < pending_flushes d1 past + pending_resets d1 past ->
   length (encoded_data_ d1) = 0%nat) ->
  (state_ d1 = CS_INITIALIZED -> remaining_play_throughs_ d1 <> 0) ->
  decode_times dcheck_is_fatal H264PROFILE_MAX VP8PROFILE_MAX
    (Z.to_nat (num_in_flight_decodes_ d1)) d1
    = Some d' ->
  in_flight_invariant d' past.
Proof.
  intros Hlive Hmax Hout Hcur Hheld Hra Hnd Hth Hpi Hpf Hpr Hempty Hst Hrun.
  destruct (decode_times_step _ d1 d' Hlive ltac:(lia) Hrun) as [Hm Hcases].
  rewrite Z2Nat.id in Hcases by lia.
  assert (Hns : reset_after_frame_num_ d1 <> START_OF_STREAM_RESET)
    by (rewrite Hra; done).
  unfold in_flight_invariant, quiet, pending_initialize, held_buffers,
    pending_flushes, pending_resets in *.
  destruct Hcases as [[Hdead Hbound]|(Hlive' & Hsame & Hcases)].
  { split; [lia|]. split; [lia|]. intros Hl. congruence. }
  destruct Hsame as (_ & Hra' & Hnd' & Hth' & Hdata' & Hrem' & Hci' & Hcr').
  rewrite Hm, Hra', Hnd', Hth', Hdata', Hrem', Hci', Hcr'.
  destruct Hcases as [[Hn _]|[Hc|[Hc|Hc]]].
  - lia.
  - destruct Hc as (_ & Hend & _ & Hout' & Hcur' & Hfl' & Hdec' & Hst').
    rewrite Hout', Hcur', Hfl', Hdec', Hst'.
    split; [lia|]. split; [lia|]. intros _.
    repeat split; intros; try lia; try done; try congruence;
      try (by destruct Hns).
  - destruct Hc as (_ & _ & Hbusy & _). done.
  - destruct Hc as (_ & Hmid & Hk & Hdec' & Hfl' & Hst' & Hfin).
    rewrite Hfl', Hst'. rewrite Hdata' in Hfin.
    assert (Hnonempty : length (encoded_data_ d1) <> 0%nat) by lia.
    split; [lia|]. split; [lia|]. intros _.
    repeat split; intros; try lia; try done; try congruence;
      try (by apply Hst); try (by destruct Hns).
Qed.

Lemma NotifyInitializeDone_keeps_invariant now d past d' :
  in_flight_invariant d past ->
  permitted d past (EvNotifyInitializeDone now) = true ->
  NotifyInitializeDone dcheck_is_fatal H264PROFILE_MAX VP8PROFILE_MAX now d = Some d' ->
  in_flight_invariant d' (past ++ [EvNotifyInitializeDone now]).
Proof.
  intros (Hle & Hmax & Hinv) Hperm Hrun.
  unfold permitted in Hperm. apply andb_prop in Hperm as [Hlive Hpend].
  apply Z.ltb_lt in Hpend. specialize (Hinv Hlive).
  destruct Hinv as (H1 & H2 & H3 & H4 & H5 & H6 & H7 & H8 & H9 & H10 & H11 & H12
                    & H13 & H14 & H15).
  destruct (H13 Hpend) as (Hcur & Hnd & Hnf & Hnr & Hrem).
  unfold NotifyInitializeDone in Hrun.
  rewrite SetState_live, bind_Some in Hrun by done. cbv beta zeta in Hrun.
  destruct (SetState_result_cases CS_INITIALIZED d) as [(Hdead & Ho & Hm)|Heq].
  - set (d1 := SetState_result CS_INITIALIZED d) in *.
    driver_fields_in Hrun.
    destruct (reset_after_frame_num_ d1 =? START_OF_STREAM_RESET).
    + unfold call_decoder, decoder_deleted in Hrun. driver_fields_in Hrun.
      rewrite Hdead in Hrun. done.
    + apply checked_loop_result in Hrun.
      rewrite decode_times_dead in Hrun by (driver_fields; done).
      injection Hrun as <-. unfold in_flight_invariant. driver_fields.
      split; [lia|]. split; [lia|]. intros Hl. congruence.
  - rewrite Heq in Hrun. driver_fields_in Hrun.
    destruct (Z.eqb_spec (reset_after_frame_num_ d) START_OF_STREAM_RESET) as [Hs|Hs].
    + unfold call_decoder, decoder_deleted in Hrun. driver_fields_in Hrun.
      rewrite Hlive in Hrun. cbn [negb] in Hrun. injection Hrun as <-.
      unfold in_flight_invariant, quiet, pending_initialize, held_buffers,
        pending_flushes, pending_resets in *.
      rewrite !answered_snoc.
      cbn [is_initialize_done is_buffer_done is_flush_done is_reset_done].
      rewrite !Z.add_0_r. count_log. rewrite ?Nat2Z.inj_add.
      fold (count_calls is_initialize d) (count_calls is_reset d)
           (count_calls is_flush d) (count_calls is_decode d).
      split; [lia|]. split; [lia|]. intros _.
      repeat split; intros; try lia; try done; try (apply H10; lia).
    + apply checked_loop_result in Hrun.
      apply decode_loop_establishes
        with (d1 := set_initialize_done_ticks now (entered CS_INITIALIZED d));
        unfold in_flight_invariant, quiet, pending_initialize, held_buffers,
          pending_flushes, pending_resets in *;
        rewrite ?answered_snoc;
        cbn [is_initialize_done is_buffer_done is_flush_done is_reset_done];
        rewrite ?Z.add_0_r; unfold count_calls in *; driver_fields;
        try done; lia.
Qed.

Lemma NotifyFlushDone_keeps_invariant d past d' :
  in_flight_invariant d past ->
  permitted d past EvNotifyFlushDone = true ->
  NotifyFlushDone dcheck_is_fatal d = Some d' ->
  in_flight_invariant d' (past ++ [EvNotifyFlushDone]).
Proof.
  intros (Hle & Hmax & Hinv) Hperm Hrun.
  unfold permitted in Hperm. apply andb_prop in Hperm as [Hlive Hpend].
  apply Z.ltb_lt in Hpend. specialize (Hinv Hlive).
  destruct Hinv as (H1 & H2 & H3 & H4 & H5 & H6 & H7 & H8 & H9 & H10 & H11 & H12
                    & H13 & H14 & H15).
  assert (Hpi : ~ 0 < pending_initialize d past).
  { intros Hp. destruct (H13 Hp) as (_ & _ & Hnf & _).
    unfold pending_flushes, answered in Hpend. lia. }
  unfold NotifyFlushDone in Hrun. unfold decoder_deleted in Hrun at 1.
  rewrite Hlive in Hrun. cbn [negb] in Hrun.
  rewrite SetState_live, bind_Some in Hrun by done. cbv beta zeta in Hrun.
  apply DCHECK_bind in Hrun.
  destruct (SetState_result_cases CS_FLUSHED d) as [(Hdead & Ho & Hm)|Heq].
  - set (d1 := SetState_result CS_FLUSHED d) in *.
    unfold decoder_deleted in Hrun. driver_fields_in Hrun.
    rewrite Hdead in Hrun. cbn [negb] in Hrun. injection Hrun as <-.
    unfold in_flight_invariant. driver_fields.
    split; [lia|]. split; [lia|]. intros Hl. congruence.
  - rewrite Heq in Hrun. unfold call_decoder in Hrun.
    unfold decoder_deleted in Hrun.
    driver_fields_in Hrun. rewrite Hlive in Hrun. cbn [negb] in Hrun.
    rewrite bind_Some in Hrun. cbv beta in Hrun.
    rewrite SetState_live in Hrun by (driver_fields; done).
    injection Hrun as <-.
    match goal with |- in_flight_invariant (SetState_result ?s ?x) _ =>
      set (d3 := x);
      destruct (SetState_result_cases s d3) as [(Hdead & Ho & Hm)|Heq']
    end.
    + assert (Ho3 : outstanding_decodes_ d3 = outstanding_decodes_ d) by done.
      assert (Hm3 : num_in_flight_decodes_ d3 = num_in_flight_decodes_ d) by done.
      unfold in_flight_invariant. rewrite Ho, Hm, Ho3, Hm3.
      split; [lia|]. split; [lia|]. intros Hl. congruence.
    + rewrite Heq'. unfold d3.
      unfold in_flight_invariant, quiet, pending_initialize, held_buffers,
        pending_flushes, pending_resets in *.
      rewrite !answered_snoc.
      cbn [is_initialize_done is_buffer_done is_flush_done is_reset_done].
      rewrite !Z.add_0_r. count_log. rewrite ?Nat2Z.inj_add.
      fold (count_calls is_initialize d) (count_calls is_reset d)
           (count_calls is_flush d) (count_calls is_decode d).
      split; [lia|]. split; [lia|]. intros _.
      repeat split; intros; try lia; try done; try (apply H10; lia);
        try (apply H12; done).
Qed.

Lemma NotifyResetDone_keeps_invariant now d past d' :
  in_flight_invariant d past ->
  permitted d past (EvNotifyResetDone now) = true ->
  NotifyResetDone dcheck_is_fatal H264PROFILE_MAX VP8PROFILE_MAX now d = Some d' ->
  in_flight_invariant d' (past ++ [EvNotifyResetDone now]).
Proof.
  intros (Hle & Hmax & Hinv) Hperm Hrun.
  unfold permitted in Hperm. apply andb_prop in Hperm as [Hlive Hpend].
  apply Z.ltb_lt in Hpend. specialize (Hinv Hlive).
  destruct Hinv as (H1 & H2 & H3 & H4 & H5 & H6 & H7 & H8 & H9 & H10 & H11 & H12
                    & H13 & H14 & H15).
  assert (Hpi : ~ 0 < pending_initialize d past).
  { intros Hp. destruct (H13 Hp) as (_ & _ & _ & Hnr & _).
    unfold pending_resets, answered in Hpend. lia. }
  unfold NotifyResetDone in Hrun. unfold decoder_deleted in Hrun at 1.
  rewrite Hlive in Hrun. cbn [negb] in Hrun.
  destruct (Z.eqb_spec (reset_after_frame_num_ d) MID_STREAM_RESET) as [Hmid|_].
  { destruct H3 as [H3|H3]; rewrite H3 in Hmid; done. }
  destruct (Z.eqb_spec (reset_after_frame_num_ d) START_OF_STREAM_RESET) as [Hs|Hs].
  { cbv zeta in Hrun. driver_fields_in Hrun.
    destruct (H12 Hs) as [Hcur _].
    apply decode_loop_establishes
      with (d1 := set_reset_after_frame_num END_OF_STREAM_RESET d);
      unfold in_flight_invariant, quiet, pending_initialize, held_buffers,
        pending_flushes, pending_resets in *;
      rewrite ?answered_snoc;
      cbn [is_initialize_done is_buffer_done is_flush_done is_reset_done];
      rewrite ?Z.add_0_r; unfold count_calls in *; driver_fields;
      try done; lia. }
  destruct (Z.eqb_spec (remaining_play_throughs_ d) 0) as [Hrem|Hrem];
    cbn [negb] in Hrun.
  - rewrite SetState_live, bind_Some in Hrun by done. cbv beta in Hrun.
    destruct (SetState_result_cases CS_RESET d) as [(Hdead & Ho & Hm)|Heq].
    + unfold decoder_deleted in Hrun. rewrite Hdead in Hrun. cbn [negb] in Hrun.
      injection Hrun as <-. unfold in_flight_invariant.
      split; [lia|]. split; [lia|]. intros Hl. congruence.
    + rewrite Heq in Hrun. unfold decoder_deleted in Hrun.
      driver_fields_in Hrun. rewrite Hlive in Hrun. cbn [negb] in Hrun.
      destruct (DeleteDecoder_step (entered CS_RESET d) d' Hlive Hrun)
        as (Hdead & Ho & Hm).
      driver_fields_in Ho. driver_fields_in Hm. unfold in_flight_invariant.
      split; [lia|]. split; [lia|]. intros Hl. congruence.
  - unfold NotifyInitializeDone in Hrun.
    rewrite SetState_live, bind_Some in Hrun by (driver_fields; done).
    cbv beta zeta in Hrun.
    match type of Hrun with context [SetState_result ?s ?x] =>
      set (d0 := x) in *;
      destruct (SetState_result_cases s d0) as [(Hdead & Ho & Hm)|Heq]
    end.
    + set (d1 := SetState_result CS_INITIALIZED d0) in *.
      assert (Ho0 : outstanding_decodes_ d0 = outstanding_decodes_ d) by done.
      assert (Hm0 : num_in_flight_decodes_ d0 = num_in_flight_decodes_ d) by done.
      driver_fields_in Hrun.
      destruct (reset_after_frame_num_ d1 =? START_OF_STREAM_RESET).
      * unfold call_decoder, decoder_deleted in Hrun. driver_fields_in Hrun.
        rewrite Hdead in Hrun. done.
      * apply checked_loop_result in Hrun.
        rewrite decode_times_dead in Hrun by (driver_fields; done).
        injection Hrun as <-. unfold in_flight_invariant. driver_fields.
        split; [lia|]. split; [lia|]. intros Hl. congruence.
    + rewrite Heq in Hrun. unfold d0 in Hrun. driver_fields_in Hrun.
      destruct (Z.eqb_spec (reset_after_frame_num_ d) START_OF_STREAM_RESET)
        as [Hs'|_]; [done|].
      apply checked_loop_result in Hrun.
      apply decode_loop_establishes
        with (d1 := set_initialize_done_ticks now
                      (entered CS_INITIALIZED
                         (set_encoded_data_next_pos_to_decode 0%nat d)));
        unfold in_flight_invariant, quiet, pending_initialize, held_buffers,
          pending_flushes, pending_resets in *;
        rewrite ?answered_snoc;
        cbn [is_initialize_done is_buffer_done is_flush_done is_reset_done];
        rewrite ?Z.add_0_r; unfold count_calls in *; driver_fields;
        try done; lia.
Qed.

(** Every permitted callback keeps the invariant. *)
Lemma handle_keeps_invariant d past ev d' :
  in_flight_invariant d past ->
  permitted d past ev = true ->
  handle dcheck_is_fatal H264PROFILE_MAX VP8PROFILE_MAX ev d = Some d' ->
  in_flight_invariant d' (past ++ [ev]).
Proof.
  intros Hinv Hperm Hrun.
  assert (Hlive : decoder_ d = true).
  { unfold permitted in Hperm. by apply andb_prop in Hperm as [? _]. }
  destruct ev as [dims target textures|id|now picture|now|id| |now|error];
    cbn [handle] in Hrun.
  - eapply inert_keeps_invariant; try done.
    by eapply ProvidePictureBuffers_inert.
  - eapply inert_keeps_invariant; try done.
    by eapply DismissPictureBuffer_inert.
  - pose proof Hinv as (Hle & Hmax & Hinv').
    destruct (Hinv' Hlive) as (_ & _ & Hra & Hnd & Hth & _).
    eapply inert_keeps_invariant; try done.
    eapply PictureReady_inert; try done.
    unfold END_OF_STREAM_RESET, START_OF_STREAM_RESET in Hra. lia.
  - by eapply NotifyInitializeDone_keeps_invariant.
  - by eapply NotifyEndOfBitstreamBuffer_keeps_invariant.
  - by eapply NotifyFlushDone_keeps_invariant.
  - by eapply NotifyResetDone_keeps_invariant.
  - eapply inert_keeps_invariant; try done.
    by eapply NotifyError_inert.
Qed.

(** A freshly started client without a mid-stream reset point satisfies
    the invariant. *)
Lemma started_invariant d0 reset_point :
  started d0 reset_point ->
  reset_point = END_OF_STREAM_RESET \/ reset_point = START_OF_STREAM_RESET ->
  in_flight_invariant d0 [].
Proof.
  intros (window & data & n & plays & del & profile & suppress & delay & c & Hc & Hd0) Hrp.
  unfold create in Hc.
  destruct ((0 <? n) && (0 <? plays)) eqn:Hcond; [|done].
  apply andb_prop in Hcond as [Hn Hp].
  apply Z.ltb_lt in Hn, Hp. injection Hc as <-.
  unfold CreateDecoder in Hd0. unfold decoder_deleted in Hd0 at 1.
  cbn [decoder_ negb] in Hd0.
  rewrite SetState_live, bind_Some in Hd0 by done. cbv beta in Hd0.
  match type of Hd0 with context [SetState_result ?s ?x] =>
    set (c0 := x) in *;
    destruct (SetState_result_cases s c0) as [(Hdead & Ho & Hm)|Heq]
  end.
  - unfold decoder_deleted in Hd0. rewrite Hdead in Hd0. cbn [negb] in Hd0.
    injection Hd0 as <-. unfold in_flight_invariant. rewrite Ho, Hm.
    split; [unfold c0; driver_fields; lia|].
    split; [unfold c0; driver_fields; lia|]. intros Hl. congruence.
  - rewrite Heq in Hd0. unfold call_decoder in Hd0. unfold decoder_deleted in Hd0.
    unfold c0 in Hd0. driver_fields_in Hd0. cbn [negb] in Hd0.
    rewrite bind_Some in Hd0. injection Hd0 as <-.
    unfold in_flight_invariant, quiet, pending_initialize, held_buffers,
      pending_flushes, pending_resets, answered, count_calls.
    driver_fields.
    cbn [app List.filter is_initialize is_decode is_flush is_reset length].
    split; [lia|]. split; [lia|]. intros _.
    repeat split; intros; try lia; try done.
Qed.

Lemma run_invariant d0 reset_point past d :
  started d0 reset_point ->
  reset_point = END_OF_STREAM_RESET \/ reset_point = START_OF_STREAM_RESET ->
  run dcheck_is_fatal H264PROFILE_MAX VP8PROFILE_MAX d0 past d ->
  in_flight_invariant d past.
Proof.
  intros Hstart Hrp Hrun. induction Hrun as [|past d ev d' _ IH Hperm Hstep].
  - by eapply started_invariant.
  - by eapply handle_keeps_invariant.
Qed.


End FlowControlSteps.

(** [replay] builds runs. *)
Lemma replay_run dcheck_is_fatal H264PROFILE_MAX VP8PROFILE_MAX d0 evs :
  forall past d d',
  run dcheck_is_fatal H264PROFILE_MAX VP8PROFILE_MAX d0 past d ->
  replay dcheck_is_fatal H264PROFILE_MAX VP8PROFILE_MAX past evs d = Some d' ->
  run dcheck_is_fatal H264PROFILE_MAX VP8PROFILE_MAX d0 (past ++ evs) d'.
Proof.
  induction evs as [|ev evs IH]; intros past d d' Hrun Hreplay.
  - cbn [replay] in Hreplay. injection Hreplay as <-. by rewrite app_nil_r.
  - cbn [replay] in Hreplay.
    destruct (permitted d past ev) eqn:Hperm; [|done].
    destruct (handle dcheck_is_fatal H264PROFILE_MAX VP8PROFILE_MAX ev d)
      as [d1|] eqn:Hstep; [|done].
    rewrite bind_Some in Hreplay.
    replace (past ++ ev :: evs) with ((past ++ [ev]) ++ evs)
      by (by rewrite <- app_assoc).
    apply (IH _ d1); [by eapply run_step|done].
Qed.


Lemma sample_started_client_started reset_point :
  started (sample_started_client reset_point) reset_point.
Proof.
  exists 0, sample_h264, 1, 1, 6, 1, false, 1000000,
    (sample_client sample_h264 1 1 reset_point 6 1).
  split; reflexivity.
Qed.



(** * Further properties: callbacks in any order *)

Lemma book_changes_app n m b1 b2 b3 :
  book_changes n b1 b2 -> book_changes m b2 b3 -> book_changes (n + m) b1 b3.
Proof.
  induction 1 as [b|n k b1 b2 b2' Hc Hcs IH]; intros H23; [done|].
  rewrite <- Nat.add_assoc. eapply changes_cons; [done|]. by apply IH.
Qed.

Lemma book_change_once n b1 b2 : book_change n b1 b2 -> book_changes n b1 b2.
Proof.
  intros H. replace n with (n + 0)%nat by lia.
  eapply changes_cons; [done|constructor].
Qed.

Lemma cascaded_counters states d :
  num_done_bitstream_buffers_ (cascaded states d) = num_done_bitstream_buffers_ d /\
  next_bitstream_buffer_id_ (cascaded states d) = next_bitstream_buffer_id_ d /\
  num_queued_fragments_ (cascaded states d) = num_queued_fragments_ d /\
  num_skipped_fragments_ (cascaded states d) = num_skipped_fragments_ d.
Proof.
  revert d. induction states as [|s states IH]; intros d; [done|].
  change (cascaded (s :: states) d)
    with (cascaded states (set_state s (set_note (note_ d ++ [s]) d))).
  destruct (IH (set_state s (set_note (note_ d ++ [s]) d))) as (-> & -> & -> & ->).
  done.
Qed.

Lemma books_torn_down d :
  books (torn_down d) =
  mkBooks (decoder_log_ d ++ [VDA_Destroy]) (note_ d ++ states_above (state_ d))
    CS_DESTROYED false (outstanding_decodes_ d) (num_done_bitstream_buffers_ d)
    (next_bitstream_buffer_id_ d) (num_queued_fragments_ d)
    (num_skipped_fragments_ d) (remaining_play_throughs_ d).
Proof.
  destruct (torn_down_fields d) as (Hs & Hd & Hl & Hn & Ho & _ & _ & Hr & _).
  unfold books. rewrite Hs, Hd, Hl, Hn, Ho, Hr.
  unfold torn_down.
  destruct (cascaded_counters (states_above (state_ d)) (released d))
    as (-> & -> & -> & ->).
  done.
Qed.

Lemma SetState_books s d d' :
  SetState s d = Some d' -> book_changes 0 (books d) (books d').
Proof.
  destruct (decoder_ d) eqn:Hlive.
  - rewrite SetState_live by done. intros [= <-]. unfold SetState_result.
    destruct (deletes_at s d) eqn:Hdel.
    + apply (changes_cons 0 0 _ (books (entered s d))); [apply (change_entered s (books d))|].
      rewrite books_torn_down. apply book_change_once.
      apply (change_torn_down (books (entered s d))); [done|].
      unfold deletes_at in Hdel. apply andb_prop in Hdel as [Hr _].
      by apply Z.eqb_eq in Hr.
    + apply book_change_once. apply (change_entered s (books d)).
  - unfold SetState, SetState_with, decoder_deleted. driver_fields. rewrite Hlive.
    destruct (_ && _); [done|]. intros [= <-].
    apply book_change_once. apply (change_entered s (books d)).
Qed.

Lemma DeleteDecoder_books d d' :
  DeleteDecoder d = Some d' -> remaining_play_throughs_ d = 0 ->
  book_changes 0 (books d) (books d').
Proof.
  intros Hrun Hrem. destruct (decoder_ d) eqn:Hlive.
  - destruct (classic_teardown d) as [Hsafe|Hunsafe].
    + rewrite DeleteDecoder_live in Hrun by done. injection Hrun as <-.
      fold (torn_down d). rewrite books_torn_down. apply book_change_once.
      by apply (change_torn_down (books d)).
    + by rewrite DeleteDecoder_abort in Hrun.
  - rewrite DeleteDecoder_deleted in Hrun by (unfold decoder_deleted; by rewrite Hlive).
    injection Hrun as <-. constructor.
Qed.

Section BookKeeping.

Variable dcheck_is_fatal : bool.
Variables H264PROFILE_MAX VP8PROFILE_MAX : Z.

Lemma GetBytesForNextFrame_counts p d bytes e d1 :
  GetBytesForNextFrame p d = Some (bytes, e, d1) ->
  d1 = recounted (num_queued_fragments_ d + 1) (num_skipped_fragments_ d) d.
Proof.
  unfold GetBytesForNextFrame. intros H.
  destruct (read_uint32 _ _); simpl in H; [|done].
  destruct (_ <? _)%nat; [done|]. injection H as _ _ <-. by destruct d.
Qed.

Lemma GetBytesForNextFragment_counts p d bytes e d1 :
  GetBytesForNextFragment dcheck_is_fatal H264PROFILE_MAX VP8PROFILE_MAX p d
    = Some (bytes, e, d1) ->
  exists q, d1 = recounted q (num_skipped_fragments_ d) d /\
            num_queued_fragments_ d <= q <= num_queued_fragments_ d + 1.
Proof.
  unfold GetBytesForNextFragment. intros H.
  destruct (profile_ d <? H264PROFILE_MAX).
  - destruct (GetBytesForNextNALU _ _) as [e'|]; simpl in H; [|done].
    destruct (negb _); simpl in H; destruct (_ <? _)%nat; try done;
      injection H as _ _ <-.
    + exists (num_queued_fragments_ d + 1). split; [by destruct d|lia].
    + exists (num_queued_fragments_ d). split; [by destruct d|lia].
  - apply DCHECK_bind in H. apply GetBytesForNextFrame_counts in H as ->.
    eexists. split; [done|lia].
Qed.

Lemma first_fragment_loop_counts fuel start p d bytes e d1 :
  first_fragment_loop dcheck_is_fatal H264PROFILE_MAX VP8PROFILE_MAX fuel start p d
    = Some (bytes, e, d1) ->
  exists q k, d1 = recounted q k d /\
              num_queued_fragments_ d <= q <= num_queued_fragments_ d + 1 /\
              num_skipped_fragments_ d <= k.
Proof.
  revert p d. induction fuel as [|fuel IH]; intros p d; simpl.
  - destruct (_ <? _)%nat; [done|]. intros H. injection H as _ _ <-.
    exists (num_queued_fragments_ d), (num_skipped_fragments_ d).
    split; [symmetry; apply recounted_same|lia].
  - destruct (_ <? _)%nat.
    + destruct (_ =? 7).
      * intros H. apply GetBytesForNextFragment_counts in H as (q & -> & Hq).
        exists q, (num_skipped_fragments_ d). split; [done|lia].
      * destruct (GetBytesForNextNALU _ _) as [e'|]; simpl; [|done].
        intros H. apply IH in H as (q & k & -> & Hq & Hk).
        driver_fields_in Hq. driver_fields_in Hk.
        exists q, k. split; [done|lia].
    + intros H. injection H as _ _ <-.
      exists (num_queued_fragments_ d), (num_skipped_fragments_ d).
      split; [symmetry; apply recounted_same|lia].
Qed.

Lemma next_fragment_counts d bytes e d1 :
  next_fragment dcheck_is_fatal H264PROFILE_MAX VP8PROFILE_MAX d = Some (bytes, e, d1) ->
  exists q k, d1 = recounted q k d /\
              num_queued_fragments_ d <= q <= num_queued_fragments_ d + 1 /\
              num_skipped_fragments_ d <= k.
Proof.
  unfold next_fragment, GetBytesForFirstFragment.
  assert (Hnext : forall p,
    GetBytesForNextFragment dcheck_is_fatal H264PROFILE_MAX VP8PROFILE_MAX p d
      = Some (bytes, e, d1) ->
    exists q k, d1 = recounted q k d /\
                num_queued_fragments_ d <= q <= num_queued_fragments_ d + 1 /\
                num_skipped_fragments_ d <= k).
  { intros p H. apply GetBytesForNextFragment_counts in H as (q & -> & Hq).
    exists q, (num_skipped_fragments_ d). split; [done|lia]. }
  destruct (_ =? 0)%nat; [|apply Hnext].
  destruct (profile_ d <? H264PROFILE_MAX); [apply first_fragment_loop_counts|].
  intros H. apply DCHECK_bind in H. by apply Hnext in H.
Qed.


Lemma books_submitted bytes e q k d :
  books (submitted bytes e (recounted q k d)) =
  mkBooks (decoder_log_ d ++ [VDA_Decode (next_bitstream_buffer_id_ d) bytes])
    (note_ d) (state_ d) (decoder_ d) (outstanding_decodes_ d + 1)
    (num_done_bitstream_buffers_ d)
    (Z.land (next_bitstream_buffer_id_ d + 1) 0x3FFFFFFF) q k
    (remaining_play_throughs_ d).
Proof. reflexivity. Qed.

Lemma submitted_change bytes e q k d :
  decoder_ d = true ->
  num_queued_fragments_ d <= q <= num_queued_fragments_ d + 1 ->
  num_skipped_fragments_ d <= k ->
  book_change 0 (books d) (books (submitted bytes e (recounted q k d))).
Proof.
  intros Hlive Hq Hk. rewrite books_submitted.
  by apply (change_submitted bytes q k (books d)).
Qed.

Lemma torn_down_change d :
  decoder_ d = true -> remaining_play_throughs_ d = 0 ->
  book_change 0 (books d) (books (torn_down d)).
Proof.
  intros Hlive Hrem. rewrite books_torn_down.
  by apply (change_torn_down (books d)).
Qed.

Lemma DecodeNextFragment_books d d' :
  DecodeNextFragment dcheck_is_fatal H264PROFILE_MAX VP8PROFILE_MAX d = Some d' ->
  book_changes 0 (books d) (books d').
Proof.
  destruct (decoder_ d) eqn:Hlive.
  - rewrite DecodeNextFragment_live by done.
    destruct (_ =? length _)%nat.
    + destruct (_ =? 0); intros [= <-]; [|constructor].
      apply (changes_cons 0 0 _
               (books (set_decoder_log (decoder_log_ d ++ [VDA_Flush]) d))).
      * by apply (change_call VDA_Flush (books d)).
      * apply (SetState_books CS_FLUSHING). by rewrite SetState_live.
    + destruct (next_fragment _ _ _ d) as [[[bytes e] d1]|] eqn:Hf; [|done].
      rewrite bind_Some. cbv beta iota.
      apply next_fragment_counts in Hf as (q & k & Hd1 & Hq & Hk).
      intros Hd'. injection Hd' as Hd'.
      pose proof (submitted_change bytes e q k d Hlive Hq Hk) as Hsub.
      rewrite <- Hd1 in Hsub.
      destruct (deletes_after_decode _) eqn:Hdel.
      * rewrite <- Hd'.
        apply (changes_cons 0 0 _ _ _ Hsub).
        apply book_change_once. apply torn_down_change.
        { rewrite Hd1. exact Hlive. }
        unfold deletes_after_decode in Hdel. apply andb_prop in Hdel as [Hr _].
        by apply Z.eqb_eq in Hr.
      * rewrite <- Hd'. by apply book_change_once.
  - rewrite DecodeNextFragment_dead by done. intros [= <-]. constructor.
Qed.

Lemma decode_times_books n d d' :
  decode_times dcheck_is_fatal H264PROFILE_MAX VP8PROFILE_MAX n d = Some d' ->
  book_changes 0 (books d) (books d').
Proof.
  revert d. induction n as [|n IH]; intros d; cbn [decode_times].
  - intros [= <-]. constructor.
  - destruct (DecodeNextFragment _ _ _ d) as [d1|] eqn:Hstep; [|done].
    rewrite bind_Some. intros Hrest.
    apply (book_changes_app 0 0 _ (books d1));
      [by apply DecodeNextFragment_books|by apply IH].
Qed.

(** Requests other than [Decode] and [Destroy], appended by a client
    that holds its decoder. *)
Lemma calls_changes calls b :
  b_decoder b = true ->
  Forall (fun c => is_decode c = false /\ c <> VDA_Destroy) calls ->
  book_changes 0 b
    (mkBooks (b_log b ++ calls) (b_note b) (b_state b) (b_decoder b)
       (b_outstanding b) (b_done b) (b_next_id b) (b_queued b) (b_skipped b)
       (b_remaining b)).
Proof.
  revert b. induction calls as [|c calls IH]; intros b Hlive Hok.
  - rewrite app_nil_r. destruct b. constructor.
  - apply Forall_cons in Hok as [[Hc Hd] Hok].
    apply (changes_cons 0 0 _ _ _ (change_call c b Hlive Hc Hd)).
    replace (b_log b ++ c :: calls) with ((b_log b ++ [c]) ++ calls)
      by (by rewrite <- app_assoc).
    by apply (IH (mkBooks (b_log b ++ [c]) (b_note b) (b_state b) (b_decoder b)
                    (b_outstanding b) (b_done b) (b_next_id b) (b_queued b)
                    (b_skipped b) (b_remaining b))).
Qed.

Lemma calls_books calls d d' :
  decoder_ d = true ->
  Forall (fun c => is_decode c = false /\ c <> VDA_Destroy) calls ->
  books d' =
    mkBooks (decoder_log_ d ++ calls) (note_ d) (state_ d) (decoder_ d)
      (outstanding_decodes_ d) (num_done_bitstream_buffers_ d)
      (next_bitstream_buffer_id_ d) (num_queued_fragments_ d)
      (num_skipped_fragments_ d) (remaining_play_throughs_ d) ->
  book_changes 0 (books d) (books d').
Proof.
  intros Hlive Hok ->. by apply (calls_changes calls (books d)).
Qed.

Lemma provide_one_books dims target d buffers t d' buffers' :
  provide_one dims target (Some (d, buffers)) t = Some (d', buffers') ->
  books d' = books d.
Proof.
  unfold provide_one. rewrite bind_Some. cbv beta iota. pool_fields.
  destruct (decide _); [done|]. destruct (_ !! _); [done|].
  intros Hd'. by injection Hd' as <- _.
Qed.

Lemma provide_loop_books dims target textures d buffers d' buffers' :
  foldl (provide_one dims target) (Some (d, buffers)) textures = Some (d', buffers') ->
  books d' = books d.
Proof.
  revert d buffers. induction textures as [|t textures IH]; intros d buffers Hloop.
  - cbn [foldl] in Hloop. by injection Hloop as <- _.
  - cbn [foldl] in Hloop.
    destruct (provide_one dims target (Some (d, buffers)) t) as [[d1 b1]|] eqn:Hstep;
      [|by rewrite provide_one_None in Hloop].
    rewrite (IH _ _ Hloop). by eapply provide_one_books.
Qed.

Lemma ProvidePictureBuffers_books dims target textures d d' :
  ProvidePictureBuffers dims target textures d = Some d' ->
  book_changes 0 (books d) (books d').
Proof.
  unfold ProvidePictureBuffers, decoder_deleted.
  destruct (decoder_ d) eqn:Hlive; cbn [negb]; [|intros [= <-]; constructor].
  destruct (foldl _ _ textures) as [[d1 buffers]|] eqn:Hloop; [|done].
  rewrite bind_Some. cbv beta iota.
  pose proof (provide_loop_books _ _ _ _ _ _ _ Hloop) as Hb.
  assert (Hlive1 : decoder_ d1 = true)
    by (change (b_decoder (books d1) = true); by rewrite Hb).
  unfold call_decoder, decoder_deleted. rewrite Hlive1. cbn [negb].
  intros Hd'. injection Hd' as <-. rewrite <- Hb.
  apply (calls_books [VDA_AssignPictureBuffers buffers]); [done| |done].
  by repeat constructor.
Qed.

Lemma DismissPictureBuffer_books id d d' :
  DismissPictureBuffer id d = Some d' -> books d' = books d.
Proof.
  unfold DismissPictureBuffer.
  destruct (_ !! _) as [buffer|]; [|done]. rewrite bind_Some. cbv beta.
  destruct (decide _); [|done]. intros Hd'. by injection Hd' as <-.
Qed.

Lemma PictureReady_books now picture d d' :
  PictureReady now picture d = Some d' ->
  book_changes 0 (books d) (books d').
Proof.
  unfold PictureReady, decoder_deleted.
  destruct (_ <? cs_value CS_RESET); [|done]. cbn [negb].
  destruct (decoder_ d) eqn:Hlive; cbn [negb]; [|intros [= <-]; constructor].
  driver_fields. destruct (_ <=? _); [|done]. cbn [negb].
  unfold call_decoder, decoder_deleted. driver_fields. rewrite Hlive. cbn [negb].
  destruct (_ && _); rewrite !bind_Some; cbv beta; driver_fields;
    (destruct (_ !! _) as [buffer|]; [|done]); rewrite bind_Some; cbv beta;
    destruct (suppress_rendering_ d) eqn:Hsup; driver_fields; rewrite ?Hsup;
    driver_fields; rewrite ?Hlive; cbn [negb];
    destruct (_ <? _); intros Hd'; injection Hd' as <-.
  all: first
    [ apply (calls_books [VDA_Reset; VDA_ReusePictureBuffer (picture_buffer_id picture)]);
      [done|by repeat constructor|unfold books; driver_fields; by rewrite <- ?app_assoc]
    | apply (calls_books [VDA_Reset]);
      [done|by repeat constructor|unfold books; driver_fields; by rewrite <- ?app_assoc]
    | apply (calls_books [VDA_ReusePictureBuffer (picture_buffer_id picture)]);
      [done|by repeat constructor|unfold books; driver_fields; by rewrite <- ?app_assoc]
    | apply (calls_books []);
      [done|by repeat constructor|unfold books; driver_fields; by rewrite ?app_nil_r] ].
Qed.

Lemma NotifyInitializeDone_books now d d' :
  NotifyInitializeDone dcheck_is_fatal H264PROFILE_MAX VP8PROFILE_MAX now d = Some d' ->
  book_changes 0 (books d) (books d').
Proof.
  unfold NotifyInitializeDone.
  destruct (SetState CS_INITIALIZED d) as [d1|] eqn:Hset; [|done].
  rewrite bind_Some. cbv beta zeta. driver_fields.
  apply SetState_books in Hset.
  destruct (_ =? START_OF_STREAM_RESET).
  - unfold call_decoder, decoder_deleted. driver_fields.
    destruct (decoder_ d1) eqn:Hlive1; cbn [negb]; [|done].
    intros Hd'. injection Hd' as <-.
    apply (book_changes_app 0 0 _ _ _ Hset).
    by apply (calls_books [VDA_Reset]); [|repeat constructor|].
  - intros Hrun. apply checked_loop_result in Hrun.
    apply decode_times_books in Hrun.
    by apply (book_changes_app 0 0 _ _ _ Hset).
Qed.

Lemma NotifyEndOfBitstreamBuffer_books id d d' :
  NotifyEndOfBitstreamBuffer dcheck_is_fatal H264PROFILE_MAX VP8PROFILE_MAX id d
    = Some d' ->
  book_changes 0 (books d) (books d').
Proof.
  unfold NotifyEndOfBitstreamBuffer. intros Hrun.
  apply DecodeNextFragment_books in Hrun.
  apply (changes_cons 0 0 _ _ _ (change_consumed (books d))). exact Hrun.
Qed.

Lemma SetState_remaining s d d' :
  SetState s d = Some d' -> remaining_play_throughs_ d' = remaining_play_throughs_ d.
Proof.
  destruct (decoder_ d) eqn:Hlive.
  - rewrite SetState_live by done. intros [= <-]. unfold SetState_result.
    destruct (deletes_at s d); [|done].
    by destruct (torn_down_fields (entered s d)) as (_ & _ & _ & _ & _ & _ & _ & -> & _).
  - unfold SetState, SetState_with, decoder_deleted. driver_fields. rewrite Hlive.
    destruct (_ && _); [done|]. by intros [= <-].
Qed.

Lemma NotifyFlushDone_books d d' :
  NotifyFlushDone dcheck_is_fatal d = Some d' ->
  exists n, book_changes n (books d) (books d') /\ (n <= 1)%nat.
Proof.
  unfold NotifyFlushDone. unfold decoder_deleted at 1.
  destruct (decoder_ d) eqn:Hlive; cbn [negb];
    [|intros [= <-]; exists 0%nat; split; [constructor|lia]].
  destruct (SetState CS_FLUSHED d) as [d1|] eqn:Hset; [|done].
  rewrite bind_Some. cbv beta zeta. intros Hrun. apply DCHECK_bind in Hrun.
  apply SetState_books in Hset.
  pose proof (change_play_through (books d1)) as Hdec.
  change (mkBooks _ _ _ _ _ _ _ _ _ _)
    with (books (set_remaining_play_throughs (remaining_play_throughs_ d1 - 1) d1))
    in Hdec.
  exists 1%nat. split; [|lia].
  apply (book_changes_app 0 1 _ _ _ Hset).
  unfold decoder_deleted in Hrun. driver_fields_in Hrun.
  destruct (decoder_ d1) eqn:Hlive1; cbn [negb] in Hrun.
  - unfold call_decoder, decoder_deleted in Hrun. driver_fields_in Hrun.
    rewrite Hlive1 in Hrun. cbn [negb] in Hrun. rewrite bind_Some in Hrun.
    apply SetState_books in Hrun.
    apply (changes_cons 1 0 _ _ _ Hdec).
    refine (book_changes_app 0 0 _ _ _ _ Hrun).
    by apply (calls_books [VDA_Reset]); [|repeat constructor|].
  - injection Hrun as <-. by apply book_change_once.
Qed.

Lemma NotifyResetDone_books now d d' :
  NotifyResetDone dcheck_is_fatal H264PROFILE_MAX VP8PROFILE_MAX now d = Some d' ->
  book_changes 0 (books d) (books d').
Proof.
  unfold NotifyResetDone. unfold decoder_deleted at 1.
  destruct (decoder_ d) eqn:Hlive; cbn [negb]; [|intros [= <-]; constructor].
  destruct (_ =? MID_STREAM_RESET).
  { intros Hrun. by apply DecodeNextFragment_books in Hrun. }
  destruct (_ =? START_OF_STREAM_RESET).
  { cbv zeta. intros Hrun. by apply decode_times_books in Hrun. }
  destruct (Z.eqb_spec (remaining_play_throughs_ d) 0) as [Hrem|Hrem]; cbn [negb].
  - destruct (SetState CS_RESET d) as [d1|] eqn:Hset; [|done].
    rewrite bind_Some. cbv beta.
    pose proof (SetState_remaining _ _ _ Hset) as Hrem1.
    apply SetState_books in Hset.
    unfold decoder_deleted. destruct (decoder_ d1) eqn:Hlive1; cbn [negb].
    + intros Hrun. apply DeleteDecoder_books in Hrun; [|congruence].
      by apply (book_changes_app 0 0 _ _ _ Hset).
    + by intros [= <-].
  - intros Hrun. by apply NotifyInitializeDone_books in Hrun.
Qed.

Lemma handle_books ev d d' :
  handle dcheck_is_fatal H264PROFILE_MAX VP8PROFILE_MAX ev d = Some d' ->
  exists n, book_changes n (books d) (books d') /\
            (n <= if is_flush_done ev then 1 else 0)%nat.
Proof.
  destruct ev as [dims target textures|id|now picture|now|id| |now|error];
    cbn [handle is_flush_done]; intros Hrun;
    [exists 0%nat; split; [|lia]..|by apply NotifyFlushDone_books|
     exists 0%nat; split; [|lia]|exists 0%nat; split; [|lia]].
  - by eapply ProvidePictureBuffers_books.
  - apply DismissPictureBuffer_books in Hrun as ->. constructor.
  - by eapply PictureReady_books.
  - by eapply NotifyInitializeDone_books.
  - by eapply NotifyEndOfBitstreamBuffer_books.
  - by eapply NotifyResetDone_books.
  - by apply SetState_books in Hrun.
Qed.

End BookKeeping.

Lemma decode_ids_app l1 l2 : decode_ids (l1 ++ l2) = decode_ids l1 ++ decode_ids l2.
Proof. apply omap_app. Qed.

Lemma decode_ids_other c : is_decode c = false -> decode_ids [c] = [].
Proof. by destruct c. Qed.

Lemma length_decode_ids log :
  length (decode_ids log) = length (List.filter is_decode log).
Proof.
  induction log as [|c log IH]; [done|].
  destruct c; cbn; fold (decode_ids log); by rewrite IH.
Qed.

Lemma ids_from_zero_S n :
  ids_from_zero (S n) = ids_from_zero n ++ [Z.of_nat n `mod` 2 ^ 30].
Proof. unfold ids_from_zero. by rewrite seq_S, fmap_app. Qed.

Lemma mask_succ n :
  Z.land (Z.of_nat n `mod` 2 ^ 30 + 1) 0x3FFFFFFF = Z.of_nat (S n) `mod` 2 ^ 30.
Proof.
  change 0x3FFFFFFF with (Z.ones 30). rewrite Z.land_ones by lia.
  rewrite Zplus_mod_idemp_l. f_equal. lia.
Qed.

Lemma accounted_change n b b' : book_change n b b' -> accounted b -> accounted b'.
Proof.
  intros Hc (Hsum & Hnext & Hids & Hq & Hk).
  destruct Hc as [s b|b Hlive Hrem|c b Hlive Hc Hd|bytes q k b Hlive Hq' Hk'|b|b];
    unfold accounted; cbn [b_log b_outstanding b_done b_next_id b_queued b_skipped];
    rewrite ?decode_ids_app, ?decode_ids_other, ?app_nil_r by done; try done.
  - cbn [decode_ids omap]. rewrite length_app. cbn [length].
    rewrite Nat.add_1_r, ids_from_zero_S, <- Hids, <- Hnext.
    repeat split; try lia; try done.
    rewrite Hnext. apply mask_succ.
  - repeat split; try done; lia.
Qed.

Lemma destroy_is_last_change n b b' :
  book_change n b b' -> destroy_is_last b -> destroy_is_last b'.
Proof.
  intros Hc [Hl Hd].
  destruct Hc as [s b|b Hlive Hrem|c b Hlive Hc Hd'|bytes q k b Hlive Hq' Hk'|b|b];
    unfold destroy_is_last; cbn [b_log b_decoder]; try done.
  - split; [done|]. intros _. exists (b_log b). split; [done|by apply Hl].
  - split; [|by rewrite Hlive]. intros _ Hin.
    apply elem_of_app in Hin as [Hin|Hin]; [by apply Hl|].
    apply list_elem_of_singleton in Hin. congruence.
  - split; [|by rewrite Hlive]. intros _ Hin.
    apply elem_of_app in Hin as [Hin|Hin]; [by apply Hl|].
    by apply list_elem_of_singleton in Hin.
Qed.

Lemma announced_change n b b' : book_change n b b' -> announced b -> announced b'.
Proof.
  intros Hc Ha.
  destruct Hc as [s b|b Hlive Hrem|c b Hlive Hc Hd'|bytes q k b Hlive Hq' Hk'|b|b];
    unfold announced in *; cbn [b_note b_state]; try done.
  - by rewrite last_snoc.
  - rewrite last_app. pose proof (last_states_above (b_state b)) as Hlast.
    destruct (last (states_above (b_state b))) as [s|]; cbn in *; congruence.
Qed.

Lemma kept_while_playing_change n b b' :
  book_change n b b' -> kept_while_playing b -> kept_while_playing b'.
Proof.
  intros Hc Hk.
  destruct Hc as [s b|b Hlive Hrem|c b Hlive Hc Hd'|bytes q k b Hlive Hq' Hk'|b|b];
    unfold kept_while_playing in *; cbn [b_decoder b_remaining]; try done.
  - intros _. lia.
  - intros Hdead. specialize (Hk Hdead). lia.
Qed.

Lemma book_change_note n b b' : book_change n b b' -> b_note b `prefix_of` b_note b'.
Proof.
  intros Hc.
  destruct Hc as [s b|b Hlive Hrem|c b Hlive Hc Hd'|bytes q k b Hlive Hq' Hk'|b|b];
    cbn [b_note]; try done; by apply prefix_app_r.
Qed.

Lemma book_change_remaining n b b' :
  book_change n b b' -> b_remaining b' = b_remaining b - Z.of_nat n.
Proof.
  intros Hc.
  destruct Hc as [s b|b Hlive Hrem|c b Hlive Hc Hd'|bytes q k b Hlive Hq' Hk'|b|b];
    cbn [b_remaining]; lia.
Qed.

(** What the changes keep, whatever their number. *)
Lemma book_changes_keep n b b' :
  book_changes n b b' ->
  (accounted b -> accounted b') /\
  (destroy_is_last b -> destroy_is_last b') /\
  (announced b -> announced b') /\
  (kept_while_playing b -> kept_while_playing b') /\
  b_note b `prefix_of` b_note b' /\
  b_remaining b' = b_remaining b - Z.of_nat n.
Proof.
  induction 1 as [b|n m b1 b2 b3 Hc Hcs (IH1 & IH2 & IH3 & IH4 & IH5 & IH6)].
  - split; [done|]. split; [done|]. split; [done|]. split; [done|].
    split; [done|]. cbn. lia.
  - split; [|split; [|split; [|split; [|split]]]].
    + intros H. by eapply IH1, accounted_change.
    + intros H. by eapply IH2, destroy_is_last_change.
    + intros H. by eapply IH3, announced_change.
    + intros H. by eapply IH4, kept_while_playing_change.
    + etrans; [by eapply book_change_note|done].
    + rewrite IH6, (book_change_remaining _ _ _ Hc). lia.
Qed.

Section FreeRuns.

Variable dcheck_is_fatal : bool.
Variables H264PROFILE_MAX VP8PROFILE_MAX : Z.

Lemma callbacks_books evs d d' :
  callbacks dcheck_is_fatal H264PROFILE_MAX VP8PROFILE_MAX evs d = Some d' ->
  exists n, book_changes n (books d) (books d') /\
            (n <= length (List.filter is_flush_done evs))%nat.
Proof.
  revert d. induction evs as [|ev evs IH]; intros d; cbn [callbacks].
  - intros [= <-]. exists 0%nat. split; [constructor|lia].
  - destruct (handle _ _ _ ev d) as [d1|] eqn:Hstep; [|done].
    rewrite bind_Some. intros Hrest.
    apply handle_books in Hstep as (n & Hn & Hle).
    apply IH in Hrest as (m & Hm & Hle').
    exists (n + m)%nat. split; [by eapply book_changes_app|].
    cbn [List.filter]. destruct (is_flush_done ev); cbn [length]; lia.
Qed.

End FreeRuns.

Lemma started_books d0 reset_point :
  started d0 reset_point ->
  exists profile plays,
    0 < plays /\
    books d0 = mkBooks [VDA_Initialize profile] [CS_DECODER_SET] CS_DECODER_SET true
                 0 0 0 0 0 plays.
Proof.
  intros (window & data & n & plays & del & profile & suppress & delay & c & Hc & Hd0).
  unfold create in Hc.
  destruct ((0 <? n) && (0 <? plays)) eqn:Hcond; [|done].
  apply andb_prop in Hcond as [Hn Hp]. apply Z.ltb_lt in Hn, Hp.
  injection Hc as <-.
  unfold CreateDecoder in Hd0. unfold decoder_deleted in Hd0 at 1.
  cbn [decoder_ negb] in Hd0.
  rewrite SetState_live, bind_Some in Hd0 by done. cbv beta in Hd0.
  unfold SetState_result, deletes_at in Hd0. driver_fields_in Hd0.
  destruct (Z.eqb_spec plays 0) as [?|_]; [lia|]. cbn [andb] in Hd0.
  unfold decoder_deleted, call_decoder in Hd0. driver_fields_in Hd0.
  cbn [negb] in Hd0. unfold decoder_deleted in Hd0. driver_fields_in Hd0.
  cbn [negb] in Hd0. rewrite bind_Some in Hd0. injection Hd0 as <-.
  eexists _, plays. split; [done|]. reflexivity.
Qed.

(** X1. Whatever callbacks the decoder makes on a client whose decoder
    has just been created, and in whatever order: the units outstanding
    plus the units reported consumed are the [Decode] requests made; the
    ids of these requests are 0, 1, 2, ... under the 30-bit mask and
    [next_bitstream_buffer_id_] is the id the next request will carry;
    the fragments counted as queued never exceed the requests. *)
Theorem decode_requests_accounted dcheck_is_fatal H264PROFILE_MAX VP8PROFILE_MAX
    d0 reset_point evs d :
  started d0 reset_point ->
  callbacks dcheck_is_fatal H264PROFILE_MAX VP8PROFILE_MAX evs d0 = Some d ->
  outstanding_decodes_ d + num_done_bitstream_buffers_ d = count_calls is_decode d /\
  decode_ids (decoder_log_ d) = ids_from_zero (Z.to_nat (count_calls is_decode d)) /\
  next_bitstream_buffer_id_ d = count_calls is_decode d `mod` 2 ^ 30 /\
  0 <= num_queued_fragments_ d <= count_calls is_decode d /\
  0 <= num_skipped_fragments_ d.
Proof.
  intros Hstart Hrun.
  apply started_books in Hstart as (profile & plays & Hplays & Hb0).
  apply callbacks_books in Hrun as (n & Hn & _).
  apply book_changes_keep in Hn as (Hacc & _).
  destruct Hacc as (Hsum & Hnext & Hids & Hq & Hk).
  { rewrite Hb0. unfold accounted. cbn. repeat split; done. }
  cbn [books b_log b_outstanding b_done b_next_id b_queued b_skipped] in *.
  unfold count_calls. rewrite <- length_decode_ids, Nat2Z.id.
  repeat split; try done; lia.
Qed.

(** X2. Whatever callbacks the decoder makes on a client whose decoder
    has just been created: [Destroy] is requested at most once, it is the
    last request the decoder ever receives, and it has been made exactly
    when the client no longer holds the decoder. *)
Theorem nothing_requested_after_destroy dcheck_is_fatal H264PROFILE_MAX VP8PROFILE_MAX
    d0 reset_point evs d :
  started d0 reset_point ->
  callbacks dcheck_is_fatal H264PROFILE_MAX VP8PROFILE_MAX evs d0 = Some d ->
  (decoder_ d = true -> VDA_Destroy ∉ decoder_log_ d) /\
  (decoder_ d = false ->
   exists log, decoder_log_ d = log ++ [VDA_Destroy] /\ VDA_Destroy ∉ log).
Proof.
  intros Hstart Hrun.
  apply started_books in Hstart as (profile & plays & Hplays & Hb0).
  apply callbacks_books in Hrun as (n & Hn & _).
  apply book_changes_keep in Hn as (_ & Hlast & _).
  apply Hlast. rewrite Hb0. split; cbn; [|done].
  intros _ Hin. by apply list_elem_of_singleton in Hin.
Qed.

(** X3. Whatever callbacks the decoder makes on a client whose decoder
    has just been created: the state the client is in is the last state
    it notified, and notifications are only ever added. *)
Theorem observers_told_of_every_state dcheck_is_fatal H264PROFILE_MAX VP8PROFILE_MAX
    d0 reset_point evs d :
  started d0 reset_point ->
  callbacks dcheck_is_fatal H264PROFILE_MAX VP8PROFILE_MAX evs d0 = Some d ->
  state_ d = default CS_CREATED (last (note_ d)) /\
  note_ d0 `prefix_of` note_ d.
Proof.
  intros Hstart Hrun.
  apply started_books in Hstart as (profile & plays & Hplays & Hb0).
  apply callbacks_books in Hrun as (n & Hn & _).
  apply book_changes_keep in Hn as (_ & _ & Hann & _ & Hpre & _).
  split; [|exact Hpre]. apply Hann. by rewrite Hb0.
Qed.

(** X4. Whatever callbacks the decoder makes on a client whose decoder
    has just been created: [remaining_play_throughs_] goes down by at
    most one per flush completion, and the decoder is released only once
    it has reached zero; so the decoder outlives as many flush completions
    as play-throughs were asked for, whatever deletion point is
    configured. *)
Theorem decoder_kept_while_play_throughs_remain
    dcheck_is_fatal H264PROFILE_MAX VP8PROFILE_MAX d0 reset_point evs d :
  started d0 reset_point ->
  callbacks dcheck_is_fatal H264PROFILE_MAX VP8PROFILE_MAX evs d0 = Some d ->
  remaining_play_throughs_ d0 - answered is_flush_done evs
    <= remaining_play_throughs_ d /\
  (decoder_ d = false ->
   remaining_play_throughs_ d <= 0 /\
   remaining_play_throughs_ d0 <= answered is_flush_done evs).
Proof.
  intros Hstart Hrun.
  apply started_books in Hstart as (profile & plays & Hplays & Hb0).
  apply callbacks_books in Hrun as (n & Hn & Hle).
  apply book_changes_keep in Hn as (_ & _ & _ & Hkept & _ & Hrem).
  cbn [books b_remaining] in Hrem. unfold answered.
  split; [lia|]. intros Hdead.
  assert (remaining_play_throughs_ d <= 0); [|lia].
  apply Hkept; [|done]. rewrite Hb0. by intros Hd.
Qed.

Lemma sample_finished_client_reached :
  callbacks true 10 11 sample_whole_callbacks
    (sample_started_client END_OF_STREAM_RESET) = Some sample_finished_client.
Proof. vm_compute. reflexivity. Qed.

Lemma decode_requests_accounted_witness :
  outstanding_decodes_ sample_finished_client
    + num_done_bitstream_buffers_ sample_finished_client
    = count_calls is_decode sample_finished_client /\
  decode_ids (decoder_log_ sample_finished_client)
    = ids_from_zero (Z.to_nat (count_calls is_decode sample_finished_client)) /\
  next_bitstream_buffer_id_ sample_finished_client
    = count_calls is_decode sample_finished_client `mod` 2 ^ 30 /\
  0 <= num_queued_fragments_ sample_finished_client
    <= count_calls is_decode sample_finished_client /\
  0 <= num_skipped_fragments_ sample_finished_client.
Proof.
  apply (decode_requests_accounted true 10 11
           (sample_started_client END_OF_STREAM_RESET) END_OF_STREAM_RESET
           sample_whole_callbacks sample_finished_client).
  - apply sample_started_client_started.
  - exact sample_finished_client_reached.
Defined.

Lemma nothing_requested_after_destroy_witness :
  (decoder_ sample_finished_client = true ->
   VDA_Destroy ∉ decoder_log_ sample_finished_client) /\
  (decoder_ sample_finished_client = false ->
   exists log, decoder_log_ sample_finished_client = log ++ [VDA_Destroy] /\
               VDA_Destroy ∉ log).
Proof.
  apply (nothing_requested_after_destroy true 10 11
           (sample_started_client END_OF_STREAM_RESET) END_OF_STREAM_RESET
           sample_whole_callbacks sample_finished_client).
  - apply sample_started_client_started.
  - exact sample_finished_client_reached.
Defined.

Lemma observers_told_of_every_state_witness :
  state_ sample_finished_client
    = default CS_CREATED (last (note_ sample_finished_client)) /\
  note_ (sample_started_client END_OF_STREAM_RESET)
    `prefix_of` note_ sample_finished_client.
Proof.
  apply (observers_told_of_every_state true 10 11
           (sample_started_client END_OF_STREAM_RESET) END_OF_STREAM_RESET
           sample_whole_callbacks sample_finished_client).
  - apply sample_started_client_started.
  - exact sample_finished_client_reached.
Defined.

Lemma decoder_kept_while_play_throughs_remain_witness :
  remaining_play_throughs_ (sample_started_client END_OF_STREAM_RESET)
    - answered is_flush_done sample_whole_callbacks
    <= remaining_play_throughs_ sample_finished_client /\
  (decoder_ sample_finished_client = false ->
   remaining_play_throughs_ sample_finished_client <= 0 /\
   remaining_play_throughs_ (sample_started_client END_OF_STREAM_RESET)
     <= answered is_flush_done sample_whole_callbacks).
Proof.
  apply (decoder_kept_while_play_throughs_remain true 10 11
           (sample_started_client END_OF_STREAM_RESET) END_OF_STREAM_RESET
           sample_whole_callbacks sample_finished_client).
  - apply sample_started_client_started.
  - exact sample_finished_client_reached.
Defined.

(** * Further properties: the run cannot stall *)

Section Progress.

Variable dcheck_is_fatal : bool.
Variables H264PROFILE_MAX VP8PROFILE_MAX : Z.

Lemma inert_owed d past ev d' :
  inert d d' -> decoder_ d' = true ->
  is_initialize_done ev = false -> is_buffer_done ev = false ->
  is_flush_done ev = false -> is_reset_done ev = false ->
  owed d' (past ++ [ev]) = owed d past.
Proof.
  intros (_ & _ & Hrest) Hlive' Hi Hb Hf Hr.
  destruct (Hrest Hlive') as (Hs & _ & _ & Hd & Hfl & _).
  destruct Hs as (_ & _ & _ & _ & _ & _ & Hci & Hcr).
  unfold count_calls in Hci, Hcr. driver_fields_in Hci. driver_fields_in Hcr.
  fold (count_calls is_initialize d') (count_calls is_initialize d) in Hci.
  fold (count_calls is_reset d') (count_calls is_reset d) in Hcr.
  unfold owed, pending_initialize, held_buffers, pending_flushes, pending_resets.
  rewrite !answered_snoc, Hi, Hb, Hf, Hr, !Z.add_0_r. lia.
Qed.

(** The submission loop, started with nothing outstanding, leaves a unit
    with the decoder or a flush requested. *)
Lemma decode_loop_owes d1 d' :
  decode_times dcheck_is_fatal H264PROFILE_MAX VP8PROFILE_MAX
    (Z.to_nat (num_in_flight_decodes_ d1)) d1 = Some d' ->
  decoder_ d1 = true ->
  1 <= num_in_flight_decodes_ d1 ->
  outstanding_decodes_ d1 = 0 ->
  decoder_ d' = true ->
  count_calls is_initialize d' = count_calls is_initialize d1 /\
  count_calls is_reset d' = count_calls is_reset d1 /\
  count_calls is_flush d1 <= count_calls is_flush d' /\
  (0 < outstanding_decodes_ d' \/ count_calls is_flush d1 < count_calls is_flush d').
Proof.
  intros Hrun Hlive Hmax Hout Hlive'.
  destruct (decode_times_step dcheck_is_fatal H264PROFILE_MAX VP8PROFILE_MAX
              _ d1 d' Hlive ltac:(lia) Hrun) as [_ Hcases].
  rewrite Z2Nat.id in Hcases by lia.
  destruct Hcases as [[Hdead _]|(_ & Hsame & Hcases)]; [congruence|].
  destruct Hsame as (_ & _ & _ & _ & _ & _ & Hci & Hcr).
  split; [done|]. split; [done|].
  destruct Hcases as [[Hn _]|[Hc|[Hc|Hc]]].
  - lia.
  - destruct Hc as (_ & _ & _ & _ & _ & Hfl & _). lia.
  - destruct Hc as (_ & _ & Hbusy & _). done.
  - destruct Hc as (_ & _ & Hk & _ & Hfl & _). lia.
Qed.

Lemma NotifyEndOfBitstreamBuffer_owes id d past d' :
  in_flight_invariant d past ->
  in_flight_invariant d' (past ++ [EvNotifyEndOfBitstreamBuffer id]) ->
  permitted d past (EvNotifyEndOfBitstreamBuffer id) = true ->
  NotifyEndOfBitstreamBuffer dcheck_is_fatal H264PROFILE_MAX VP8PROFILE_MAX id d
    = Some d' ->
  decoder_ d' = true ->
  0 < owed d' (past ++ [EvNotifyEndOfBitstreamBuffer id]).
Proof.
  intros (_ & _ & Hinv) (_ & _ & Hinv') Hperm Hrun Hlive'.
  unfold permitted in Hperm. apply andb_prop in Hperm as [Hlive Hheld].
  apply Z.ltb_lt in Hheld.
  destruct (Hinv Hlive) as (H1 & H2 & _ & _ & _ & H6 & H7 & H8 & _).
  destruct (Hinv' Hlive') as (H1' & H2' & _ & _ & _ & H6' & H7' & H8' & _).
  unfold NotifyEndOfBitstreamBuffer in Hrun.
  set (d2 := set_outstanding_decodes (outstanding_decodes_ d - 1)
               (set_num_done_bitstream_buffers (num_done_bitstream_buffers_ d + 1) d))
    in Hrun.
  destruct (DecodeNextFragment_step dcheck_is_fatal H264PROFILE_MAX VP8PROFILE_MAX
              d2 d' Hlive Hrun) as [_ Hcases].
  unfold d2 in Hcases. clear d2 Hrun.
  unfold same_setup, count_calls in Hcases. driver_fields_in Hcases.
  fold (count_calls is_flush d') (count_calls is_flush d) in Hcases.
  unfold owed in *.
  destruct Hcases as [[Hdead _]|(_ & _ & Hcases)]; [congruence|].
  destruct Hcases as [Hc|[Hc|Hc]].
  - destruct Hc as (_ & _ & _ & _ & Hfl & _).
    unfold pending_flushes in *. rewrite answered_snoc in *.
    cbn [is_flush_done] in *. lia.
  - destruct Hc as (_ & Hbusy & ->). driver_fields_in H2'. driver_fields_in H1'. lia.
  - destruct Hc as (_ & Hout & _). lia.
Qed.

Lemma NotifyInitializeDone_owes now d past d' :
  in_flight_invariant d past ->
  in_flight_invariant d' (past ++ [EvNotifyInitializeDone now]) ->
  permitted d past (EvNotifyInitializeDone now) = true ->
  NotifyInitializeDone dcheck_is_fatal H264PROFILE_MAX VP8PROFILE_MAX now d = Some d' ->
  decoder_ d' = true ->
  0 < owed d' (past ++ [EvNotifyInitializeDone now]).
Proof.
  intros (_ & Hmax & Hinv) (_ & _ & Hinv') Hperm Hrun Hlive'.
  unfold permitted in Hperm. apply andb_prop in Hperm as [Hlive Hpend].
  apply Z.ltb_lt in Hpend.
  destruct (Hinv Hlive) as (H1 & H2 & _ & _ & _ & H6 & H7 & H8 & H9 & _).
  destruct (Hinv' Hlive') as (H1' & H2' & _ & _ & _ & H6' & H7' & H8' & _).
  assert (Hout : outstanding_decodes_ d = 0) by (apply H9; lia).
  unfold NotifyInitializeDone in Hrun.
  rewrite SetState_live, bind_Some in Hrun by done. cbv beta zeta in Hrun.
  destruct (SetState_result_cases CS_INITIALIZED d) as [(Hdead & _)|Heq].
  { set (d1 := SetState_result CS_INITIALIZED d) in *. driver_fields_in Hrun.
    destruct (reset_after_frame_num_ d1 =? START_OF_STREAM_RESET).
    - unfold call_decoder, decoder_deleted in Hrun. driver_fields_in Hrun.
      by rewrite Hdead in Hrun.
    - apply checked_loop_result in Hrun.
      rewrite decode_times_dead in Hrun by (driver_fields; done).
      injection Hrun as <-. driver_fields_in Hlive'. congruence. }
  rewrite Heq in Hrun. driver_fields_in Hrun.
  unfold owed, pending_initialize, held_buffers, pending_flushes, pending_resets in *.
  rewrite !answered_snoc in *.
  cbn [is_initialize_done is_buffer_done is_flush_done is_reset_done] in *.
  destruct (reset_after_frame_num_ d =? START_OF_STREAM_RESET).
  - unfold call_decoder, decoder_deleted in Hrun. driver_fields_in Hrun.
    rewrite Hlive in Hrun. cbn [negb] in Hrun. injection Hrun as <-.
    revert H1' H2' H6' H7' H8'. count_log. rewrite ?Nat2Z.inj_add.
    fold (count_calls is_initialize d) (count_calls is_reset d)
         (count_calls is_flush d) (count_calls is_decode d).
    lia.
  - apply checked_loop_result in Hrun.
    apply (decode_loop_owes
             (set_initialize_done_ticks now (entered CS_INITIALIZED d))) in Hrun
      as (Hci & Hcr & Hfl & Hcase);
      [|done|driver_fields; lia|done|done].
    revert Hci Hcr Hfl Hcase. unfold count_calls at 2 4 5 7. driver_fields.
    fold (count_calls is_initialize d) (count_calls is_reset d)
         (count_calls is_flush d).
    lia.
Qed.

Lemma NotifyFlushDone_owes d past d' :
  in_flight_invariant d past ->
  in_flight_invariant d' (past ++ [EvNotifyFlushDone]) ->
  permitted d past EvNotifyFlushDone = true ->
  NotifyFlushDone dcheck_is_fatal d = Some d' ->
  decoder_ d' = true ->
  0 < owed d' (past ++ [EvNotifyFlushDone]).
Proof.
  intros (_ & Hmax & Hinv) (_ & _ & Hinv') Hperm Hrun Hlive'.
  unfold permitted in Hperm. apply andb_prop in Hperm as [Hlive Hpend].
  apply Z.ltb_lt in Hpend.
  destruct (Hinv Hlive) as (H1 & H2 & _ & _ & _ & H6 & H7 & H8 & H9 & _).
  destruct (Hinv' Hlive') as (H1' & H2' & _ & _ & _ & H6' & H7' & H8' & _).
  unfold NotifyFlushDone in Hrun. unfold decoder_deleted in Hrun at 1.
  rewrite Hlive in Hrun. cbn [negb] in Hrun.
  rewrite SetState_live, bind_Some in Hrun by done. cbv beta zeta in Hrun.
  apply DCHECK_bind in Hrun.
  destruct (SetState_result_cases CS_FLUSHED d) as [(Hdead & _)|Heq].
  { unfold decoder_deleted in Hrun. driver_fields_in Hrun.
    rewrite Hdead in Hrun. cbn [negb] in Hrun. injection Hrun as <-.
    driver_fields_in Hlive'. congruence. }
  rewrite Heq in Hrun. unfold call_decoder in Hrun. unfold decoder_deleted in Hrun.
  driver_fields_in Hrun. rewrite Hlive in Hrun. cbn [negb] in Hrun.
  rewrite bind_Some in Hrun. cbv beta in Hrun.
  rewrite SetState_live in Hrun by (driver_fields; done). injection Hrun as <-.
  match type of Hlive' with decoder_ (SetState_result ?s ?x) = true =>
    destruct (SetState_result_cases s x) as [(Hdead & _)|Heq']
  end; [congruence|].
  revert H1' H2' H6' H7' H8'. rewrite Heq'.
  unfold owed, pending_initialize, held_buffers, pending_flushes, pending_resets in *.
  rewrite !answered_snoc.
  cbn [is_initialize_done is_buffer_done is_flush_done is_reset_done].
  count_log. rewrite ?Nat2Z.inj_add.
  fold (count_calls is_initialize d) (count_calls is_reset d)
       (count_calls is_flush d) (count_calls is_decode d).
  lia.
Qed.

Lemma NotifyResetDone_owes now d past d' :
  in_flight_invariant d past ->
  in_flight_invariant d' (past ++ [EvNotifyResetDone now]) ->
  permitted d past (EvNotifyResetDone now) = true ->
  NotifyResetDone dcheck_is_fatal H264PROFILE_MAX VP8PROFILE_MAX now d = Some d' ->
  decoder_ d' = true ->
  0 < owed d' (past ++ [EvNotifyResetDone now]).
Proof.
  intros (_ & Hmax & Hinv) (_ & _ & Hinv') Hperm Hrun Hlive'.
  unfold permitted in Hperm. apply andb_prop in Hperm as [Hlive Hpend].
  apply Z.ltb_lt in Hpend.
  destruct (Hinv Hlive) as (H1 & H2 & H3 & _ & _ & H6 & H7 & H8 & H9 & _).
  destruct (Hinv' Hlive') as (H1' & H2' & _ & _ & _ & H6' & H7' & H8' & _).
  assert (Hout : outstanding_decodes_ d = 0) by (apply H9; lia).
  unfold NotifyResetDone in Hrun. unfold decoder_deleted in Hrun at 1.
  rewrite Hlive in Hrun. cbn [negb] in Hrun.
  destruct (Z.eqb_spec (reset_after_frame_num_ d) MID_STREAM_RESET) as [Hmid|_].
  { destruct H3 as [H3|H3]; rewrite H3 in Hmid; done. }
  unfold owed, pending_initialize, held_buffers, pending_flushes, pending_resets in *.
  rewrite !answered_snoc in *.
  cbn [is_initialize_done is_buffer_done is_flush_done is_reset_done] in *.
  destruct (reset_after_frame_num_ d =? START_OF_STREAM_RESET) eqn:Hstart.
  { cbv zeta in Hrun. driver_fields_in Hrun.
    apply (decode_loop_owes
             (set_reset_after_frame_num END_OF_STREAM_RESET d)) in Hrun
      as (Hci & Hcr & Hfl & Hcase);
      [|done|driver_fields; lia|done|done].
    revert Hci Hcr Hfl Hcase. unfold count_calls at 2 4 5 7. driver_fields.
    fold (count_calls is_initialize d) (count_calls is_reset d)
         (count_calls is_flush d).
    lia. }
  destruct (Z.eqb_spec (remaining_play_throughs_ d) 0) as [Hrem|Hrem];
    cbn [negb] in Hrun.
  - rewrite SetState_live, bind_Some in Hrun by done. cbv beta in Hrun.
    destruct (SetState_result_cases CS_RESET d) as [(Hdead & _)|Heq].
    + unfold decoder_deleted in Hrun. rewrite Hdead in Hrun. cbn [negb] in Hrun.
      injection Hrun as <-. congruence.
    + rewrite Heq in Hrun. unfold decoder_deleted in Hrun.
      driver_fields_in Hrun. rewrite Hlive in Hrun. cbn [negb] in Hrun.
      destruct (DeleteDecoder_step (entered CS_RESET d) d' Hlive Hrun) as (Hdead & _).
      congruence.
  - unfold NotifyInitializeDone in Hrun.
    rewrite SetState_live, bind_Some in Hrun by (driver_fields; done).
    cbv beta zeta in Hrun.
    match type of Hrun with context [SetState_result ?s ?x] =>
      set (d0 := x) in *;
      destruct (SetState_result_cases s d0) as [(Hdead & _)|Heq]
    end.
    + set (d1 := SetState_result CS_INITIALIZED d0) in *. driver_fields_in Hrun.
      destruct (reset_after_frame_num_ d1 =? START_OF_STREAM_RESET).
      * unfold call_decoder, decoder_deleted in Hrun. driver_fields_in Hrun.
        by rewrite Hdead in Hrun.
      * apply checked_loop_result in Hrun.
        rewrite decode_times_dead in Hrun by (driver_fields; done).
        injection Hrun as <-. driver_fields_in Hlive'. congruence.
    + rewrite Heq in Hrun. unfold d0 in Hrun. driver_fields_in Hrun.
      rewrite Hstart in Hrun.
      apply checked_loop_result in Hrun.
      apply (decode_loop_owes
               (set_initialize_done_ticks now
                (entered CS_INITIALIZED
                   (set_encoded_data_next_pos_to_decode 0%nat d)))) in Hrun
        as (Hci & Hcr & Hfl & Hcase);
        [|done|driver_fields; lia|done|done].
      revert Hci Hcr Hfl Hcase. unfold count_calls at 2 4 5 7. driver_fields.
      fold (count_calls is_initialize d) (count_calls is_reset d)
           (count_calls is_flush d).
      lia.
Qed.

Lemma handle_owes d past ev d' :
  in_flight_invariant d past ->
  in_flight_invariant d' (past ++ [ev]) ->
  permitted d past ev = true ->
  handle dcheck_is_fatal H264PROFILE_MAX VP8PROFILE_MAX ev d = Some d' ->
  decoder_ d' = true ->
  0 < owed d past ->
  0 < owed d' (past ++ [ev]).
Proof.
  intros Hinv Hinv' Hperm Hrun Hlive' Howed.
  assert (Hlive : decoder_ d = true).
  { unfold permitted in Hperm. by apply andb_prop in Hperm as [? _]. }
  destruct ev as [dims target textures|id|now picture|now|id| |now|error];
    cbn [handle] in Hrun.
  - erewrite inert_owed; try done. by eapply ProvidePictureBuffers_inert.
  - erewrite inert_owed; try done. by eapply DismissPictureBuffer_inert.
  - pose proof Hinv as (_ & _ & Hinv0).
    destruct (Hinv0 Hlive) as (_ & _ & Hra & Hnd & Hth & _).
    erewrite inert_owed; try done.
    eapply PictureReady_inert; try done.
    unfold END_OF_STREAM_RESET, START_OF_STREAM_RESET in Hra. lia.
  - by eapply NotifyInitializeDone_owes.
  - by eapply NotifyEndOfBitstreamBuffer_owes.
  - by eapply NotifyFlushDone_owes.
  - by eapply NotifyResetDone_owes.
  - erewrite inert_owed; try done. by eapply NotifyError_inert.
Qed.

End Progress.

(** X5. In every run that keeps the decoder's contract, of a client
    created without throttling whose reset point is the end or the start
    of the stream: as long as the client holds its decoder, the decoder
    owes it a callback -- it holds a submitted unit, or an initialise,
    flush or reset request is not yet completed.  The client never waits
    for a decoder that has nothing left to report. *)
Theorem decoder_always_owes_a_callback dcheck_is_fatal H264PROFILE_MAX VP8PROFILE_MAX
    d0 reset_point past d :
  started d0 reset_point ->
  reset_point = END_OF_STREAM_RESET \/ reset_point = START_OF_STREAM_RESET ->
  run dcheck_is_fatal H264PROFILE_MAX VP8PROFILE_MAX d0 past d ->
  decoder_ d = true ->
  0 < owed d past.
Proof.
  intros Hstart Hrp Hrun.
  induction Hrun as [|past d ev d' Hrun IH Hperm Hstep].
  - intros _. apply started_books in Hstart as (profile & plays & _ & Hb0).
    unfold owed, held_buffers, pending_initialize, pending_flushes, pending_resets,
      count_calls, answered.
    change (decoder_log_ d0) with (b_log (books d0)). rewrite Hb0. cbn. lia.
  - intros Hlive'.
    assert (Hlive : decoder_ d = true).
    { unfold permitted in Hperm. by apply andb_prop in Hperm as [? _]. }
    eapply handle_owes; try done.
    + by eapply run_invariant.
    + eapply run_invariant; try done. by eapply run_step.
    + by apply IH.
Qed.

Lemma decoder_always_owes_a_callback_witness :
  0 < owed sample_running_client sample_callbacks.
Proof.
  apply (decoder_always_owes_a_callback true 10 11
           (sample_started_client END_OF_STREAM_RESET) END_OF_STREAM_RESET
           sample_callbacks sample_running_client).
  - apply sample_started_client_started.
  - left. reflexivity.
  - apply (replay_run true 10 11 _ sample_callbacks []
             (sample_started_client END_OF_STREAM_RESET));
      [apply run_start|vm_compute; reflexivity].
  - reflexivity.
Defined.

(** * Further properties: well-formed and damaged streams *)

Lemma le32_value n :
  0 <= n < 2 ^ 32 ->
  n `mod` 256 + 256 * ((n / 256) `mod` 256) + 65536 * ((n / 65536) `mod` 256)
    + 16777216 * ((n / 16777216) `mod` 256) = n.
Proof.
  intros Hn.
  pose proof (Z.div_mod n 256 ltac:(lia)) as H0.
  pose proof (Z.div_mod (n / 256) 256 ltac:(lia)) as H1.
  pose proof (Z.div_mod (n / 256 / 256) 256 ltac:(lia)) as H2.
  rewrite Z.div_div in H1, H2 by lia. rewrite Z.div_div in H2 by lia.
  change (256 * 256) with 65536 in *. change (65536 * 256) with 16777216 in *.
  assert (H3 : (n / 16777216) `mod` 256 = n / 16777216).
  { apply Z.mod_small. split; [apply Z.div_pos; lia|].
    apply Z.div_lt_upper_bound; lia. }
  lia.
Qed.

Lemma read_le32 pre n post :
  0 <= n < 2 ^ 32 ->
  read_uint32 (pre ++ le32 n ++ post) (length pre) = Some n.
Proof.
  intros Hn. rewrite <- (le32_value n Hn) at 2.
  apply read_uint32_bytes; try (apply Z.mod_pos_bound; lia).
  unfold substr. by rewrite drop_app_length.
Qed.

Section WellFormedStreams.

Variable dcheck_is_fatal : bool.
Variables H264PROFILE_MAX VP8PROFILE_MAX : Z.

Lemma next_fragment_vp8 d :
  decoding_vp8 dcheck_is_fatal H264PROFILE_MAX VP8PROFILE_MAX d ->
  next_fragment dcheck_is_fatal H264PROFILE_MAX VP8PROFILE_MAX d =
  GetBytesForNextFrame (encoded_data_next_pos_to_decode_ d) d.
Proof.
  intros (_ & Hvp8 & Hmax & _).
  assert (Hcheck : DCHECK dcheck_is_fatal (profile_ d <=? VP8PROFILE_MAX) = Some ()).
  { unfold DCHECK. destruct dcheck_is_fatal; [|done].
    destruct (Z.leb_spec (profile_ d) VP8PROFILE_MAX); [done|]. specialize (Hmax eq_refl). lia. }
  unfold next_fragment, GetBytesForFirstFragment, GetBytesForNextFragment.
  destruct (Z.ltb_spec (profile_ d) H264PROFILE_MAX); [lia|].
  rewrite Hcheck, !bind_Some.
  by destruct (Nat.eqb_spec (encoded_data_next_pos_to_decode_ d) 0) as [->|].
Qed.

(** One frame of a well-formed file, at the cursor. *)
Lemma DecodeNextFragment_ivf_frame d pre frame post :
  decoding_vp8 dcheck_is_fatal H264PROFILE_MAX VP8PROFILE_MAX d ->
  encoded_data_ d = pre ++ ivf_frame frame ++ post ->
  length frame.1 = 8%nat -> Z.of_nat (length frame.2) < 2 ^ 32 ->
  (if (encoded_data_next_pos_to_decode_ d =? 0)%nat then 32%nat
   else encoded_data_next_pos_to_decode_ d) = length pre ->
  DecodeNextFragment dcheck_is_fatal H264PROFILE_MAX VP8PROFILE_MAX d =
  Some (submitted frame.2 (length pre + 12 + length frame.2)
          (set_num_queued_fragments (num_queued_fragments_ d + 1) d)).
Proof.
  intros Hvp8 Hdata Hhdr Hlen Hpos.
  pose proof Hvp8 as (Hlive & _ & _ & Hrem).
  destruct frame as [hdr payload]. cbn [fst snd] in *.
  assert (Hsize : length (encoded_data_ d)
                  = (length pre + 12 + length payload + length post)%nat).
  { rewrite Hdata. unfold ivf_frame, le32. cbn [fst snd].
    rewrite !length_app. cbn [length]. lia. }
  rewrite DecodeNextFragment_live by done.
  destruct (Nat.eqb_spec (encoded_data_next_pos_to_decode_ d) (length (encoded_data_ d)))
    as [Hend|_].
  { destruct (Nat.eqb_spec (encoded_data_next_pos_to_decode_ d) 0); lia. }
  rewrite next_fragment_vp8 by done. unfold GetBytesForNextFrame.
  cbv zeta. rewrite Hpos.
  assert (Hread : read_uint32 (encoded_data_ d) (length pre)
                  = Some (Z.of_nat (length payload))).
  { rewrite Hdata. unfold ivf_frame. cbn [fst snd]. rewrite <- !app_assoc.
    apply read_le32. lia. }
  rewrite Hread, bind_Some. cbv beta.
  destruct (Nat.ltb_spec (length (encoded_data_ d)) (length pre + 12)); [lia|].
  rewrite bind_Some. cbv beta iota. rewrite Nat2Z.id.
  assert (Hsub : substr (encoded_data_ d) (length pre + 12) (length payload) = payload).
  { rewrite Hdata. unfold substr, ivf_frame, le32. cbn [fst snd].
    rewrite drop_app_ge by lia.
    replace (length pre + 12 - length pre)%nat with 12%nat by lia.
    rewrite <- !app_assoc. cbn [app drop].
    rewrite drop_app_ge by lia. rewrite Hhdr. cbn [drop Nat.sub].
    rewrite drop_0. by rewrite take_app_length. }
  rewrite Hsub.
  unfold deletes_after_decode. driver_fields.
  destruct (Z.eqb_spec (remaining_play_throughs_ d) 0); [done|]. done.
Qed.


Lemma submitted_decoding_vp8 bytes e q d :
  decoding_vp8 dcheck_is_fatal H264PROFILE_MAX VP8PROFILE_MAX d ->
  decoding_vp8 dcheck_is_fatal H264PROFILE_MAX VP8PROFILE_MAX
    (submitted bytes e (set_num_queued_fragments q d)).
Proof. by intros (? & ? & ? & ?). Qed.

Lemma decode_times_ivf frames : forall d pre,
  decoding_vp8 dcheck_is_fatal H264PROFILE_MAX VP8PROFILE_MAX d ->
  encoded_data_ d = pre ++ concat (ivf_frame <$> frames) ->
  Forall (fun frame => length frame.1 = 8%nat /\ Z.of_nat (length frame.2) < 2 ^ 32)
    frames ->
  encoded_data_next_pos_to_decode_ d = length pre -> length pre <> 0%nat ->
  exists d',
    decode_times dcheck_is_fatal H264PROFILE_MAX VP8PROFILE_MAX (length frames) d
      = Some d' /\
    decoder_log_ d' =
      decoder_log_ d ++
      zip_with VDA_Decode (ids_from (next_bitstream_buffer_id_ d) (length frames))
        frames.*2 /\
    encoded_data_next_pos_to_decode_ d' = length (encoded_data_ d) /\
    outstanding_decodes_ d' = outstanding_decodes_ d + Z.of_nat (length frames) /\
    num_queued_fragments_ d' = num_queued_fragments_ d + Z.of_nat (length frames) /\
    num_skipped_fragments_ d' = num_skipped_fragments_ d /\
    decoder_ d' = true.
Proof.
  induction frames as [|frame frames IH]; intros d pre Hvp8 Hdata Hwf Hpos Hpre.
  - exists d. cbn [decode_times length ids_from zip_with fmap list_fmap].
    rewrite Hdata, app_nil_r, !Z.add_0_r. cbn [concat]. rewrite app_nil_r.
    repeat split; try done. apply Hvp8.
  - apply Forall_cons in Hwf as [[Hhdr Hlen] Hwf].
    cbn [fmap list_fmap concat] in Hdata. fold (fmap ivf_frame frames) in Hdata.
    cbn [decode_times length].
    rewrite (DecodeNextFragment_ivf_frame d pre frame (concat (ivf_frame <$> frames)));
      [|done|done|done|done|].
    2: { rewrite Hpos. by destruct (Nat.eqb_spec (length pre) 0). }
    rewrite bind_Some.
    set (d1 := submitted frame.2 (length pre + 12 + length frame.2)
                 (set_num_queued_fragments (num_queued_fragments_ d + 1) d)).
    destruct (IH d1 (pre ++ ivf_frame frame)) as (d' & Hrun & Hlog & Hcur & Hout & Hq & Hk & Hl).
    + by apply submitted_decoding_vp8.
    + unfold d1. driver_fields. by rewrite Hdata, <- app_assoc.
    + done.
    + unfold d1. driver_fields. unfold ivf_frame, le32.
      rewrite !length_app. cbn [length]. lia.
    + rewrite length_app. lia.
    + exists d'. split; [done|]. unfold d1 in Hlog, Hcur, Hout, Hq, Hk.
      driver_fields_in Hlog. driver_fields_in Hcur. driver_fields_in Hout.
      driver_fields_in Hq. driver_fields_in Hk.
      rewrite Hlog, Hcur, Hout, Hq, Hk, <- app_assoc.
      cbn [ids_from zip_with fmap list_fmap app].
      repeat split; try done; lia.
Qed.

End WellFormedStreams.

(** X6. A client decoding a well-formed IVF file from its beginning
    submits, in as many calls of [DecodeNextFragment] as the file has
    frames, exactly the payloads of the frames, in order and under
    successive ids; it counts each as queued, skips none, and ends with
    its cursor at the end of the data. *)
Theorem ivf_frames_submitted_in_order dcheck_is_fatal H264PROFILE_MAX VP8PROFILE_MAX
    d file_header frames :
  decoding_vp8 dcheck_is_fatal H264PROFILE_MAX VP8PROFILE_MAX d ->
  ivf_well_formed file_header frames -> frames <> [] ->
  encoded_data_ d = ivf_file file_header frames ->
  encoded_data_next_pos_to_decode_ d = 0%nat ->
  exists d',
    decode_times dcheck_is_fatal H264PROFILE_MAX VP8PROFILE_MAX (length frames) d
      = Some d' /\
    decoder_log_ d' =
      decoder_log_ d ++
      zip_with VDA_Decode (ids_from (next_bitstream_buffer_id_ d) (length frames))
        frames.*2 /\
    encoded_data_next_pos_to_decode_ d' = length (encoded_data_ d) /\
    outstanding_decodes_ d' = outstanding_decodes_ d + Z.of_nat (length frames) /\
    num_queued_fragments_ d' = num_queued_fragments_ d + Z.of_nat (length frames) /\
    num_skipped_fragments_ d' = num_skipped_fragments_ d.
Proof.
  intros Hvp8 [Hheader Hwf] Hne Hdata Hpos.
  destruct frames as [|frame frames]; [done|]. clear Hne.
  apply Forall_cons in Hwf as [[Hhdr Hlen] Hwf].
  unfold ivf_file in Hdata. cbn [fmap list_fmap concat] in Hdata.
  fold (fmap ivf_frame frames) in Hdata.
  cbn [decode_times length].
  rewrite (DecodeNextFragment_ivf_frame dcheck_is_fatal H264PROFILE_MAX VP8PROFILE_MAX
             d file_header frame (concat (ivf_frame <$> frames)));
    [|done|done|done|done|by rewrite Hpos].
  rewrite bind_Some.
  set (d1 := submitted frame.2 (length file_header + 12 + length frame.2)
               (set_num_queued_fragments (num_queued_fragments_ d + 1) d)).
  destruct (decode_times_ivf dcheck_is_fatal H264PROFILE_MAX VP8PROFILE_MAX
              frames d1 (file_header ++ ivf_frame frame))
    as (d' & Hrun & Hlog & Hcur & Hout & Hq & Hk & _).
  - by apply submitted_decoding_vp8.
  - unfold d1. driver_fields. by rewrite Hdata, <- app_assoc.
  - done.
  - unfold d1. driver_fields. unfold ivf_frame, le32.
    rewrite !length_app. cbn [length]. lia.
  - rewrite length_app. lia.
  - exists d'. split; [done|]. unfold d1 in Hlog, Hcur, Hout, Hq, Hk.
    driver_fields_in Hlog. driver_fields_in Hcur. driver_fields_in Hout.
    driver_fields_in Hq. driver_fields_in Hk.
    rewrite Hlog, Hcur, Hout, Hq, Hk, <- app_assoc.
    cbn [ids_from zip_with fmap list_fmap app].
    repeat split; try done; lia.
Qed.


Lemma sample_vp8_client_decoding : decoding_vp8 true 10 11 sample_vp8_client.
Proof. vm_compute. repeat split; try done; intros; discriminate. Qed.

Lemma ivf_frames_submitted_in_order_witness :
  exists d',
    decode_times true 10 11 2 sample_vp8_client = Some d' /\
    decoder_log_ d' =
      decoder_log_ sample_vp8_client ++
      zip_with VDA_Decode (ids_from (next_bitstream_buffer_id_ sample_vp8_client) 2)
        sample_ivf_frames.*2 /\
    encoded_data_next_pos_to_decode_ d' = length (encoded_data_ sample_vp8_client) /\
    outstanding_decodes_ d' = outstanding_decodes_ sample_vp8_client + 2 /\
    num_queued_fragments_ d' = num_queued_fragments_ sample_vp8_client + 2 /\
    num_skipped_fragments_ d' = num_skipped_fragments_ sample_vp8_client.
Proof.
  apply (ivf_frames_submitted_in_order true 10 11 sample_vp8_client
           (replicate 32 0) sample_ivf_frames).
  - exact sample_vp8_client_decoding.
  - split; [reflexivity|]. repeat constructor.
  - discriminate.
  - reflexivity.
  - reflexivity.
Defined.

(** ** Annex-B streams built from units *)

Lemma byte_at_app_r pre l k : byte_at (pre ++ l) (length pre + k) = byte_at l k.
Proof.
  unfold byte_at. rewrite lookup_app_r by lia. do 2 f_equal. lia.
Qed.

Lemma byte_at_app_l l post k :
  (k < length l)%nat -> byte_at (l ++ post) k = byte_at l k.
Proof. intros Hk. unfold byte_at. by rewrite lookup_app_l. Qed.

Lemma LookingAtNAL_app_r pre l q :
  LookingAtNAL (pre ++ l) (length pre + q) = LookingAtNAL l q.
Proof.
  unfold LookingAtNAL. by rewrite <- !Nat.add_assoc, !byte_at_app_r.
Qed.

Lemma start_code_free_spec body q :
  start_code_free body = true -> LookingAtNAL body q = false.
Proof.
  intros Hfree. destruct (decide (q < length body)%nat) as [Hq|Hq].
  - unfold start_code_free in Hfree. rewrite forallb_forall in Hfree.
    specialize (Hfree q). rewrite in_seq in Hfree.
    apply negb_true_iff, Hfree. lia.
  - unfold LookingAtNAL, byte_at.
    rewrite (lookup_ge_None_2 body (q + 3)) by lia. cbn [default].
    by rewrite andb_false_r.
Qed.

Lemma start_code_free_then_code body post q :
  start_code_free body = true ->
  (post = [] \/ exists post', post = start_code ++ post') ->
  (q < length body)%nat -> (q + 4 <= length (body ++ post))%nat ->
  LookingAtNAL (body ++ post) q = false.
Proof.
  intros Hfree Hpost Hq Hroom.
  destruct (decide (q + 3 < length body)%nat) as [Hin|Hout].
  - rewrite <- (start_code_free_spec body q Hfree). unfold LookingAtNAL.
    by rewrite !byte_at_app_l by lia.
  - destruct Hpost as [->|[post' ->]].
    { rewrite app_nil_r in Hroom. lia. }
    unfold LookingAtNAL.
    replace (q + 3)%nat with (length body + (q + 3 - length body))%nat by lia.
    rewrite byte_at_app_r.
    assert (Hj : (q + 3 - length body = 0 \/ q + 3 - length body = 1 \/
                  q + 3 - length body = 2)%nat) by lia.
    destruct Hj as [->|[->| ->]]; cbn; by rewrite andb_false_r.
Qed.

Lemma nal_unit_app body l : nal_unit body ++ l = start_code ++ body ++ l.
Proof. unfold nal_unit. by rewrite <- app_assoc. Qed.

Lemma length_nal_unit body : length (nal_unit body) = (4 + length body)%nat.
Proof. done. Qed.

Lemma nal_unit_end pre body post :
  start_code_free body = true ->
  (post = [] \/ exists post', post = start_code ++ post') ->
  unit_end (pre ++ nal_unit body ++ post) (length pre) (length pre + 4 + length body).
Proof.
  intros Hfree Hpost.
  assert (Hlen : length (pre ++ nal_unit body ++ post)
                 = (length pre + 4 + length body + length post)%nat).
  { unfold nal_unit. rewrite !length_app. cbn [length start_code]. lia. }
  assert (Hhere : LookingAtNAL (pre ++ nal_unit body ++ post) (length pre) = true).
  { rewrite <- (Nat.add_0_r (length pre)) at 1. by rewrite LookingAtNAL_app_r. }
  split; [lia|]. split; [done|]. split; [lia|]. split.
  - intros q Hq Hroom.
    destruct (decide (q < length pre + 4)%nat) as [Hnear|Hfar].
    + apply (LookingAtNAL_no_overlap _ (length pre)); [done|lia].
    + replace q with (length pre + (length start_code + (q - length pre - 4)))%nat
        by (cbn [length start_code]; lia).
      rewrite LookingAtNAL_app_r, nal_unit_app, LookingAtNAL_app_r.
      apply start_code_free_then_code; [done|done|lia|].
      rewrite length_app. lia.
  - destruct Hpost as [->|[post' ->]]; [left; cbn [length] in Hlen; lia|right].
    split; [rewrite Hlen, length_app; cbn [length start_code]; lia|].
    replace (length pre + 4 + length body)%nat
      with (length (pre ++ nal_unit body) + 0)%nat
      by (unfold nal_unit; rewrite !length_app; cbn [length start_code]; lia).
    rewrite (app_assoc pre). by rewrite LookingAtNAL_app_r.
Qed.

Lemma nal_units_start units post :
  (exists post', post = start_code ++ post') ->
  exists rest, concat (nal_unit <$> units) ++ post = start_code ++ rest.
Proof.
  intros [post' ->]. destruct units as [|body units]; [by exists post'|].
  cbn [fmap list_fmap concat]. unfold nal_unit at 1. rewrite <- !app_assoc. eauto.
Qed.

Lemma nal_units_tail units :
  concat (nal_unit <$> units) = [] \/
  exists post', concat (nal_unit <$> units) = start_code ++ post'.
Proof.
  destruct units as [|body units]; [by left|right].
  cbn [fmap list_fmap concat]. unfold nal_unit at 1. rewrite <- !app_assoc. eauto.
Qed.

Lemma skipped_lead lead : forall pre post,
  Forall (fun body => start_code_free body = true) lead ->
  Forall (fun body => nal_type body <> 7) lead ->
  (exists post', post = start_code ++ post') -> (4 < length post)%nat ->
  skipped (pre ++ concat (nal_unit <$> lead) ++ post) (length pre)
    (length pre + length (concat (nal_unit <$> lead))) (length lead).
Proof.
  induction lead as [|body lead IH]; intros pre post Hfree Hty Hpost Hroom.
  - cbn [fmap list_fmap concat length]. rewrite Nat.add_0_r. constructor.
  - apply Forall_cons in Hfree as [Hfree Hfrees].
    apply Forall_cons in Hty as [Hty Htys].
    destruct (nal_units_start lead post Hpost) as [rest Hrest].
    cbn [fmap list_fmap concat length]. fold (fmap nal_unit lead).
    rewrite <- (app_assoc (nal_unit body)).
    apply (skipped_unit _ _ (length pre + 4 + length body)).
    + unfold nal_unit. rewrite !length_app. cbn [length start_code]. lia.
    + replace (length pre + 4)%nat with (length pre + (length start_code + 0))%nat
        by (cbn [length start_code]; lia).
      rewrite byte_at_app_r, nal_unit_app, byte_at_app_r.
      rewrite Hrest. unfold nal_type in Hty.
      destruct body as [|b body]; [done|]. exact Hty.
    + apply nal_unit_end; [done|]. right. eauto.
    + specialize (IH (pre ++ nal_unit body) post Hfrees Htys Hpost Hroom).
      rewrite <- app_assoc in IH.
      replace (length pre + 4 + length body)%nat with (length (pre ++ nal_unit body))
        by (unfold nal_unit; rewrite !length_app; cbn [length start_code]; lia).
      replace (length pre + length (nal_unit body ++ concat (nal_unit <$> lead)))%nat
        with (length (pre ++ nal_unit body) + length (concat (nal_unit <$> lead)))%nat
        by (rewrite !length_app; lia).
      exact IH.
Qed.

Lemma substr_unit pre unit post :
  substr (pre ++ unit ++ post) (length pre) (length pre + length unit - length pre) = unit.
Proof.
  unfold substr. rewrite drop_app_length.
  replace (length pre + length unit - length pre)%nat with (length unit) by lia.
  by rewrite take_app_length.
Qed.

Section AnnexB.

Variable dcheck_is_fatal : bool.
Variables H264PROFILE_MAX VP8PROFILE_MAX : Z.

Lemma first_fragment_after_skipped d p e n :
  profile_ d < H264PROFILE_MAX ->
  skipped (encoded_data_ d) 0 p n ->
  (p + 4 < length (encoded_data_ d))%nat ->
  Z.land (byte_at (encoded_data_ d) (p + 4)) 0x1f = 0x7 ->
  unit_end (encoded_data_ d) p e ->
  GetBytesForFirstFragment dcheck_is_fatal H264PROFILE_MAX VP8PROFILE_MAX 0 d =
    Some (substr (encoded_data_ d) p (e - p), e,
          set_num_queued_fragments (num_queued_fragments_ d + 1)
            (set_num_skipped_fragments (num_skipped_fragments_ d + Z.of_nat n) d)).
Proof.
  intros Hprof Hs Hroom Hty Hu. unfold GetBytesForFirstFragment.
  destruct (Z.ltb_spec (profile_ d) H264PROFILE_MAX) as [_|?]; [|lia].
  rewrite (first_fragment_loop_skips _ _ _ _ _ _ _ Hs _ _ _ eq_refl); [|lia].
  pose proof (skipped_advances _ _ _ _ Hs) as Hadv.
  destruct (length (encoded_data_ d) - n)%nat as [|fuel] eqn:Hfuel; [lia|].
  simpl.
  destruct (Nat.ltb_spec (p + 4) (length (encoded_data_ d))) as [_|?]; [|lia].
  destruct (Z.eqb_spec (Z.land (byte_at (encoded_data_ d) (p + 4)) 31) 7)
    as [_|?]; [|done].
  by rewrite (GetBytesForNextFragment_unit _ _ _ _ p e).
Qed.

Lemma decode_times_annexb units : forall d pre,
  decoding_h264 H264PROFILE_MAX d ->
  encoded_data_ d = pre ++ concat (nal_unit <$> units) ->
  Forall (fun body => start_code_free body = true) units ->
  encoded_data_next_pos_to_decode_ d = length pre -> length pre <> 0%nat ->
  exists d',
    decode_times dcheck_is_fatal H264PROFILE_MAX VP8PROFILE_MAX (length units) d
      = Some d' /\
    decoder_log_ d' =
      decoder_log_ d ++
      zip_with VDA_Decode (ids_from (next_bitstream_buffer_id_ d) (length units))
        (nal_unit <$> units) /\
    encoded_data_next_pos_to_decode_ d' = length (encoded_data_ d) /\
    outstanding_decodes_ d' = outstanding_decodes_ d + Z.of_nat (length units) /\
    num_queued_fragments_ d' = num_queued_fragments_ d + Z.of_nat (length units) /\
    num_skipped_fragments_ d' = num_skipped_fragments_ d.
Proof.
  induction units as [|body units IH]; intros d pre Hh264 Hdata Hfree Hpos Hpre.
  - exists d. cbn [decode_times length ids_from zip_with fmap list_fmap].
    rewrite Hdata, app_nil_r, !Z.add_0_r. cbn [concat]. by rewrite app_nil_r.
  - apply Forall_cons in Hfree as [Hfree Hfrees].
    pose proof Hh264 as (Hlive & Hprof & Hrem).
    cbn [fmap list_fmap concat] in Hdata. fold (fmap nal_unit units) in Hdata.
    pose proof (nal_unit_end pre body (concat (nal_unit <$> units)) Hfree
                  (nal_units_tail units)) as Hu.
    rewrite <- Hdata in Hu.
    cbn [decode_times length].
    rewrite DecodeNextFragment_live by done.
    destruct (Nat.eqb_spec (encoded_data_next_pos_to_decode_ d) (length (encoded_data_ d)))
      as [Hend|_].
    { destruct Hu as (? & _). lia. }
    unfold next_fragment.
    destruct (Nat.eqb_spec (encoded_data_next_pos_to_decode_ d) 0) as [?|_]; [lia|].
    rewrite Hpos, (GetBytesForNextFragment_unit _ _ _ _ _ _ Hprof Hu).
    rewrite bind_Some. cbv beta iota.
    replace (length pre + 4 + length body)%nat
      with (length pre + length (nal_unit body))%nat
      by (unfold nal_unit; rewrite length_app; cbn [length start_code]; lia).
    assert (Hsub : substr (encoded_data_ d) (length pre)
                     (length pre + length (nal_unit body) - length pre) = nal_unit body)
      by (rewrite Hdata; apply substr_unit).
    rewrite Hsub.
    set (d1 := submitted (nal_unit body) (length pre + length (nal_unit body))
                 (set_num_queued_fragments (num_queued_fragments_ d + 1) d)).
    assert (Hkeep : deletes_after_decode d1 = false).
    { unfold deletes_after_decode, d1. driver_fields.
      by destruct (Z.eqb_spec (remaining_play_throughs_ d) 0). }
    rewrite Hkeep, bind_Some.
    destruct (IH d1 (pre ++ nal_unit body)) as (d' & Hrun & Hlog & Hcur & Hout & Hq & Hk).
    + done.
    + unfold d1. driver_fields. by rewrite Hdata, <- app_assoc.
    + done.
    + unfold d1. driver_fields. by rewrite length_app.
    + rewrite length_app. lia.
    + exists d'. split; [done|]. unfold d1 in Hlog, Hcur, Hout, Hq, Hk.
      driver_fields_in Hlog. driver_fields_in Hcur. driver_fields_in Hout.
      driver_fields_in Hq. driver_fields_in Hk.
      rewrite Hlog, Hcur, Hout, Hq, Hk, <- app_assoc.
      cbn [ids_from zip_with fmap list_fmap app].
      repeat split; try done; lia.
Qed.

End AnnexB.

(** X8. A client decoding, from its beginning, an H.264 stream made of
    start-code delimited units whose bodies hold no start code skips the
    units before the first sequence-parameter set, and then submits that
    unit and every later one whole, start code included, in order and
    under successive ids, one per call of [DecodeNextFragment]; it counts
    the skipped and the submitted units and ends with its cursor at the
    end of the data. *)
Theorem annexb_units_submitted_in_order dcheck_is_fatal H264PROFILE_MAX VP8PROFILE_MAX
    d lead sps rest :
  decoding_h264 H264PROFILE_MAX d ->
  encoded_data_ d = concat (nal_unit <$> lead ++ sps :: rest) ->
  Forall (fun body => start_code_free body = true) (lead ++ sps :: rest) ->
  Forall (fun body => nal_type body <> 7) lead ->
  nal_type sps = 7 ->
  encoded_data_next_pos_to_decode_ d = 0%nat ->
  exists d',
    decode_times dcheck_is_fatal H264PROFILE_MAX VP8PROFILE_MAX (S (length rest)) d
      = Some d' /\
    decoder_log_ d' =
      decoder_log_ d ++
      zip_with VDA_Decode (ids_from (next_bitstream_buffer_id_ d) (S (length rest)))
        (nal_unit <$> sps :: rest) /\
    encoded_data_next_pos_to_decode_ d' = length (encoded_data_ d) /\
    outstanding_decodes_ d' = outstanding_decodes_ d + Z.of_nat (S (length rest)) /\
    num_queued_fragments_ d' = num_queued_fragments_ d + Z.of_nat (S (length rest)) /\
    num_skipped_fragments_ d' = num_skipped_fragments_ d + Z.of_nat (length lead).
Proof.
  intros Hh264 Hdata Hfree Hlead Hsps Hpos.
  pose proof Hh264 as (Hlive & Hprof & Hrem).
  apply Forall_app in Hfree as [Hfrees Hfree].
  apply Forall_cons in Hfree as [Hfree Hrest].
  rewrite fmap_app, concat_app in Hdata.
  cbn [fmap list_fmap concat] in Hdata. fold (fmap nal_unit rest) in Hdata.
  set (pre := concat (nal_unit <$> lead)) in *.
  set (post := concat (nal_unit <$> rest)) in *.
  destruct sps as [|b sps]; [done|].
  assert (Hu : unit_end (encoded_data_ d) (length pre)
                 (length pre + 4 + length (b :: sps))).
  { rewrite Hdata. apply nal_unit_end; [done|]. apply nal_units_tail. }
  assert (Hs : skipped (encoded_data_ d) 0 (length pre) (length lead)).
  { rewrite Hdata.
    apply (skipped_lead lead [] (nal_unit (b :: sps) ++ post)); [done|done| |].
    - unfold nal_unit. rewrite <- app_assoc. eauto.
    - unfold nal_unit. rewrite !length_app. cbn [length start_code]. lia. }
  assert (Hsize : (length pre + 4 < length (encoded_data_ d))%nat).
  { rewrite Hdata. unfold nal_unit. rewrite !length_app. cbn [length start_code]. lia. }
  assert (Hty : Z.land (byte_at (encoded_data_ d) (length pre + 4)) 0x1f = 0x7).
  { rewrite Hdata.
    replace (length pre + 4)%nat with (length pre + (length start_code + 0))%nat
      by (cbn [length start_code]; lia).
    rewrite byte_at_app_r, nal_unit_app, byte_at_app_r.
    exact Hsps. }
  cbn [decode_times].
  rewrite DecodeNextFragment_live by done.
  destruct (Nat.eqb_spec (encoded_data_next_pos_to_decode_ d) (length (encoded_data_ d)))
    as [Hend|_]; [lia|].
  unfold next_fragment. rewrite Hpos. cbn [Nat.eqb].
  rewrite (first_fragment_after_skipped _ _ _ d _ _ _ Hprof Hs Hsize Hty Hu).
  rewrite bind_Some. cbv beta iota.
  replace (length pre + 4 + length (b :: sps))%nat
    with (length pre + length (nal_unit (b :: sps)))%nat
    by (unfold nal_unit; rewrite length_app; cbn [length start_code]; lia).
  assert (Hsub : substr (encoded_data_ d) (length pre)
                   (length pre + length (nal_unit (b :: sps)) - length pre)
                 = nal_unit (b :: sps))
    by (rewrite Hdata; apply substr_unit).
  rewrite Hsub.
  set (d1 := submitted (nal_unit (b :: sps))
               (length pre + length (nal_unit (b :: sps)))
               (set_num_queued_fragments (num_queued_fragments_ d + 1)
                  (set_num_skipped_fragments
                     (num_skipped_fragments_ d + Z.of_nat (length lead)) d))).
  assert (Hkeep : deletes_after_decode d1 = false).
  { unfold deletes_after_decode, d1. driver_fields.
    by destruct (Z.eqb_spec (remaining_play_throughs_ d) 0). }
  rewrite Hkeep, bind_Some.
  destruct (decode_times_annexb dcheck_is_fatal H264PROFILE_MAX VP8PROFILE_MAX
              rest d1 (pre ++ nal_unit (b :: sps)))
    as (d' & Hrun & Hlog & Hcur & Hout & Hq & Hk).
  - done.
  - unfold d1. driver_fields. by rewrite Hdata, <- app_assoc.
  - done.
  - unfold d1. driver_fields. by rewrite length_app.
  - rewrite length_app. unfold nal_unit. rewrite length_app. cbn [length start_code]. lia.
  - exists d'. split; [done|]. unfold d1 in Hlog, Hcur, Hout, Hq, Hk.
    driver_fields_in Hlog. driver_fields_in Hcur. driver_fields_in Hout.
    driver_fields_in Hq. driver_fields_in Hk.
    rewrite Hlog, Hcur, Hout, Hq, Hk, <- app_assoc.
    cbn [ids_from zip_with fmap list_fmap app].
    repeat split; try done; lia.
Qed.

Lemma annexb_units_submitted_in_order_witness :
  exists d',
    decode_times true 10 11 3 sample_h264_client = Some d' /\
    decoder_log_ d' =
      decoder_log_ sample_h264_client ++
      zip_with VDA_Decode (ids_from (next_bitstream_buffer_id_ sample_h264_client) 3)
        (nal_unit <$> [[103; 1; 2]; [104; 3]; [101; 9; 9; 9]]) /\
    encoded_data_next_pos_to_decode_ d' = length (encoded_data_ sample_h264_client) /\
    outstanding_decodes_ d' = outstanding_decodes_ sample_h264_client + 3 /\
    num_queued_fragments_ d' = num_queued_fragments_ sample_h264_client + 3 /\
    num_skipped_fragments_ d' = num_skipped_fragments_ sample_h264_client + 1.
Proof.
  apply (annexb_units_submitted_in_order true 10 11 sample_h264_client
           [[9; 240]] [103; 1; 2] [[104; 3]; [101; 9; 9; 9]]).
  - vm_compute. repeat split; try done; lia.
  - reflexivity.
  - repeat constructor.
  - repeat constructor; vm_compute; discriminate.
  - reflexivity.
  - reflexivity.
Defined.
